(** * discrete-graphic-disabler: a shallow embedding of the kernel module

    The module [discrete-graphic-disabler.c] switches the discrete GPU of a
    hybrid-graphics laptop off when it is loaded, switches it back on around
    suspend and hibernation, and restores it when it is unloaded.

    The embedding follows the C file function by function.  The module's
    static variables form a record, the kernel services the module calls
    (PCI enumeration, configuration reads, ACPI evaluation, runtime PM,
    the PM notifier chain) are an interface, and every C function is a
    computation in a state-and-fault monad over the whole machine. *)

From Stdlib Require Import ZArith List String Bool Lia.
Import ListNotations.
Open Scope string_scope.
Open Scope list_scope.
Open Scope Z_scope.

(** ** Constants of the kernel headers

    The values of these macros live in <linux/suspend.h>, <linux/pci_ids.h>
    and <asm/errno.h>, not in the module: they are taken as parameters. *)

Class KernelHeaders := {
  PM_HIBERNATION_PREPARE : Z;
  PM_POST_HIBERNATION : Z;
  PM_SUSPEND_PREPARE : Z;
  PM_POST_SUSPEND : Z;
  PM_RESTORE_PREPARE : Z;
  PM_POST_RESTORE : Z;
  PCI_CLASS_DISPLAY_VGA : Z;
  PCI_CLASS_DISPLAY_3D : Z;
  PCI_CLASS_DISPLAY_OTHER : Z;
  PCI_VENDOR_ID_INTEL : Z;
  ENODEV : Z
}.

(** The enum at the top of the C file. *)
Definition GPU_UNCHANGED : Z := -1.
Definition GPU_DISABLE : Z := 0.
Definition GPU_ENABLE : Z := 1.

(** ** Kernel objects *)

(** A [struct pci_dev *] is the position of the device in the kernel's
    global device list; an [acpi_handle] is an opaque non-NULL pointer.
    NULL is [None] in both cases. *)
Definition pci_ptr := nat.
Definition acpi_handle := nat.

(** [struct pci_bus]: only [self], the bridge leading to the bus. *)
Record pci_bus := { self : option pci_ptr }.

(** [struct pci_dev], the fields the module reads.  [acpi_companion] is
    what [DEVICE_ACPI_HANDLE(&pdev->dev)] yields; [driver] is the name of
    the bound [struct pci_driver], if any. *)
Record pci_dev := {
  vendor : Z;
  class : Z;
  acpi_companion : option acpi_handle;
  driver : option string;
  bus : option pci_bus
}.

(** Calls into kernel services that act on the machine. *)
Inductive kcall :=
| k_pci_get_device (from : option pci_ptr)
| k_acpi_get_name (h : acpi_handle)
| k_acpi_evaluate_object (h : option acpi_handle) (method : string)
| k_pm_runtime_get_sync (dev : pci_ptr)
| k_pm_runtime_put_sync (dev : pci_ptr)
| k_register_pm_notifier
| k_unregister_pm_notifier.

(** The platform underneath: its state, what a 32-bit configuration read
    returns, and how a kernel call changes it.  Nothing is assumed about
    it; in particular a firmware method may have no effect at all. *)
Class Platform := {
  hw : Type;
  pci_read_config_dword : hw -> pci_ptr -> Z -> Z;
  hw_step : kcall -> hw -> hw
}.

Inductive loglevel := KERN_ERR | KERN_WARNING | KERN_INFO.

(** ** Traces *)

Definition is_firmware_call (c : kcall) : bool :=
  match c with k_acpi_evaluate_object _ _ => true | _ => false end.

Definition is_method_call (m : string) (c : kcall) : bool :=
  match c with
  | k_acpi_evaluate_object _ m' => String.eqb m m'
  | _ => false
  end.

Definition is_get (c : kcall) : bool :=
  match c with k_pm_runtime_get_sync _ => true | _ => false end.

Definition is_put (c : kcall) : bool :=
  match c with k_pm_runtime_put_sync _ => true | _ => false end.

Definition is_enumeration (c : kcall) : bool :=
  match c with k_pci_get_device _ => true | _ => false end.

Definition count (p : kcall -> bool) (t : list kcall) : nat :=
  List.length (filter p t).

Section Machine.

Context {PF : Platform}.

(** ** State *)

(** The static variables of the module.  [nb_notifier_call] tells whether
    [nb.notifier_call] is non-NULL; the only function ever stored there is
    [discrete_pm_handler]. *)
Record module_vars := {
  device_vendor : Z;
  discrete_state : Z;
  load_discrete_state : Z;
  dis_dev : option pci_ptr;
  dis_handle : option acpi_handle;
  nb_notifier_call : bool
}.

(** The kernel side: the PCI device list in enumeration order, whether
    [nb] sits on the PM notifier chain, the platform, and the calls made so
    far, oldest first. *)
Record kernel := {
  pci_devices : list pci_dev;
  pm_chain_has_nb : bool;
  machine : hw;
  trace : list kcall
}.

(** [dmesg] holds the level and the format string of every printk; the
    formatted arguments are not kept. *)
Record world := {
  vars : module_vars;
  kern : kernel;
  dmesg : list (loglevel * string)
}.

(** The variables as the C initialisers leave them at module load. *)
Definition initial_vars : module_vars :=
  {| device_vendor := 0xffff;
     discrete_state := GPU_UNCHANGED;
     load_discrete_state := GPU_UNCHANGED;
     dis_dev := None;
     dis_handle := None;
     nb_notifier_call := false |}.

Definition insmod (devs : list pci_dev) (m : hw) : world :=
  {| vars := initial_vars;
     kern := {| pci_devices := devs; pm_chain_has_nb := false;
                machine := m; trace := [] |};
     dmesg := [] |}.

Definition set_device_vendor (v : Z) (m : module_vars) : module_vars :=
  {| device_vendor := v;
     discrete_state := discrete_state m;
     load_discrete_state := load_discrete_state m;
     dis_dev := dis_dev m;
     dis_handle := dis_handle m;
     nb_notifier_call := nb_notifier_call m |}.

Definition set_discrete_state (v : Z) (m : module_vars) : module_vars :=
  {| device_vendor := device_vendor m;
     discrete_state := v;
     load_discrete_state := load_discrete_state m;
     dis_dev := dis_dev m;
     dis_handle := dis_handle m;
     nb_notifier_call := nb_notifier_call m |}.

Definition set_load_discrete_state (v : Z) (m : module_vars) : module_vars :=
  {| device_vendor := device_vendor m;
     discrete_state := discrete_state m;
     load_discrete_state := v;
     dis_dev := dis_dev m;
     dis_handle := dis_handle m;
     nb_notifier_call := nb_notifier_call m |}.

Definition set_dis (p : pci_ptr) (h : acpi_handle) (m : module_vars)
  : module_vars :=
  {| device_vendor := device_vendor m;
     discrete_state := discrete_state m;
     load_discrete_state := load_discrete_state m;
     dis_dev := Some p;
     dis_handle := Some h;
     nb_notifier_call := nb_notifier_call m |}.

Definition set_nb_notifier_call (m : module_vars) : module_vars :=
  {| device_vendor := device_vendor m;
     discrete_state := discrete_state m;
     load_discrete_state := load_discrete_state m;
     dis_dev := dis_dev m;
     dis_handle := dis_handle m;
     nb_notifier_call := true |}.

(** A kernel call is appended to the trace and acts on the platform;
    registering and unregistering also move [nb] on and off the chain. *)
Definition kernel_after (c : kcall) (k : kernel) : kernel :=
  {| pci_devices := pci_devices k;
     pm_chain_has_nb :=
       match c with
       | k_register_pm_notifier => true
       | k_unregister_pm_notifier => false
       | _ => pm_chain_has_nb k
       end;
     machine := hw_step c (machine k);
     trace := trace k ++ [c] |}.

(** ** The monad: state over [world], [None] for a NULL or wild pointer
    dereference (a kernel oops). *)

Definition M (A : Type) : Type := world -> option (A * world).

Definition ret {A} (a : A) : M A := fun w => Some (a, w).

Definition bind {A B} (m : M A) (k : A -> M B) : M B :=
  fun w => match m w with
           | Some (a, w') => k a w'
           | None => None
           end.

Definition oops {A} : M A := fun _ => None.

Definition read {A} (f : module_vars -> A) : M A :=
  fun w => Some (f (vars w), w).

Definition assign (f : module_vars -> module_vars) : M unit :=
  fun w => Some (tt, {| vars := f (vars w); kern := kern w;
                        dmesg := dmesg w |}).

Definition call (c : kcall) : M unit :=
  fun w => Some (tt, {| vars := vars w; kern := kernel_after c (kern w);
                        dmesg := dmesg w |}).

Definition printk (l : loglevel) (fmt : string) : M unit :=
  fun w => Some (tt, {| vars := vars w; kern := kern w;
                        dmesg := dmesg w ++ [(l, fmt)] |}).

Definition pr_info := printk KERN_INFO.
Definition pr_warn := printk KERN_WARNING.
Definition pr_err := printk KERN_ERR.

(** [p->...] for a [struct pci_dev *p]. *)
Definition deref (p : option pci_ptr) : M pci_dev :=
  fun w => match p with
           | Some i => match nth_error (pci_devices (kern w)) i with
                       | Some d => Some (d, w)
                       | None => None
                       end
           | None => None
           end.

End Machine.

Notation "x <- m ;; k" := (bind m (fun x => k))
  (at level 61, m at next level, right associativity).
Notation "m ;; k" := (bind m (fun _ => k))
  (at level 61, right associativity).

(** ** The functions of the module *)

Section Driver.

Context {KH : KernelHeaders} {PF : Platform}.

(** [~x] on a [u32]. *)
Definition lnot32 (x : Z) : Z := Z.lnot x mod 2 ^ 32.

(** What [pci_read_config_dword(p, 0, &cfg_word)] leaves in the
    [u32 cfg_word] when the platform is in state [m]. *)
Definition cfg_word_of (m : hw) (p : pci_ptr) : Z :=
  pci_read_config_dword m p 0 mod 2 ^ 32.

(** [pci_read_config_dword(p, 0, &cfg_word)]: it dereferences [p] and
    changes nothing. *)
Definition read_cfg_word (p : option pci_ptr) : M Z :=
  _ <- deref p ;;
  fun w => match p with
           | Some i => Some (cfg_word_of (machine (kern w)) i, w)
           | None => None
           end.

(** [get_discrete_state]: [likely(~cfg_word)] tests [~cfg_word] against
    zero. *)
Definition get_discrete_state : M Z :=
  p <- read dis_dev ;;
  cfg_word <- read_cfg_word p ;;
  if negb (lnot32 cfg_word =? 0) then ret GPU_ENABLE else ret GPU_DISABLE.

(** [dis_dev_get] and [dis_dev_put]: the call is made only when the device
    has a bus and the bus a bridge. *)
Definition dis_dev_get : M unit :=
  p <- read dis_dev ;;
  d <- deref p ;;
  match bus d with
  | Some b => match self b with
              | Some bridge => call (k_pm_runtime_get_sync bridge)
              | None => ret tt
              end
  | None => ret tt
  end.

Definition dis_dev_put : M unit :=
  p <- read dis_dev ;;
  d <- deref p ;;
  match bus d with
  | Some b => match self b with
              | Some bridge => call (k_pm_runtime_put_sync bridge)
              | None => ret tt
              end
  | None => ret tt
  end.

(** [discrete_off] and [discrete_on]: each [return] of the C function ends
    a branch with [ret tt]; the result of [acpi_evaluate_object] is not
    looked at. *)
Definition discrete_off : M unit :=
  pr_info "turning discrete off\n" ;;
  st <- get_discrete_state ;;
  if st =? GPU_DISABLE then ret tt
  else
    p <- read dis_dev ;;
    d <- deref p ;;
    match driver d with
    | Some _ =>
        pr_warn "device %s is in use by driver '%s', refusing OFF\n" ;;
        ret tt
    | None =>
        pr_info "disabling discrete grapics\n" ;;
        h <- read dis_handle ;;
        call (k_acpi_evaluate_object h "_OFF") ;;
        assign (set_discrete_state GPU_DISABLE)
    end.

Definition discrete_on : M unit :=
  pr_info "turn discrete on\n" ;;
  st <- get_discrete_state ;;
  if st =? GPU_ENABLE then ret tt
  else
    pr_info "enabling discrete graphics\n" ;;
    h <- read dis_handle ;;
    call (k_acpi_evaluate_object h "_ON") ;;
    assign (set_discrete_state GPU_ENABLE).

(** [discrete_pm_handler]: the [switch] as a chain of tests of
    [event_type] against the case labels, in the order of the C file; an
    event that matches no label falls through to [return 0]. *)
Definition discrete_pm_handler (event_type : Z) : M Z :=
  (if (event_type =? PM_HIBERNATION_PREPARE)
      || (event_type =? PM_SUSPEND_PREPARE)
   then
     l <- read load_discrete_state ;;
     s <- read discrete_state ;;
     if (l =? GPU_ENABLE) && (s =? GPU_DISABLE)
     then dis_dev_get ;; discrete_on ;; dis_dev_put
     else ret tt
   else if (event_type =? PM_POST_HIBERNATION)
           || (event_type =? PM_POST_SUSPEND)
           || (event_type =? PM_POST_RESTORE)
   then
     l <- read load_discrete_state ;;
     s <- read discrete_state ;;
     if (l =? GPU_ENABLE) && (s =? GPU_ENABLE)
     then dis_dev_get ;; discrete_off ;; dis_dev_put
     else ret tt
   else if event_type =? PM_RESTORE_PREPARE
   then ret tt
   else ret tt) ;;
  ret 0.

(** One round of the [while] loop of [discrete_disabler_init] for each
    device [pci_get_device] hands out, in the order of the device list;
    [pdev] is the previous device and [igd] the locals [igd_dev] and
    [igd_handle].  The last call of [pci_get_device] returns NULL.  The
    reference counts [pci_get_device] maintains and the name buffer that
    [acpi_get_name] fills and [kfree] releases are not modelled. *)
Fixpoint scan (devs : list (pci_ptr * pci_dev)) (pdev : option pci_ptr)
    (igd : option pci_ptr * option acpi_handle)
  : M (option pci_ptr * option acpi_handle) :=
  match devs with
  | [] => call (k_pci_get_device pdev) ;; ret igd
  | (i, d) :: rest =>
      call (k_pci_get_device pdev) ;;
      let pci_class := Z.shiftr (class d) 8 in
      if negb (pci_class =? PCI_CLASS_DISPLAY_VGA)
         && negb (pci_class =? PCI_CLASS_DISPLAY_3D)
         && negb (pci_class =? PCI_CLASS_DISPLAY_OTHER)
      then scan rest (Some i) igd
      else
        match acpi_companion d with
        | None =>
            pr_warn "can not find ACPI handle for VGA device %s\n" ;;
            scan rest (Some i) igd
        | Some handle =>
            call (k_acpi_get_name handle) ;;
            igd' <- (if vendor d =? PCI_VENDOR_ID_INTEL
                     then
                       pr_info "Found intergrated VGA device %s: %s\n" ;;
                       ret (Some i, Some handle)
                     else
                       assign (set_dis i handle) ;;
                       pr_info "Found discrete VGA device %s: %s\n" ;;
                       ret igd) ;;
            dh <- read dis_handle ;;
            match snd igd', dh with
            | Some _, Some _ => ret igd'
            | _, _ => scan rest (Some i) igd'
            end
        end
  end.

(** The device list with the pointer to each device. *)
Definition enumerate (devs : list pci_dev) : list (pci_ptr * pci_dev) :=
  combine (seq 0 (List.length devs)) devs.

(** [discrete_disabler_init]: both branches of the [if] on the load-time
    state end at the label [nothing], that is with [dis_dev_put] and
    [return 0]. *)
Definition discrete_disabler_init : M Z :=
  pr_info "version %s\n" ;;
  devs <- (fun w => Some (enumerate (pci_devices (kern w)), w)) ;;
  _ <- scan devs None (None, None) ;;
  p <- read dis_dev ;;
  match p with
  | None =>
      pr_err "No discrete VGA device found!\n" ;;
      ret (- ENODEV)
  | Some _ =>
      d <- deref p ;;
      assign (set_device_vendor (vendor d)) ;;
      pr_info "Successfully loaded. Discrete card found: %s\n" ;;
      dis_dev_get ;;
      st <- get_discrete_state ;;
      assign (set_load_discrete_state st) ;;
      l <- read load_discrete_state ;;
      if l =? GPU_DISABLE
      then
        pr_info "Discrete card %s is off. Do nothing." ;;
        dis_dev_put ;;
        ret 0
      else
        discrete_off ;;
        pr_info "Successfully disable discrete card %s\n" ;;
        assign set_nb_notifier_call ;;
        call k_register_pm_notifier ;;
        dis_dev_put ;;
        ret 0
  end.

(** [discrete_disabler_exit], with its three early [return]s. *)
Definition discrete_disabler_exit : M unit :=
  p <- read dis_dev ;;
  h <- read dis_handle ;;
  match p, h with
  | Some _, Some _ =>
      l <- read load_discrete_state ;;
      if l =? GPU_DISABLE
      then
        pr_info "discrete card %s is disabled before module load. Do nothing.\n" ;;
        ret tt
      else
        dis_dev_get ;;
        s <- read discrete_state ;;
        if s =? GPU_ENABLE
        then
          pr_info "discrete card %s has already been enabled. Do nothing.\n" ;;
          ret tt
        else
          discrete_on ;;
          pr_info "Unloaded and Discrete card %s is enabled.\n" ;;
          dis_dev_put ;;
          nc <- read nb_notifier_call ;;
          if nc then call k_unregister_pm_notifier else ret tt
  | _, _ => ret tt
  end.

End Driver.

(** * Notions used in the statements *)

Section Notions.

Context {KH : KernelHeaders} {PF : Platform}.

(** ** Valid pointers, guards, traces *)

(** [dis_dev] points at the device [d] of the device list. *)
Definition dis_dev_is (w : world) (p : pci_ptr) (d : pci_dev) : Prop :=
  dis_dev (vars w) = Some p /\ nth_error (pci_devices (kern w)) p = Some d.

(** The bridge above a device: [d->bus && d->bus->self]. *)
Definition bridge_of (d : pci_dev) : option pci_ptr :=
  match bus d with
  | Some b => self b
  | None => None
  end.

(** The Power Domain Guard of the design: acquire, run, release. *)
Definition guarded (op : M unit) : M unit :=
  dis_dev_get ;; op ;; dis_dev_put.

(** Acquisitions of the keep-awake reference not yet released. *)
Definition guard_depth (t : list kcall) : Z :=
  Z.of_nat (count is_get t) - Z.of_nat (count is_put t).

(** The case labels of the [switch] in [discrete_pm_handler]. *)
Definition pm_labels : list Z :=
  [PM_HIBERNATION_PREPARE; PM_SUSPEND_PREPARE; PM_POST_HIBERNATION;
   PM_POST_SUSPEND; PM_POST_RESTORE; PM_RESTORE_PREPARE].

(** ** Machines after a step

    The machine after a printk, a kernel call, an assignment, and after
    each function of the module when [dis_dev] is valid. *)

Definition logged (es : list (loglevel * string)) (w : world) : world :=
  {| vars := vars w; kern := kern w; dmesg := dmesg w ++ es |}.

Definition called (c : kcall) (w : world) : world :=
  {| vars := vars w; kern := kernel_after c (kern w); dmesg := dmesg w |}.

Definition with_vars (f : module_vars -> module_vars) (w : world) : world :=
  {| vars := f (vars w); kern := kern w; dmesg := dmesg w |}.

(** After [dis_dev_get] ([k] is [k_pm_runtime_get_sync]) or [dis_dev_put]
    ([k] is [k_pm_runtime_put_sync]) on device [d]. *)
Definition guard_step (k : pci_ptr -> kcall) (d : pci_dev) (w : world)
  : world :=
  match bridge_of d with
  | Some bridge => called (k bridge) w
  | None => w
  end.

Definition refusal : loglevel * string :=
  (KERN_WARNING, "device %s is in use by driver '%s', refusing OFF\n").

Definition off_done (w : world) : world :=
  with_vars (set_discrete_state GPU_DISABLE)
    (called (k_acpi_evaluate_object (dis_handle (vars w)) "_OFF")
       (logged [(KERN_INFO, "turning discrete off\n");
                (KERN_INFO, "disabling discrete grapics\n")] w)).

Definition off_refused (w : world) : world :=
  logged [(KERN_INFO, "turning discrete off\n"); refusal] w.

Definition on_done (w : world) : world :=
  with_vars (set_discrete_state GPU_ENABLE)
    (called (k_acpi_evaluate_object (dis_handle (vars w)) "_ON")
       (logged [(KERN_INFO, "turn discrete on\n");
                (KERN_INFO, "enabling discrete graphics\n")] w)).

(** After [discrete_off], [dis_dev] pointing at [d]. *)
Definition off_result (p : pci_ptr) (d : pci_dev) (w : world) : world :=
  if cfg_word_of (machine (kern w)) p =? 0xffffffff
  then logged [(KERN_INFO, "turning discrete off\n")] w
  else match driver d with
       | Some _ => off_refused w
       | None => off_done w
       end.

(** After [discrete_on]. *)
Definition on_result (p : pci_ptr) (w : world) : world :=
  if cfg_word_of (machine (kern w)) p =? 0xffffffff
  then on_done w
  else logged [(KERN_INFO, "turn discrete on\n")] w.

Definition exit_msg_off : loglevel * string :=
  (KERN_INFO,
   "discrete card %s is disabled before module load. Do nothing.\n").

Definition exit_msg_on : loglevel * string :=
  (KERN_INFO, "discrete card %s has already been enabled. Do nothing.\n").

Definition exit_msg_done : loglevel * string :=
  (KERN_INFO, "Unloaded and Discrete card %s is enabled.\n").

(** One round of the scan, by the kind of device met. *)
Definition round_skip (pdev : option pci_ptr) (w : world) : world :=
  called (k_pci_get_device pdev) w.

Definition round_no_handle (pdev : option pci_ptr) (w : world) : world :=
  logged [(KERN_WARNING, "can not find ACPI handle for VGA device %s\n")]
    (called (k_pci_get_device pdev) w).

Definition round_integrated (pdev : option pci_ptr) (h : acpi_handle)
    (w : world) : world :=
  logged [(KERN_INFO, "Found intergrated VGA device %s: %s\n")]
    (called (k_acpi_get_name h) (called (k_pci_get_device pdev) w)).

Definition round_discrete (pdev : option pci_ptr) (i : pci_ptr)
    (h : acpi_handle) (w : world) : world :=
  logged [(KERN_INFO, "Found discrete VGA device %s: %s\n")]
    (with_vars (set_dis i h)
       (called (k_acpi_get_name h) (called (k_pci_get_device pdev) w))).

(** [discrete_disabler_init] from [if (!dis_dev)] on. *)
Definition init_tail : M Z :=
  p <- read dis_dev ;;
  match p with
  | None =>
      pr_err "No discrete VGA device found!\n" ;;
      ret (- ENODEV)
  | Some _ =>
      d <- deref p ;;
      assign (set_device_vendor (vendor d)) ;;
      pr_info "Successfully loaded. Discrete card found: %s\n" ;;
      dis_dev_get ;;
      st <- get_discrete_state ;;
      assign (set_load_discrete_state st) ;;
      l <- read load_discrete_state ;;
      if l =? GPU_DISABLE
      then
        pr_info "Discrete card %s is off. Do nothing." ;;
        dis_dev_put ;;
        ret 0
      else
        discrete_off ;;
        pr_info "Successfully disable discrete card %s\n" ;;
        assign set_nb_notifier_call ;;
        call k_register_pm_notifier ;;
        dis_dev_put ;;
        ret 0
  end.

Definition init_banner (w : world) : world :=
  logged [(KERN_INFO, "version %s\n")] w.

(** The machine when [get_discrete_state] is called at load time. *)
Definition init_awake (d : pci_dev) (w : world) : world :=
  guard_step k_pm_runtime_get_sync d
    (logged [(KERN_INFO, "Successfully loaded. Discrete card found: %s\n")]
       (with_vars (set_device_vendor (vendor d)) w)).

(** After loading, the device having been found off. *)
Definition init_left_off (p : pci_ptr) (d : pci_dev) (w : world) : world :=
  guard_step k_pm_runtime_put_sync d
    (logged [(KERN_INFO, "Discrete card %s is off. Do nothing.")]
       (with_vars (set_load_discrete_state GPU_DISABLE) (init_awake d w))).

(** After loading, the device having been found on. *)
Definition init_switched (p : pci_ptr) (d : pci_dev) (w : world) : world :=
  guard_step k_pm_runtime_put_sync d
    (called k_register_pm_notifier
       (with_vars set_nb_notifier_call
          (logged [(KERN_INFO, "Successfully disable discrete card %s\n")]
             (off_result p d
                (with_vars (set_load_discrete_state GPU_ENABLE)
                   (init_awake d w)))))).

(** ** Classification, in the words of the design

    A graphics-class device with a firmware handle is integrated when its
    vendor is the integrated-graphics vendor, and a candidate for discrete
    otherwise. *)

Definition opt_is {A} (o : option A) : bool :=
  match o with Some _ => true | None => false end.

Definition is_display (d : pci_dev) : bool :=
  let c := Z.shiftr (class d) 8 in
  (c =? PCI_CLASS_DISPLAY_VGA) || (c =? PCI_CLASS_DISPLAY_3D)
  || (c =? PCI_CLASS_DISPLAY_OTHER).

Definition controllable (d : pci_dev) : bool :=
  is_display d && opt_is (acpi_companion d).

Definition integrated_candidate (d : pci_dev) : bool :=
  controllable d && (vendor d =? PCI_VENDOR_ID_INTEL).

Definition discrete_candidate (d : pci_dev) : bool :=
  controllable d && negb (vendor d =? PCI_VENDOR_ID_INTEL).

(** Both classifications are resolved, [have_igd] and [have_dis] telling
    what was resolved before [l]. *)
Definition resolved (have_igd have_dis : bool)
    (l : list (pci_ptr * pci_dev)) : bool :=
  (have_igd || existsb (fun x => integrated_candidate (snd x)) l)
  && (have_dis || existsb (fun x => discrete_candidate (snd x)) l).

(** The devices observed: scanning stops once both classifications are
    resolved. *)
Fixpoint observed (have_igd have_dis : bool) (l : list (pci_ptr * pci_dev))
  : list (pci_ptr * pci_dev) :=
  match l with
  | [] => []
  | x :: rest =>
      let have_igd' := have_igd || integrated_candidate (snd x) in
      let have_dis' := have_dis || discrete_candidate (snd x) in
      if have_igd' && have_dis' then [x]
      else x :: observed have_igd' have_dis' rest
  end.

(** The last discrete candidate of a list. *)
Fixpoint last_discrete (l : list (pci_ptr * pci_dev))
  : option (pci_ptr * pci_dev) :=
  match l with
  | [] => None
  | x :: rest =>
      match last_discrete rest with
      | Some y => Some y
      | None => if discrete_candidate (snd x) then Some x else None
      end
  end.

(** [obs] is a prefix of the enumeration [l], no proper prefix of it
    resolves both classifications, and it resolves both or is all of [l]. *)
Definition shortest_resolving_prefix
    (l obs : list (pci_ptr * pci_dev)) : Prop :=
  (exists rest, l = obs ++ rest) /\
  (forall pre x, obs = pre ++ [x] -> resolved false false pre = false) /\
  (resolved false false obs = true \/ obs = l).

(** ** Invariants of the scan *)

(** What one round of the loop on device [d] at [i] establishes. *)
Definition one_round (i : pci_ptr) (d : pci_dev)
    (igd : option pci_ptr * option acpi_handle) (w : world)
    (igd1 : option pci_ptr * option acpi_handle) (w1 : world) : Prop :=
  pci_devices (kern w1) = pci_devices (kern w) /\
  pm_chain_has_nb (kern w1) = pm_chain_has_nb (kern w) /\
  device_vendor (vars w1) = device_vendor (vars w) /\
  discrete_state (vars w1) = discrete_state (vars w) /\
  load_discrete_state (vars w1) = load_discrete_state (vars w) /\
  nb_notifier_call (vars w1) = nb_notifier_call (vars w) /\
  (forall q, (forall f, q (k_pci_get_device f) = false) ->
             (forall h, q (k_acpi_get_name h) = false) ->
             count q (trace (kern w1)) = count q (trace (kern w))) /\
  (dis_dev (vars w1), dis_handle (vars w1)) =
    (if discrete_candidate d then (Some i, acpi_companion d)
     else (dis_dev (vars w), dis_handle (vars w))) /\
  count is_enumeration (trace (kern w1)) =
    S (count is_enumeration (trace (kern w))) /\
  opt_is (snd igd1) = opt_is (snd igd) || integrated_candidate d /\
  opt_is (dis_handle (vars w1)) =
    opt_is (dis_handle (vars w)) || discrete_candidate d.

(** What the scan of [l] establishes, from [w] with locals [igd] to [w']
    with locals [igd']. *)
Definition scan_post (l : list (pci_ptr * pci_dev))
    (igd : option pci_ptr * option acpi_handle) (w : world)
    (igd' : option pci_ptr * option acpi_handle) (w' : world) : Prop :=
  let obs := observed (opt_is (snd igd)) (opt_is (dis_handle (vars w))) l in
  pci_devices (kern w') = pci_devices (kern w) /\
  pm_chain_has_nb (kern w') = pm_chain_has_nb (kern w) /\
  device_vendor (vars w') = device_vendor (vars w) /\
  discrete_state (vars w') = discrete_state (vars w) /\
  load_discrete_state (vars w') = load_discrete_state (vars w) /\
  nb_notifier_call (vars w') = nb_notifier_call (vars w) /\
  (forall q, (forall f, q (k_pci_get_device f) = false) ->
             (forall h, q (k_acpi_get_name h) = false) ->
             count q (trace (kern w')) = count q (trace (kern w))) /\
  (dis_dev (vars w'), dis_handle (vars w')) =
    match last_discrete obs with
    | Some (i, d) => (Some i, acpi_companion d)
    | None => (dis_dev (vars w), dis_handle (vars w))
    end /\
  count is_enumeration (trace (kern w')) =
    (count is_enumeration (trace (kern w)) + List.length obs
     + (if resolved (opt_is (snd igd)) (opt_is (dis_handle (vars w))) obs
        then 0 else 1))%nat.

(** ** Sentences of the design the code does not meet, as stated *)

(** A refused [discrete_off] makes no firmware call and leaves
    [discrete_state] equal to GPU_ENABLE. *)
Definition refused_off_leaves_enabled (w : world) : Prop :=
  forall p d drv,
    dis_dev_is w p d ->
    driver d = Some drv ->
    exists w',
      discrete_off w = Some (tt, w') /\
      count is_firmware_call (trace (kern w')) =
        count is_firmware_call (trace (kern w)) /\
      discrete_state (vars w') = GPU_ENABLE.

(** When [discrete_off] is refused at load time, the notifier is not
    registered. *)
Definition registers_only_on_success (w : world) : Prop :=
  forall r w',
    discrete_disabler_init w = Some (r, w') ->
    In refusal (dmesg w') ->
    pm_chain_has_nb (kern w') = false.

(** Two calls of [discrete_off] in a row evaluate "_OFF" exactly once. *)
Definition off_twice_calls_once (w : world) : Prop :=
  forall p d,
    dis_dev_is w p d ->
    exists w2,
      (discrete_off ;; discrete_off) w = Some (tt, w2) /\
      count (is_method_call "_OFF") (trace (kern w2)) =
        S (count (is_method_call "_OFF") (trace (kern w))).

End Notions.

(** * Further notions: a platform that obeys, runs of events *)

Section Obedience.

Context {KH : KernelHeaders} {PF : Platform}.

(** The firmware methods of handle [h] take effect on device [p]: after
    "_OFF" its first configuration register reads all-ones, after "_ON" it
    does not. *)
Definition firmware_obeyed (p : pci_ptr) (h : option acpi_handle) : Prop :=
  (forall m,
     cfg_word_of (hw_step (k_acpi_evaluate_object h "_OFF") m) p
     = 0xffffffff) /\
  (forall m,
     cfg_word_of (hw_step (k_acpi_evaluate_object h "_ON") m) p
     <> 0xffffffff).

(** No kernel call other than a firmware method changes what the first
    configuration register of [p] reads. *)
Definition register_stable (p : pci_ptr) : Prop :=
  forall m c,
    is_firmware_call c = false ->
    cfg_word_of (hw_step c m) p = cfg_word_of m p.

(** The firmware calls of a trace, in order. *)
Definition firmware_calls (t : list kcall) : list kcall :=
  filter is_firmware_call t.

(** The PM core delivering a run of events to the notifier, one call of
    [discrete_pm_handler] per event. *)
Fixpoint pm_events (evs : list Z) : M unit :=
  match evs with
  | [] => ret tt
  | ev :: rest => discrete_pm_handler ev ;; pm_events rest
  end.

(** What a call of the notifier may change: [discrete_state], the
    platform, the trace and the log; and it releases what it acquires. *)
Definition notifier_frame (w w' : world) : Prop :=
  pci_devices (kern w') = pci_devices (kern w) /\
  pm_chain_has_nb (kern w') = pm_chain_has_nb (kern w) /\
  guard_depth (trace (kern w')) = guard_depth (trace (kern w)) /\
  device_vendor (vars w') = device_vendor (vars w) /\
  load_discrete_state (vars w') = load_discrete_state (vars w) /\
  dis_dev (vars w') = dis_dev (vars w) /\
  dis_handle (vars w') = dis_handle (vars w) /\
  nb_notifier_call (vars w') = nb_notifier_call (vars w).

(** The machine after [discrete_disabler_exit] when it runs to its end,
    [dis_dev] pointing at [d]. *)
Definition exit_world (p : pci_ptr) (d : pci_dev) (w : world) : world :=
  let w1 := guard_step k_pm_runtime_put_sync d
              (logged [exit_msg_done]
                 (on_result p (guard_step k_pm_runtime_get_sync d w))) in
  if nb_notifier_call (vars w)
  then called k_unregister_pm_notifier w1
  else w1.

End Obedience.

(** * A concrete machine

    The header constants with the values Linux gives them, and a
    hybrid-graphics laptop: an Intel GPU, a PCIe root port, and behind it an
    NVIDIA GPU whose firmware methods work. *)

Definition linux_headers : KernelHeaders :=
  {| PM_HIBERNATION_PREPARE := 0x0001;
     PM_POST_HIBERNATION := 0x0002;
     PM_SUSPEND_PREPARE := 0x0003;
     PM_POST_SUSPEND := 0x0004;
     PM_RESTORE_PREPARE := 0x0005;
     PM_POST_RESTORE := 0x0006;
     PCI_CLASS_DISPLAY_VGA := 0x0300;
     PCI_CLASS_DISPLAY_3D := 0x0302;
     PCI_CLASS_DISPLAY_OTHER := 0x0380;
     PCI_VENDOR_ID_INTEL := 0x8086;
     ENODEV := 19 |}.

Definition igd : pci_dev :=
  {| vendor := 0x8086; class := 0x030000; acpi_companion := Some 1%nat;
     driver := Some "i915"; bus := Some {| self := None |} |}.

Definition root_port : pci_dev :=
  {| vendor := 0x8086; class := 0x060400; acpi_companion := Some 3%nat;
     driver := Some "pcieport"; bus := Some {| self := None |} |}.

Definition nvidia (drv : option string) : pci_dev :=
  {| vendor := 0x10de; class := 0x030200; acpi_companion := Some 2%nat;
     driver := drv; bus := Some {| self := Some 1%nat |} |}.

(** The platform state is whether the NVIDIA GPU (device 2, handle 2) has
    power; without power its configuration space reads all-ones. *)
Definition laptop : Platform :=
  {| hw := bool;
     pci_read_config_dword := fun powered p off =>
       if (p =? 2)%nat
       then if powered then 0x0fd410de else 0xffffffff
       else 0x01668086;
     hw_step := fun c powered =>
       match c with
       | k_acpi_evaluate_object (Some 2%nat) m =>
           if String.eqb m "_OFF" then false
           else if String.eqb m "_ON" then true
           else powered
       | _ => powered
       end |}.

Section Laptop.

#[local] Existing Instance linux_headers.
#[local] Existing Instance laptop.

(** What happens around the module: a driver binds to a device. *)
Definition bind_driver {PF : Platform} (p : pci_ptr) (name : string)
  : M unit :=
  fun w =>
    let rebind i d :=
      if (i =? p)%nat
      then {| vendor := vendor d; class := class d;
              acpi_companion := acpi_companion d;
              driver := Some name; bus := bus d |}
      else d in
    Some (tt,
          {| vars := vars w;
             kern := {| pci_devices :=
                          map (fun id => rebind (fst id) (snd id))
                              (enumerate (pci_devices (kern w)));
                        pm_chain_has_nb := pm_chain_has_nb (kern w);
                        machine := machine (kern w);
                        trace := trace (kern w) |};
             dmesg := dmesg w |}).

Definition world_of {PF : Platform} {A} (r : option (A * world))
    (otherwise : world) : world :=
  match r with
  | Some (_, w) => w
  | None => otherwise
  end.

(** The laptop when the module is loaded, the GPU powered and bound to
    [drv]. *)
Definition laptop_at_boot (drv : option string) : world :=
  insmod [igd; root_port; nvidia drv] true.

(** The laptop at the point where [discrete_disabler_init] calls
    [discrete_off]. *)
Definition laptop_probed (drv : option string) : world :=
  {| vars := {| device_vendor := 0x10de;
                discrete_state := GPU_UNCHANGED;
                load_discrete_state := GPU_ENABLE;
                dis_dev := Some 2%nat;
                dis_handle := Some 2%nat;
                nb_notifier_call := false |};
     kern := {| pci_devices := [igd; root_port; nvidia drv];
                pm_chain_has_nb := false;
                machine := true;
                trace := [k_pci_get_device None; k_acpi_get_name 1%nat;
                          k_pci_get_device (Some 0%nat);
                          k_pci_get_device (Some 1%nat);
                          k_acpi_get_name 2%nat;
                          k_pm_runtime_get_sync 1%nat] |};
     dmesg := [(KERN_INFO, "version %s\n");
               (KERN_INFO, "Found intergrated VGA device %s: %s\n");
               (KERN_INFO, "Found discrete VGA device %s: %s\n");
               (KERN_INFO,
                "Successfully loaded. Discrete card found: %s\n")] |}.

(** The laptop once the module is loaded and the GPU switched off. *)
Definition laptop_loaded : world :=
  Eval vm_compute in
    world_of (discrete_disabler_init (laptop_at_boot None))
             (laptop_at_boot None).

(** The laptop after [insmod] and one suspend and resume during which
    nouveau binds to the GPU: the state [rmmod] finds. *)
Definition laptop_resumed : world :=
  Eval vm_compute in
    world_of ((discrete_pm_handler PM_SUSPEND_PREPARE ;;
               bind_driver 2%nat "nouveau" ;;
               discrete_pm_handler PM_POST_SUSPEND) laptop_loaded)
             laptop_loaded.

End Laptop.

(** * More machines: a refused load, and firmware that does nothing *)

Section MoreLaptops.

#[local] Existing Instance linux_headers.

(** The laptop after a load during which nouveau held the GPU. *)
Definition laptop_refused : @world laptop :=
  Eval vm_compute in
    @world_of laptop _
      (@discrete_disabler_init linux_headers laptop
         (laptop_at_boot (Some "nouveau")))
      (laptop_at_boot (Some "nouveau")).

(** A laptop whose GPU stays on whatever method is evaluated. *)
Definition stuck_laptop : Platform :=
  {| hw := unit;
     pci_read_config_dword := fun _ p off =>
       if (p =? 2)%nat then 0x0fd410de else 0x01668086;
     hw_step := fun _ m => m |}.

(** It, at the point where [discrete_disabler_init] calls
    [discrete_off]. *)
Definition stuck_probed : @world stuck_laptop :=
  {| vars := {| device_vendor := 0x10de;
                discrete_state := GPU_UNCHANGED;
                load_discrete_state := GPU_ENABLE;
                dis_dev := Some 2%nat;
                dis_handle := Some 2%nat;
                nb_notifier_call := false |};
     kern := {| pci_devices := [igd; root_port; nvidia None];
                pm_chain_has_nb := false;
                machine := (tt : @hw stuck_laptop);
                trace := [k_pci_get_device None; k_acpi_get_name 1%nat;
                          k_pci_get_device (Some 0%nat);
                          k_pci_get_device (Some 1%nat);
                          k_acpi_get_name 2%nat;
                          k_pm_runtime_get_sync 1%nat] |};
     dmesg := [(KERN_INFO, "version %s\n");
               (KERN_INFO, "Found intergrated VGA device %s: %s\n");
               (KERN_INFO, "Found discrete VGA device %s: %s\n");
               (KERN_INFO,
                "Successfully loaded. Discrete card found: %s\n")] |}.

End MoreLaptops.

(** * Properties *)

Arguments cfg_word_of : simpl never.
Arguments lnot32 : simpl never.

Ltac crush_world w :=
  let dv := fresh "dv" in let ds := fresh "ds" in let ls := fresh "ls" in
  let dd := fresh "dd" in let dh := fresh "dh" in let nb := fresh "nb" in
  let devs := fresh "devs" in let reg := fresh "reg" in
  let m := fresh "m" in let tr := fresh "tr" in let log := fresh "log" in
  destruct w as [[dv ds ls dd dh nb] [devs reg m tr] log];
  cbn in *; subst.

Ltac exec :=
  cbv [discrete_disabler_exit discrete_pm_handler discrete_off discrete_on
       get_discrete_state read_cfg_word dis_dev_get dis_dev_put
       bind ret read assign call printk pr_info pr_warn pr_err deref oops];
  cbn.

(** ** Bits of a [u32] *)

Lemma lnot32_zero_iff (x : Z) :
  0 <= x < 2 ^ 32 -> (lnot32 x = 0 <-> x = 0xffffffff).
Proof.
  intros Hx. unfold lnot32, Z.lnot.
  split; intros H.
  - pose proof (Z.div_mod (Z.pred (- x)) (2 ^ 32)) as E.
    rewrite H in E. lia.
  - subst x. reflexivity.
Qed.

Lemma all_ones_bits (x : Z) :
  0 <= x < 2 ^ 32 ->
  (x = 0xffffffff <-> forall i, 0 <= i < 32 -> Z.testbit x i = true).
Proof.
  intros Hx. split.
  - intros -> i Hi. change 0xffffffff with (Z.ones 32).
    apply Z.ones_spec_low. lia.
  - intros H. change 0xffffffff with (Z.ones 32).
    apply Z.bits_inj'. intros n Hn.
    destruct (Z.lt_ge_cases n 32) as [Hlt | Hge].
    + rewrite H by lia. symmetry. apply Z.ones_spec_low. lia.
    + rewrite Z.ones_spec_high by lia.
      rewrite <- (Z.mod_small x (2 ^ 32)) by lia.
      apply Z.mod_pow2_bits_high. lia.
Qed.

Lemma count_snoc (p : kcall -> bool) (t : list kcall) (c : kcall) :
  count p (t ++ [c]) = (count p t + (if p c then 1 else 0))%nat.
Proof.
  unfold count. rewrite filter_app, length_app. cbn.
  destruct (p c); reflexivity.
Qed.

Section Proofs.

Context {KH : KernelHeaders} {PF : Platform}.

Lemma cfg_word_range (m : hw) (p : pci_ptr) : 0 <= cfg_word_of m p < 2 ^ 32.
Proof. unfold cfg_word_of. apply Z.mod_pos_bound. lia. Qed.

(** The reading of the oracle as a function of the register. *)
Lemma get_discrete_state_eq (w : world) (p : pci_ptr) (d : pci_dev) :
  dis_dev_is w p d ->
  get_discrete_state w =
    Some (if cfg_word_of (machine (kern w)) p =? 0xffffffff
          then GPU_DISABLE else GPU_ENABLE, w).
Proof.
  intros [Hp Hd]. crush_world w. exec. rewrite Hd. cbn.
  pose proof (lnot32_zero_iff _ (cfg_word_range m p)) as L.
  destruct (lnot32 (cfg_word_of m p) =? 0) eqn:E1;
    destruct (cfg_word_of m p =? 0xffffffff) eqn:E2;
    cbn; try reflexivity; exfalso; lia.
Qed.

(** C7: whatever the first configuration register of the discrete device
    reads, [get_discrete_state] returns [GPU_DISABLE] if and only if all 32
    bits of the register are set, and [GPU_ENABLE] otherwise; it returns the
    machine as it found it. *)
Theorem get_discrete_state_all_ones (w : world) (p : pci_ptr) (d : pci_dev) :
  dis_dev_is w p d ->
  exists st,
    get_discrete_state w = Some (st, w) /\
    (st = GPU_DISABLE <->
     forall i, 0 <= i < 32 ->
               Z.testbit (cfg_word_of (machine (kern w)) p) i = true) /\
    (st <> GPU_DISABLE -> st = GPU_ENABLE).
Proof.
  intros H. rewrite (get_discrete_state_eq w p d H).
  pose proof (all_ones_bits _ (cfg_word_range (machine (kern w)) p)) as B.
  destruct (cfg_word_of (machine (kern w)) p =? 0xffffffff) eqn:E;
    eexists; (split; [reflexivity|]); split.
  - split; [intros _; apply B; lia | reflexivity].
  - intros C. now elim C.
  - split; [discriminate | intros A; apply B in A; lia].
  - reflexivity.
Qed.

(** Symbolic execution, one monadic step at a time *)

Lemma bind_some {A B} (m : M A) (k : A -> M B) (w w1 : world) (a : A) :
  m w = Some (a, w1) -> bind m k w = k a w1.
Proof. intros E. unfold bind. rewrite E. reflexivity. Qed.

Lemma printk_eq l fmt (w : world) :
  printk l fmt w = Some (tt, logged [(l, fmt)] w).
Proof. reflexivity. Qed.

Lemma assign_eq f (w : world) : assign f w = Some (tt, with_vars f w).
Proof. reflexivity. Qed.

Lemma call_eq c (w : world) : call c w = Some (tt, called c w).
Proof. reflexivity. Qed.

Lemma read_eq {A} (f : module_vars -> A) (w : world) :
  read f w = Some (f (vars w), w).
Proof. reflexivity. Qed.

Lemma deref_eq (w : world) (p : pci_ptr) (d : pci_dev) :
  dis_dev_is w p d -> deref (Some p) w = Some (d, w).
Proof. intros [_ Hd]. unfold deref. rewrite Hd. reflexivity. Qed.

(** ** What each function does to a machine whose [dis_dev] is valid *)

Lemma dis_dev_is_logged w p d es :
  dis_dev_is w p d -> dis_dev_is (logged es w) p d.
Proof. intros H; exact H. Qed.

Lemma dis_dev_is_called w p d c :
  dis_dev_is w p d -> dis_dev_is (called c w) p d.
Proof. intros H; exact H. Qed.

Lemma dis_dev_is_guard_step w p d k d' :
  dis_dev_is w p d -> dis_dev_is (guard_step k d' w) p d.
Proof. intros H. unfold guard_step. destruct (bridge_of d'); exact H. Qed.

Lemma dis_dev_is_set_discrete_state w p d v :
  dis_dev_is w p d -> dis_dev_is (with_vars (set_discrete_state v) w) p d.
Proof. intros H; exact H. Qed.

Lemma dis_dev_is_set_load w p d v :
  dis_dev_is w p d ->
  dis_dev_is (with_vars (set_load_discrete_state v) w) p d.
Proof. intros H; exact H. Qed.

Lemma dis_dev_is_set_vendor w p d v :
  dis_dev_is w p d -> dis_dev_is (with_vars (set_device_vendor v) w) p d.
Proof. intros H; exact H. Qed.

Lemma dis_dev_is_set_nb w p d :
  dis_dev_is w p d -> dis_dev_is (with_vars set_nb_notifier_call w) p d.
Proof. intros H; exact H. Qed.

Lemma dis_dev_is_off_result w p d p' d' :
  dis_dev_is w p d -> dis_dev_is (off_result p' d' w) p d.
Proof.
  intros H. unfold off_result.
  destruct (_ =? _); [exact H|]. destruct (driver d'); exact H.
Qed.

Lemma dis_dev_is_on_result w p d p' :
  dis_dev_is w p d -> dis_dev_is (on_result p' w) p d.
Proof. intros H. unfold on_result. destruct (_ =? _); exact H. Qed.

Create HintDb world.
#[local] Hint Resolve dis_dev_is_logged dis_dev_is_called
  dis_dev_is_guard_step dis_dev_is_set_discrete_state dis_dev_is_set_load
  dis_dev_is_set_vendor dis_dev_is_set_nb dis_dev_is_off_result
  dis_dev_is_on_result : world.

Lemma dis_dev_get_eq (w : world) (p : pci_ptr) (d : pci_dev) :
  dis_dev_is w p d ->
  dis_dev_get w = Some (tt, guard_step k_pm_runtime_get_sync d w).
Proof.
  intros [Hp Hd]. crush_world w. exec. rewrite Hd. cbn.
  unfold guard_step, bridge_of.
  destruct (bus d) as [[[b|]]|]; reflexivity.
Qed.

Lemma dis_dev_put_eq (w : world) (p : pci_ptr) (d : pci_dev) :
  dis_dev_is w p d ->
  dis_dev_put w = Some (tt, guard_step k_pm_runtime_put_sync d w).
Proof.
  intros [Hp Hd]. crush_world w. exec. rewrite Hd. cbn.
  unfold guard_step, bridge_of.
  destruct (bus d) as [[[b|]]|]; reflexivity.
Qed.

Lemma discrete_off_eq (w : world) (p : pci_ptr) (d : pci_dev) :
  dis_dev_is w p d ->
  discrete_off w = Some (tt, off_result p d w).
Proof.
  intros H. unfold off_result.
  unfold discrete_off, bind at 1 2, pr_info at 1, printk.
  erewrite get_discrete_state_eq by (split; apply H).
  destruct H as [Hp Hd]. crush_world w.
  destruct (cfg_word_of m p =? 0xffffffff); exec; [reflexivity|].
  rewrite Hd. cbn.
  destruct (driver d); unfold off_refused, off_done, logged, called, with_vars;
    cbn; rewrite <- app_assoc; reflexivity.
Qed.

Lemma discrete_on_eq (w : world) (p : pci_ptr) (d : pci_dev) :
  dis_dev_is w p d ->
  discrete_on w = Some (tt, on_result p w).
Proof.
  intros H. unfold on_result.
  unfold discrete_on, bind at 1 2, pr_info at 1, printk.
  erewrite get_discrete_state_eq by (split; apply H).
  destruct H as [Hp Hd]. crush_world w.
  destruct (cfg_word_of m p =? 0xffffffff); exec; [|reflexivity].
  unfold on_done, logged, called, with_vars; cbn.
  rewrite <- app_assoc; reflexivity.
Qed.

(** C3 (amended): while a driver is bound to the discrete device,
    [discrete_off] makes no kernel call, hence no firmware call, and leaves
    every variable of the module, [discrete_state] included, as it was.  It
    returns nothing; the refusal shows only in the log, as a warning, when
    the register does not read all-ones. *)
Theorem discrete_off_claimed
    (w : world) (p : pci_ptr) (d : pci_dev) (drv : string) :
  dis_dev_is w p d ->
  driver d = Some drv ->
  exists w',
    discrete_off w = Some (tt, w') /\
    vars w' = vars w /\
    kern w' = kern w /\
    dmesg w' =
      dmesg w ++
      (KERN_INFO, "turning discrete off\n") ::
      (if cfg_word_of (machine (kern w)) p =? 0xffffffff then []
       else [refusal]).
Proof.
  intros H Hdrv. rewrite (discrete_off_eq w p d H). unfold off_result.
  rewrite Hdrv.
  eexists. split; [reflexivity|].
  destruct (cfg_word_of (machine (kern w)) p =? 0xffffffff);
    repeat split; reflexivity.
Qed.

(** C8 (amended): both transitions ask the oracle first.  Provided the
    "_OFF" method takes effect (the register reads all-ones after it), a
    second [discrete_off] right after a first leaves the kernel as it is,
    trace included, whatever the first did; and on a device that reads
    Enabled and has no driver the first makes exactly one firmware call,
    "_OFF" on [dis_handle], so the two together make exactly one.  These
    conditions are needed: with a driver bound the two calls make none,
    and with an "_OFF" that has no effect they make two.  On a device that
    reads Enabled, [discrete_on] leaves kernel and variables as they
    are. *)
Theorem transitions_idempotent (w : world) (p : pci_ptr) (d : pci_dev) :
  dis_dev_is w p d ->
  (cfg_word_of
     (hw_step (k_acpi_evaluate_object (dis_handle (vars w)) "_OFF")
        (machine (kern w))) p = 0xffffffff ->
   exists w1 w2,
     discrete_off w = Some (tt, w1) /\
     discrete_off w1 = Some (tt, w2) /\
     (discrete_off ;; discrete_off) w = Some (tt, w2) /\
     kern w2 = kern w1 /\
     (get_discrete_state w = Some (GPU_ENABLE, w) ->
      driver d = None ->
      trace (kern w1) =
        trace (kern w) ++
        [k_acpi_evaluate_object (dis_handle (vars w)) "_OFF"] /\
      count is_firmware_call (trace (kern w2)) =
        S (count is_firmware_call (trace (kern w))) /\
      count (is_method_call "_OFF") (trace (kern w2)) =
        S (count (is_method_call "_OFF") (trace (kern w))))) /\
  (get_discrete_state w = Some (GPU_ENABLE, w) ->
   exists w',
     discrete_on w = Some (tt, w') /\
     kern w' = kern w /\ vars w' = vars w).
Proof.
  intros H. rewrite (get_discrete_state_eq w p d H). split.
  - intros Hfw.
    assert (H1 : discrete_off w = Some (tt, off_result p d w))
      by exact (discrete_off_eq w p d H).
    assert (H2 : discrete_off (off_result p d w) =
                 Some (tt, off_result p d (off_result p d w)))
      by (apply discrete_off_eq; auto with world).
    exists (off_result p d w), (off_result p d (off_result p d w)).
    split; [exact H1|]. split; [exact H2|].
    split; [exact (eq_trans (bind_some _ _ _ _ _ H1) H2)|].
    unfold off_result.
    destruct (cfg_word_of (machine (kern w)) p =? 0xffffffff) eqn:E.
    { cbn. rewrite E. split; [reflexivity|]. intros C. discriminate C. }
    destruct (driver d) as [drv|] eqn:Hdrv.
    { cbn. rewrite E. split; [reflexivity|]. intros _ C. discriminate C. }
    cbn -[count]. rewrite Hfw. cbn -[count].
    split; [reflexivity|]. intros _ _. split; [reflexivity|].
    rewrite !count_snoc. cbn. split; lia.
  - destruct (cfg_word_of (machine (kern w)) p =? 0xffffffff) eqn:E;
      [discriminate|].
    intros _. rewrite (discrete_on_eq w p d H). unfold on_result. rewrite E.
    eexists. repeat split; reflexivity.
Qed.

(** ** The Power Domain Guard *)


Lemma guarded_off_eq (w : world) (p : pci_ptr) (d : pci_dev) :
  dis_dev_is w p d ->
  guarded discrete_off w =
    Some (tt, guard_step k_pm_runtime_put_sync d
                (off_result p d (guard_step k_pm_runtime_get_sync d w))).
Proof.
  intros H. unfold guarded, bind.
  rewrite (dis_dev_get_eq w p d H).
  rewrite (discrete_off_eq _ p d) by auto with world.
  apply (dis_dev_put_eq _ p d). auto with world.
Qed.

Lemma guarded_on_eq (w : world) (p : pci_ptr) (d : pci_dev) :
  dis_dev_is w p d ->
  guarded discrete_on w =
    Some (tt, guard_step k_pm_runtime_put_sync d
                (on_result p (guard_step k_pm_runtime_get_sync d w))).
Proof.
  intros H. unfold guarded, bind.
  rewrite (dis_dev_get_eq w p d H).
  rewrite (discrete_on_eq _ p d) by auto with world.
  apply (dis_dev_put_eq _ p d). auto with world.
Qed.

Lemma guard_depth_snoc (t : list kcall) (c : kcall) :
  guard_depth (t ++ [c]) =
  guard_depth t + (if is_get c then 1 else 0) - (if is_put c then 1 else 0).
Proof.
  unfold guard_depth. rewrite !count_snoc.
  destruct (is_get c), (is_put c); lia.
Qed.

Lemma depth_guard_get w d :
  guard_depth (trace (kern (guard_step k_pm_runtime_get_sync d w))) =
  guard_depth (trace (kern w)) +
  match bridge_of d with Some _ => 1 | None => 0 end.
Proof.
  unfold guard_step. destruct (bridge_of d); cbn -[guard_depth]; [|lia].
  rewrite guard_depth_snoc. cbn. lia.
Qed.

Lemma depth_guard_put w d :
  guard_depth (trace (kern (guard_step k_pm_runtime_put_sync d w))) =
  guard_depth (trace (kern w)) -
  match bridge_of d with Some _ => 1 | None => 0 end.
Proof.
  unfold guard_step. destruct (bridge_of d); cbn -[guard_depth]; [|lia].
  rewrite guard_depth_snoc. cbn. lia.
Qed.

Lemma depth_off_result w p d :
  guard_depth (trace (kern (off_result p d w))) =
  guard_depth (trace (kern w)).
Proof.
  unfold off_result. destruct (_ =? _); [reflexivity|].
  destruct (driver d); [reflexivity|].
  cbn -[guard_depth]. rewrite guard_depth_snoc. cbn. lia.
Qed.

Lemma depth_on_result w p :
  guard_depth (trace (kern (on_result p w))) = guard_depth (trace (kern w)).
Proof.
  unfold on_result. destruct (_ =? _); [|reflexivity].
  cbn -[guard_depth]. rewrite guard_depth_snoc. cbn. lia.
Qed.

(** A guarded transition releases what it acquired, refused or not. *)
Lemma guarded_off_balanced (w : world) (p : pci_ptr) (d : pci_dev) :
  dis_dev_is w p d ->
  exists w', guarded discrete_off w = Some (tt, w') /\
             guard_depth (trace (kern w')) = guard_depth (trace (kern w)).
Proof.
  intros H. rewrite (guarded_off_eq w p d H). eexists. split; [reflexivity|].
  rewrite depth_guard_put, depth_off_result, depth_guard_get. lia.
Qed.

Lemma guarded_on_balanced (w : world) (p : pci_ptr) (d : pci_dev) :
  dis_dev_is w p d ->
  exists w', guarded discrete_on w = Some (tt, w') /\
             guard_depth (trace (kern w')) = guard_depth (trace (kern w)).
Proof.
  intros H. rewrite (guarded_on_eq w p d H). eexists. split; [reflexivity|].
  rewrite depth_guard_put, depth_on_result, depth_guard_get. lia.
Qed.

(** ** The PM notifier *)

Lemma handler_pre (w : world) (ev : Z) :
  ev = PM_HIBERNATION_PREPARE \/ ev = PM_SUSPEND_PREPARE ->
  discrete_pm_handler ev w =
    if (load_discrete_state (vars w) =? GPU_ENABLE)
       && (discrete_state (vars w) =? GPU_DISABLE)
    then (guarded discrete_on ;; ret 0) w
    else Some (0, w).
Proof.
  intros E. unfold discrete_pm_handler.
  replace ((ev =? PM_HIBERNATION_PREPARE) || (ev =? PM_SUSPEND_PREPARE))
    with true
    by (destruct E; subst ev; rewrite Z.eqb_refl, ?orb_true_r; reflexivity).
  unfold bind at 1 2 3, read.
  destruct (_ && _); reflexivity.
Qed.

Lemma handler_post (w : world) (ev : Z) :
  ev <> PM_HIBERNATION_PREPARE -> ev <> PM_SUSPEND_PREPARE ->
  ev = PM_POST_HIBERNATION \/ ev = PM_POST_SUSPEND \/ ev = PM_POST_RESTORE ->
  discrete_pm_handler ev w =
    if (load_discrete_state (vars w) =? GPU_ENABLE)
       && (discrete_state (vars w) =? GPU_ENABLE)
    then (guarded discrete_off ;; ret 0) w
    else Some (0, w).
Proof.
  intros N1 N2 E. unfold discrete_pm_handler.
  apply Z.eqb_neq in N1, N2. rewrite N1, N2. cbn [orb].
  replace ((ev =? PM_POST_HIBERNATION) || (ev =? PM_POST_SUSPEND)
           || (ev =? PM_POST_RESTORE)) with true
    by (destruct E as [E | [E | E]]; subst ev;
        rewrite Z.eqb_refl, ?orb_true_r; reflexivity).
  unfold bind at 1 2 3, read.
  destruct (_ && _); reflexivity.
Qed.

Lemma handler_other (w : world) (ev : Z) :
  ev <> PM_HIBERNATION_PREPARE -> ev <> PM_SUSPEND_PREPARE ->
  ev <> PM_POST_HIBERNATION -> ev <> PM_POST_SUSPEND ->
  ev <> PM_POST_RESTORE ->
  discrete_pm_handler ev w = Some (0, w).
Proof.
  intros N1 N2 N3 N4 N5. unfold discrete_pm_handler.
  apply Z.eqb_neq in N1, N2, N3, N4, N5. rewrite N1, N2, N3, N4, N5.
  cbn [orb]. destruct (ev =? PM_RESTORE_PREPARE); reflexivity.
Qed.

Lemma pm_labels_apart :
  NoDup pm_labels ->
  PM_POST_HIBERNATION <> PM_HIBERNATION_PREPARE /\
  PM_POST_HIBERNATION <> PM_SUSPEND_PREPARE /\
  PM_POST_SUSPEND <> PM_HIBERNATION_PREPARE /\
  PM_POST_SUSPEND <> PM_SUSPEND_PREPARE /\
  PM_POST_RESTORE <> PM_HIBERNATION_PREPARE /\
  PM_POST_RESTORE <> PM_SUSPEND_PREPARE /\
  PM_RESTORE_PREPARE <> PM_HIBERNATION_PREPARE /\
  PM_RESTORE_PREPARE <> PM_SUSPEND_PREPARE /\
  PM_RESTORE_PREPARE <> PM_POST_HIBERNATION /\
  PM_RESTORE_PREPARE <> PM_POST_SUSPEND /\
  PM_RESTORE_PREPARE <> PM_POST_RESTORE.
Proof.
  unfold pm_labels. intros ND.
  repeat match goal with
         | H : NoDup (_ :: _) |- _ => inversion H; clear H; subst
         end.
  cbn in *. repeat split; intros E; rewrite E in *; tauto.
Qed.

(** C5: the notifier follows the event matrix.  The case labels of the
    [switch] are distinct constants.  On PM_HIBERNATION_PREPARE and
    PM_SUSPEND_PREPARE it runs [discrete_on] between [dis_dev_get] and
    [dis_dev_put] exactly when [load_discrete_state] is GPU_ENABLE and
    [discrete_state] is GPU_DISABLE, and otherwise does nothing; on
    PM_POST_HIBERNATION, PM_POST_SUSPEND and PM_POST_RESTORE it runs
    [discrete_off] between the two exactly when both are GPU_ENABLE, and
    otherwise does nothing; on PM_RESTORE_PREPARE it does nothing.  With
    [dis_dev] valid, a transition so wrapped leaves the machine the
    transition produces between the acquisition and the release. *)
Theorem pm_handler_matrix (w : world) (ev : Z) :
  NoDup pm_labels ->
  (ev = PM_HIBERNATION_PREPARE \/ ev = PM_SUSPEND_PREPARE ->
   discrete_pm_handler ev w =
     if (load_discrete_state (vars w) =? GPU_ENABLE)
        && (discrete_state (vars w) =? GPU_DISABLE)
     then (guarded discrete_on ;; ret 0) w
     else Some (0, w)) /\
  (ev = PM_POST_HIBERNATION \/ ev = PM_POST_SUSPEND \/ ev = PM_POST_RESTORE ->
   discrete_pm_handler ev w =
     if (load_discrete_state (vars w) =? GPU_ENABLE)
        && (discrete_state (vars w) =? GPU_ENABLE)
     then (guarded discrete_off ;; ret 0) w
     else Some (0, w)) /\
  (ev = PM_RESTORE_PREPARE -> discrete_pm_handler ev w = Some (0, w)) /\
  (forall p d,
     dis_dev_is w p d ->
     guarded discrete_on w =
       Some (tt, guard_step k_pm_runtime_put_sync d
                   (on_result p (guard_step k_pm_runtime_get_sync d w))) /\
     guarded discrete_off w =
       Some (tt, guard_step k_pm_runtime_put_sync d
                   (off_result p d (guard_step k_pm_runtime_get_sync d w)))).
Proof.
  intros ND. pose proof (pm_labels_apart ND) as D.
  split; [apply handler_pre|]. split; [|split].
  - intros E. apply handler_post; [| |exact E];
      destruct E as [E | [E | E]]; subst ev; tauto.
  - intros ->. apply handler_other; tauto.
  - intros p d V. split; [apply guarded_on_eq | apply guarded_off_eq];
      exact V.
Qed.

(** C10: whatever event it is given, the notifier returns 0 (the module
    being loaded, [dis_dev] is valid); on an event that is none of the six
    case labels it leaves the whole machine as it was. *)
Theorem pm_handler_returns_zero
    (w : world) (p : pci_ptr) (d : pci_dev) (ev : Z) :
  dis_dev_is w p d ->
  (exists w', discrete_pm_handler ev w = Some (0, w')) /\
  (~ In ev pm_labels -> discrete_pm_handler ev w = Some (0, w)).
Proof.
  intros H. split.
  - destruct (Z.eq_dec ev PM_HIBERNATION_PREPARE) as [E1 | N1];
      [|destruct (Z.eq_dec ev PM_SUSPEND_PREPARE) as [E2 | N2]].
    1, 2: rewrite handler_pre by tauto; destruct (_ && _); eauto;
      unfold bind; rewrite (guarded_on_eq w p d H); eexists; reflexivity.
    destruct (Z.eq_dec ev PM_POST_HIBERNATION) as [E3 | N3];
      [|destruct (Z.eq_dec ev PM_POST_SUSPEND) as [E4 | N4];
        [|destruct (Z.eq_dec ev PM_POST_RESTORE) as [E5 | N5]]].
    1, 2, 3: rewrite handler_post by tauto; destruct (_ && _); eauto;
      unfold bind; rewrite (guarded_off_eq w p d H); eexists; reflexivity.
    rewrite handler_other by assumption. eauto.
  - unfold pm_labels. cbn [In]. intros N.
    apply handler_other; intros E; apply N; subst ev; tauto.
Qed.

(** ** Unloading *)

Lemma exit_without_device (w : world) :
  dis_dev (vars w) = None \/ dis_handle (vars w) = None ->
  discrete_disabler_exit w = Some (tt, w).
Proof.
  intros H. crush_world w. exec.
  destruct H; subst; [|destruct dd]; reflexivity.
Qed.

Lemma exit_eq (w : world) (p : pci_ptr) (d : pci_dev) (h : acpi_handle) :
  dis_dev_is w p d ->
  dis_handle (vars w) = Some h ->
  discrete_disabler_exit w =
    Some (tt,
          if load_discrete_state (vars w) =? GPU_DISABLE
          then logged [exit_msg_off] w
          else if discrete_state (vars w) =? GPU_ENABLE
          then logged [exit_msg_on] (guard_step k_pm_runtime_get_sync d w)
          else
            let w' :=
              guard_step k_pm_runtime_put_sync d
                (logged [exit_msg_done]
                   (on_result p (guard_step k_pm_runtime_get_sync d w))) in
            if nb_notifier_call (vars w)
            then called k_unregister_pm_notifier w'
            else w').
Proof.
  intros H Hh. unfold discrete_disabler_exit, bind at 1 2 3, read.
  destruct H as [Hp Hd]. rewrite Hp, Hh.
  destruct (load_discrete_state (vars w) =? GPU_DISABLE); [reflexivity|].
  unfold bind at 1 2. rewrite (dis_dev_get_eq w p d (conj Hp Hd)).
  assert (E : discrete_state
                (vars (guard_step k_pm_runtime_get_sync d w)) =
              discrete_state (vars w))
    by (unfold guard_step; destruct (bridge_of d); reflexivity).
  rewrite E. destruct (discrete_state (vars w) =? GPU_ENABLE); [reflexivity|].
  unfold bind at 1.
  rewrite (discrete_on_eq _ p d) by (apply dis_dev_is_guard_step; split; auto).
  unfold bind at 1 2, pr_info at 1, printk.
  fold (logged [exit_msg_done]
          (on_result p (guard_step k_pm_runtime_get_sync d w))).
  rewrite (dis_dev_put_eq _ p d)
    by (apply dis_dev_is_logged, dis_dev_is_on_result, dis_dev_is_guard_step;
        split; auto).
  unfold bind, read.
  assert (N : nb_notifier_call
                (vars (guard_step k_pm_runtime_put_sync d
                         (logged [exit_msg_done]
                            (on_result p
                               (guard_step k_pm_runtime_get_sync d w))))) =
              nb_notifier_call (vars w)).
  { unfold guard_step, on_result.
    destruct (bridge_of d), (_ =? _); reflexivity. }
  cbv zeta. unfold logged, exit_msg_done in N |- *. rewrite N.
  destruct (nb_notifier_call (vars w)); reflexivity.
Qed.

(** Unloading restores the device and cleans up on the path that reaches
    the end of [discrete_disabler_exit], and does nothing when the device
    was already off at load time. *)
Lemma exit_other_paths
    (w : world) (p : pci_ptr) (d : pci_dev) (h : acpi_handle) :
  dis_dev_is w p d ->
  dis_handle (vars w) = Some h ->
  discrete_state (vars w) <> GPU_ENABLE ->
  exists w',
    discrete_disabler_exit w = Some (tt, w') /\
    guard_depth (trace (kern w')) = guard_depth (trace (kern w)) /\
    (load_discrete_state (vars w) = GPU_DISABLE ->
     vars w' = vars w /\ kern w' = kern w) /\
    (load_discrete_state (vars w) <> GPU_DISABLE ->
     nb_notifier_call (vars w) = true ->
     pm_chain_has_nb (kern w') = false).
Proof.
  intros H Hh Hs. rewrite (exit_eq w p d h H Hh).
  eexists. split; [reflexivity|].
  destruct (Z.eqb_spec (load_discrete_state (vars w)) GPU_DISABLE) as [L | L].
  { repeat split; congruence. }
  destruct (Z.eqb_spec (discrete_state (vars w)) GPU_ENABLE) as [S | S];
    [contradiction|].
  cbv zeta. split; [|split; [contradiction|]].
  - destruct (nb_notifier_call (vars w)); cbn -[guard_depth];
      rewrite ?guard_depth_snoc; cbn -[guard_depth];
      rewrite depth_guard_put; cbn -[guard_depth];
      rewrite depth_on_result, depth_guard_get; lia.
  - intros _ ->. reflexivity.
Qed.

(** C1, the path that breaks it: with the device found, the load-time
    state not GPU_DISABLE and [discrete_state] equal to GPU_ENABLE,
    [discrete_disabler_exit] calls [pm_runtime_get_sync] on the bridge and
    returns without the matching [pm_runtime_put_sync]: one more reference
    is held after the call than before. *)
Theorem exit_enabled_leaks_guard
    (w : world) (p : pci_ptr) (d : pci_dev) (h : acpi_handle)
    (bridge : pci_ptr) :
  dis_dev_is w p d ->
  dis_handle (vars w) = Some h ->
  bridge_of d = Some bridge ->
  load_discrete_state (vars w) <> GPU_DISABLE ->
  discrete_state (vars w) = GPU_ENABLE ->
  exists w',
    discrete_disabler_exit w = Some (tt, w') /\
    trace (kern w') = trace (kern w) ++ [k_pm_runtime_get_sync bridge] /\
    guard_depth (trace (kern w')) = guard_depth (trace (kern w)) + 1.
Proof.
  intros H Hh Hb Hl Hs. rewrite (exit_eq w p d h H Hh).
  apply Z.eqb_neq in Hl. rewrite Hl, Hs. cbn [Z.eqb GPU_ENABLE Pos.eqb].
  unfold guard_step. rewrite Hb.
  eexists. split; [reflexivity|]. split; [reflexivity|].
  cbn -[guard_depth]. rewrite guard_depth_snoc. cbn. lia.
Qed.

(** C4, the path that breaks it: in the same situation, with [nb] on the
    PM notifier chain, [discrete_disabler_exit] returns with [nb] still on
    the chain, having called neither [pm_runtime_put_sync] nor
    [unregister_pm_notifier] nor any firmware method. *)
Theorem exit_enabled_skips_cleanup
    (w : world) (p : pci_ptr) (d : pci_dev) (h : acpi_handle) :
  dis_dev_is w p d ->
  dis_handle (vars w) = Some h ->
  load_discrete_state (vars w) <> GPU_DISABLE ->
  discrete_state (vars w) = GPU_ENABLE ->
  pm_chain_has_nb (kern w) = true ->
  exists w',
    discrete_disabler_exit w = Some (tt, w') /\
    pm_chain_has_nb (kern w') = true /\
    count is_put (trace (kern w')) = count is_put (trace (kern w)) /\
    count is_firmware_call (trace (kern w')) =
      count is_firmware_call (trace (kern w)) /\
    vars w' = vars w.
Proof.
  intros H Hh Hl Hs Hreg. rewrite (exit_eq w p d h H Hh).
  apply Z.eqb_neq in Hl. rewrite Hl, Hs. cbn [Z.eqb GPU_ENABLE Pos.eqb].
  unfold guard_step.
  eexists. split; [reflexivity|].
  destruct (bridge_of d); cbn -[count]; rewrite ?count_snoc; cbn;
    repeat split; auto; lia.
Qed.

(** ** The scan of the PCI devices *)

Lemma scan_nil pdev igd w :
  scan [] pdev igd w = Some (igd, called (k_pci_get_device pdev) w).
Proof. reflexivity. Qed.

Lemma is_display_test (d : pci_dev) :
  negb (Z.shiftr (class d) 8 =? PCI_CLASS_DISPLAY_VGA)
  && negb (Z.shiftr (class d) 8 =? PCI_CLASS_DISPLAY_3D)
  && negb (Z.shiftr (class d) 8 =? PCI_CLASS_DISPLAY_OTHER)
  = negb (is_display d).
Proof. unfold is_display. cbv zeta. rewrite !negb_orb. reflexivity. Qed.

Lemma scan_cons i d rest pdev igd w :
  scan ((i, d) :: rest) pdev igd w =
    if negb (is_display d)
    then scan rest (Some i) igd (round_skip pdev w)
    else match acpi_companion d with
         | None => scan rest (Some i) igd (round_no_handle pdev w)
         | Some h =>
             if vendor d =? PCI_VENDOR_ID_INTEL
             then match dis_handle (vars w) with
                  | Some _ =>
                      Some ((Some i, Some h), round_integrated pdev h w)
                  | None =>
                      scan rest (Some i) (Some i, Some h)
                        (round_integrated pdev h w)
                  end
             else match snd igd with
                  | Some _ => Some (igd, round_discrete pdev i h w)
                  | None => scan rest (Some i) igd (round_discrete pdev i h w)
                  end
         end.
Proof.
  rewrite <- is_display_test. cbn [scan]. unfold bind at 1, call at 1.
  cbv zeta.
  destruct (negb _ && negb _ && negb _); [reflexivity|].
  destruct (acpi_companion d) as [h|]; [|reflexivity].
  unfold bind at 1, call at 1. unfold bind at 1.
  destruct (vendor d =? PCI_VENDOR_ID_INTEL).
  - unfold bind at 1, pr_info, printk, ret, bind, read. cbn.
    destruct (dis_handle (vars w)); reflexivity.
  - unfold bind at 1, assign, bind at 1, pr_info, printk, ret, bind, read.
    cbn. destruct (snd igd); reflexivity.
Qed.

Lemma resolved_cons hi hd x l :
  resolved hi hd (x :: l) =
  resolved (hi || integrated_candidate (snd x))
           (hd || discrete_candidate (snd x)) l.
Proof. unfold resolved. cbn [existsb]. rewrite !orb_assoc. reflexivity. Qed.

Lemma scan_post_continue i d rest igd w igd1 w1 igd' w' :
  one_round i d igd w igd1 w1 ->
  opt_is (snd igd1) && opt_is (dis_handle (vars w1)) = false ->
  scan_post rest igd1 w1 igd' w' ->
  scan_post ((i, d) :: rest) igd w igd' w'.
Proof.
  intros (R1 & R2 & R3 & R4 & R5 & R6 & R7 & R8 & R9 & R10 & R11) Hn
         (P1 & P2 & P3 & P4 & P5 & P6 & P7 & P8 & P9).
  unfold scan_post. cbn [observed snd].
  rewrite <- R10, <- R11, Hn.
  repeat split; try congruence.
  - intros q Q1 Q2. rewrite P7, R7; auto.
  - cbn [last_discrete snd]. rewrite P8.
    destruct (last_discrete _) as [[j e]|]; [reflexivity|].
    rewrite R8. destruct (discrete_candidate d); reflexivity.
  - rewrite P9, R9, resolved_cons. cbn [snd List.length].
    rewrite <- R10, <- R11. lia.
Qed.

Lemma scan_post_stop i d rest igd w igd1 w1 :
  one_round i d igd w igd1 w1 ->
  opt_is (snd igd1) && opt_is (dis_handle (vars w1)) = true ->
  scan_post ((i, d) :: rest) igd w igd1 w1.
Proof.
  intros (R1 & R2 & R3 & R4 & R5 & R6 & R7 & R8 & R9 & R10 & R11) Hb.
  unfold scan_post. cbn [observed snd].
  rewrite <- R10, <- R11, Hb.
  repeat split; try congruence.
  - exact R7.
  - cbn [last_discrete snd]. rewrite R8.
    destruct (discrete_candidate d); reflexivity.
  - rewrite R9, resolved_cons. cbn [snd List.length].
    rewrite <- R10, <- R11. unfold resolved. cbn [existsb].
    rewrite !orb_false_r, Hb. lia.
Qed.

Lemma round_skip_ok i d pdev igd w :
  is_display d = false -> one_round i d igd w igd (round_skip pdev w).
Proof.
  intros E. unfold one_round, integrated_candidate, discrete_candidate,
    controllable. rewrite E. cbn -[count].
  rewrite !orb_false_r. repeat split.
  - intros q Q1 _. rewrite count_snoc, Q1. lia.
  - rewrite count_snoc. cbn. lia.
Qed.

Lemma round_no_handle_ok i d pdev igd w :
  acpi_companion d = None ->
  one_round i d igd w igd (round_no_handle pdev w).
Proof.
  intros E. unfold one_round, integrated_candidate, discrete_candidate,
    controllable. rewrite E. cbn -[count].
  rewrite !andb_false_r, !orb_false_r. repeat split.
  - intros q Q1 _. rewrite count_snoc, Q1. lia.
  - rewrite count_snoc. cbn. lia.
Qed.

Lemma round_integrated_ok i d h pdev igd w :
  is_display d = true -> acpi_companion d = Some h ->
  (vendor d =? PCI_VENDOR_ID_INTEL) = true ->
  one_round i d igd w (Some i, Some h) (round_integrated pdev h w).
Proof.
  intros E1 E2 E3. unfold one_round, integrated_candidate,
    discrete_candidate, controllable. rewrite E1, E2, E3. cbn -[count].
  rewrite !orb_false_r, !orb_true_r. repeat split.
  - intros q Q1 Q2. rewrite !count_snoc, Q1, Q2. lia.
  - rewrite !count_snoc. cbn. lia.
Qed.

Lemma round_discrete_ok i d h pdev igd w :
  is_display d = true -> acpi_companion d = Some h ->
  (vendor d =? PCI_VENDOR_ID_INTEL) = false ->
  one_round i d igd w igd (round_discrete pdev i h w).
Proof.
  intros E1 E2 E3. unfold one_round, integrated_candidate,
    discrete_candidate, controllable. rewrite E1, E2, E3. cbn -[count].
  rewrite !orb_false_r, !orb_true_r. repeat split.
  - intros q Q1 Q2. rewrite !count_snoc, Q1, Q2. lia.
  - rewrite !count_snoc. cbn. lia.
Qed.

Lemma scan_spec (l : list (pci_ptr * pci_dev)) :
  forall pdev igd w,
    opt_is (snd igd) && opt_is (dis_handle (vars w)) = false ->
    exists igd' w',
      scan l pdev igd w = Some (igd', w') /\ scan_post l igd w igd' w'.
Proof.
  induction l as [|[i d] rest IH]; intros pdev igd w Hpre.
  - rewrite scan_nil. eexists _, _. split; [reflexivity|].
    unfold scan_post. cbn -[count]. repeat split.
    + intros q Q1 _. rewrite count_snoc, Q1. lia.
    + rewrite count_snoc. unfold resolved. cbn.
      rewrite !orb_false_r, Hpre. lia.
  - rewrite scan_cons.
    destruct (is_display d) eqn:E1; cbn [negb].
    2: { pose proof (round_skip_ok i d pdev igd w E1) as R.
         destruct (IH (Some i) igd (round_skip pdev w) Hpre)
           as (igd' & w' & Hs & Hp).
         exists igd', w'. split; [exact Hs|].
         eapply scan_post_continue; eauto. }
    destruct (acpi_companion d) as [h|] eqn:E2.
    2: { pose proof (round_no_handle_ok i d pdev igd w E2) as R.
         destruct (IH (Some i) igd (round_no_handle pdev w) Hpre)
           as (igd' & w' & Hs & Hp).
         exists igd', w'. split; [exact Hs|].
         eapply scan_post_continue; eauto. }
    destruct (vendor d =? PCI_VENDOR_ID_INTEL) eqn:E3.
    + pose proof (round_integrated_ok i d h pdev igd w E1 E2 E3) as R.
      destruct (dis_handle (vars w)) as [dh|] eqn:E4.
      * eexists _, _. split; [reflexivity|].
        apply scan_post_stop; [exact R|]. cbn. rewrite E4. reflexivity.
      * assert (Hn : opt_is (snd (Some i, Some h))
                     && opt_is (dis_handle (vars (round_integrated pdev h w)))
                     = false) by (cbn; rewrite E4; reflexivity).
        destruct (IH (Some i) _ _ Hn) as (igd' & w' & Hs & Hp).
        exists igd', w'. split; [exact Hs|].
        eapply scan_post_continue; eauto.
    + pose proof (round_discrete_ok i d h pdev igd w E1 E2 E3) as R.
      destruct (snd igd) as [ih|] eqn:E4.
      * eexists _, _. split; [reflexivity|].
        apply scan_post_stop; [exact R|]. rewrite E4. reflexivity.
      * assert (Hn : opt_is (snd igd)
                     && opt_is (dis_handle (vars (round_discrete pdev i h w)))
                     = false) by (rewrite E4; reflexivity).
        destruct (IH (Some i) _ _ Hn) as (igd' & w' & Hs & Hp).
        exists igd', w'. split; [exact Hs|].
        eapply scan_post_continue; eauto.
Qed.


(** ** Loading *)

Lemma init_eq (w : world) :
  discrete_disabler_init w =
    (scan (enumerate (pci_devices (kern w))) None (None, None) ;; init_tail)
      (init_banner w).
Proof. reflexivity. Qed.

Lemma init_tail_none (w : world) :
  dis_dev (vars w) = None ->
  init_tail w =
    Some (- ENODEV,
          logged [(KERN_ERR, "No discrete VGA device found!\n")] w).
Proof. intros H. unfold init_tail, bind at 1, read. rewrite H. reflexivity. Qed.

Ltac step p d :=
  unfold pr_info, pr_warn, pr_err;
  first
    [ erewrite bind_some by apply printk_eq
    | erewrite bind_some by apply assign_eq
    | erewrite bind_some by apply call_eq
    | erewrite bind_some by apply read_eq
    | erewrite bind_some by (apply (deref_eq _ p d); auto 20 with world)
    | erewrite bind_some by (apply (dis_dev_get_eq _ p d); auto 20 with world)
    | erewrite bind_some by (apply (dis_dev_put_eq _ p d); auto 20 with world)
    | erewrite bind_some
        by (apply (get_discrete_state_eq _ p d); auto 20 with world)
    | erewrite bind_some by (apply (discrete_off_eq _ p d); auto 20 with world)
    | erewrite bind_some
        by (apply (discrete_on_eq _ p d); auto 20 with world) ].

Lemma dis_dev_is_init_awake w p d d' :
  dis_dev_is w p d -> dis_dev_is (init_awake d' w) p d.
Proof. intros H. unfold init_awake. auto with world. Qed.

#[local] Hint Resolve dis_dev_is_init_awake : world.

Lemma init_tail_some (w : world) (p : pci_ptr) (d : pci_dev) :
  dis_dev_is w p d ->
  init_tail w =
    Some (0,
          if cfg_word_of (machine (kern (init_awake d w))) p =? 0xffffffff
          then init_left_off p d w
          else init_switched p d w).
Proof.
  intros H. pose proof H as [Hp Hd]. unfold init_tail.
  step p d. rewrite Hp. do 7 step p d.
  fold (init_awake d w). cbn [vars load_discrete_state with_vars
                              set_load_discrete_state].
  destruct (cfg_word_of (machine (kern (init_awake d w))) p =? 0xffffffff).
  - cbn [Z.eqb GPU_DISABLE]. do 2 step p d. reflexivity.
  - cbn [Z.eqb GPU_DISABLE GPU_ENABLE]. do 5 step p d. reflexivity.
Qed.

(** ** Enumeration and the observed prefix *)

Lemma combine_seq_nth (l : list pci_dev) :
  forall s i d,
    In (i, d) (combine (seq s (List.length l)) l) ->
    (s <= i)%nat /\ nth_error l (i - s) = Some d.
Proof.
  induction l as [|x l IH]; intros s i d Hin; [contradiction|].
  cbn [List.length seq combine In] in Hin. destruct Hin as [E | Hin].
  - inversion E; subst. split; [lia|]. rewrite Nat.sub_diag. reflexivity.
  - apply IH in Hin. destruct Hin as [Hle Hn]. split; [lia|].
    replace (i - s)%nat with (S (i - S s)) by lia. exact Hn.
Qed.

Lemma enumerate_nth (devs : list pci_dev) (i : pci_ptr) (d : pci_dev) :
  In (i, d) (enumerate devs) -> nth_error devs i = Some d.
Proof.
  intros Hin. apply combine_seq_nth in Hin. destruct Hin as [_ Hn].
  rewrite Nat.sub_0_r in Hn. exact Hn.
Qed.

Lemma enumerate_in (devs : list pci_dev) (i : pci_ptr) (d : pci_dev) :
  In (i, d) (enumerate devs) -> In d devs.
Proof. intros Hin. eapply nth_error_In, enumerate_nth, Hin. Qed.

Lemma observed_prefix (l : list (pci_ptr * pci_dev)) :
  forall hi hd, exists rest, l = observed hi hd l ++ rest.
Proof.
  induction l as [|x l IH]; intros hi hd; [exists []; reflexivity|].
  cbn [observed]. destruct (_ && _).
  - exists l. reflexivity.
  - destruct (IH (hi || integrated_candidate (snd x))
                 (hd || discrete_candidate (snd x))) as [rest E].
    exists rest. cbn [app]. rewrite <- E. reflexivity.
Qed.

Lemma observed_incl (l : list (pci_ptr * pci_dev)) hi hd x :
  In x (observed hi hd l) -> In x l.
Proof.
  destruct (observed_prefix l hi hd) as [rest E]. intros Hin.
  rewrite E. apply in_or_app. left. exact Hin.
Qed.

(** The scan goes on as long as a classification is missing. *)
Lemma observed_minimal (l : list (pci_ptr * pci_dev)) :
  forall hi hd pre x,
    hi && hd = false ->
    observed hi hd l = pre ++ [x] ->
    resolved hi hd pre = false.
Proof.
  induction l as [|y l IH]; intros hi hd pre x Hn E.
  - destruct pre; discriminate.
  - cbn [observed] in E.
    destruct ((hi || integrated_candidate (snd y))
              && (hd || discrete_candidate (snd y))) eqn:B.
    + destruct pre as [|z pre].
      * unfold resolved. cbn. rewrite !orb_false_r. exact Hn.
      * destruct pre; discriminate.
    + destruct pre as [|z pre].
      * destruct (observed _ _ l) eqn:O; [|discriminate].
        unfold resolved. cbn. rewrite !orb_false_r. exact Hn.
      * cbn [app] in E. inversion E; subst z.
        rewrite resolved_cons. eapply IH; eauto.
Qed.

(** It stops as soon as both are there. *)
Lemma observed_stops (l : list (pci_ptr * pci_dev)) :
  forall hi hd,
    resolved hi hd (observed hi hd l) = true \/ observed hi hd l = l.
Proof.
  induction l as [|y l IH]; intros hi hd; [right; reflexivity|].
  cbn [observed].
  destruct ((hi || integrated_candidate (snd y))
            && (hd || discrete_candidate (snd y))) eqn:B.
  - left. rewrite resolved_cons. unfold resolved. cbn.
    rewrite !orb_false_r. exact B.
  - destruct (IH (hi || integrated_candidate (snd y))
                 (hd || discrete_candidate (snd y))) as [R | E].
    + left. rewrite resolved_cons. exact R.
    + right. rewrite E. reflexivity.
Qed.

(** [last_discrete] is the last discrete candidate of the list. *)
Lemma last_discrete_split (l : list (pci_ptr * pci_dev)) x :
  last_discrete l = Some x ->
  exists pre post,
    l = pre ++ x :: post /\
    discrete_candidate (snd x) = true /\
    forall y, In y post -> discrete_candidate (snd y) = false.
Proof.
  induction l as [|y l IH]; intros E; [discriminate|].
  cbn [last_discrete] in E. destruct (last_discrete l) as [z|] eqn:L.
  - inversion E; subst z. destruct (IH eq_refl) as (pre & post & E1 & C & N).
    exists (y :: pre), post. rewrite E1. auto.
  - destruct (discrete_candidate (snd y)) eqn:C; [|discriminate].
    inversion E; subst y. exists [], l. repeat split; auto.
    clear - L. induction l as [|z l IH]; intros y Hin; [contradiction|].
    cbn [last_discrete] in L. destruct (last_discrete l); [discriminate|].
    destruct (discrete_candidate (snd z)) eqn:C; [discriminate|].
    destruct Hin as [-> | Hin]; auto.
Qed.

Lemma last_discrete_none (l : list (pci_ptr * pci_dev)) :
  (forall y, In y l -> discrete_candidate (snd y) = false) ->
  last_discrete l = None.
Proof.
  intros N. destruct (last_discrete l) as [x|] eqn:L; [|reflexivity].
  apply last_discrete_split in L. destruct L as (pre & post & E & C & _).
  rewrite N in C; [discriminate|]. rewrite E. apply in_or_app. right. left.
  reflexivity.
Qed.

Lemma observed_shortest (l : list (pci_ptr * pci_dev)) :
  shortest_resolving_prefix l (observed false false l).
Proof.
  split; [apply observed_prefix|]. split.
  - intros pre x E. eapply observed_minimal; eauto.
  - apply observed_stops.
Qed.

(** ** What loading the module does *)

(** Case analysis on what a run of [discrete_disabler_init] met: a bridge
    above the device or none, the register reading, a bound driver. *)
Ltac world_cases d :=
  unfold init_left_off, init_switched, init_awake, guard_step;
  destruct (bridge_of d);
  unfold off_result;
  try match goal with
      | |- context [if ?c then _ else _] => destruct c
      end;
  try destruct (driver d).

(** The scan at load time finds the last discrete candidate of the
    observed prefix, and the rest of [discrete_disabler_init] runs on the
    machine [ws] the scan leaves. *)
Lemma init_outcome (devs : list pci_dev) (m : hw) :
  let w := insmod devs m in
  let obs := observed false false (enumerate devs) in
  exists igd ws,
    scan_post (enumerate devs) (None, None) (init_banner w) igd ws /\
    match last_discrete obs with
    | None =>
        dis_dev (vars ws) = None /\
        dis_handle (vars ws) = None /\
        discrete_disabler_init w =
          Some (- ENODEV,
                logged [(KERN_ERR, "No discrete VGA device found!\n")] ws)
    | Some (p, d) =>
        dis_dev_is ws p d /\
        dis_handle (vars ws) = acpi_companion d /\
        discrete_candidate d = true /\
        discrete_disabler_init w =
          Some (0,
                if cfg_word_of (machine (kern (init_awake d ws))) p
                   =? 0xffffffff
                then init_left_off p d ws
                else init_switched p d ws)
    end.
Proof.
  intros w obs.
  destruct (scan_spec (enumerate devs) None (None, None) (init_banner w)
              eq_refl) as (igd & ws & Hs & Hp).
  exists igd, ws. split; [exact Hp|].
  rewrite init_eq. change (pci_devices (kern w)) with devs.
  rewrite (bind_some _ _ _ _ _ Hs).
  destruct Hp as (P1 & _ & _ & _ & _ & _ & _ & P8 & _).
  assert (P8' : (dis_dev (vars ws), dis_handle (vars ws)) =
                match last_discrete obs with
                | Some (i, d) => (Some i, acpi_companion d)
                | None => (None, None)
                end) by exact P8.
  clear P8. rename P8' into P8.
  destruct (last_discrete obs) as [[p d]|] eqn:L.
  - inversion P8 as [[E1 E2]].
    apply last_discrete_split in L. destruct L as (pre & post & E & C & _).
    assert (Hin : In (p, d) (enumerate devs)).
    { apply (observed_incl _ false false). fold obs. rewrite E.
      apply in_or_app. right. left. reflexivity. }
    assert (V : dis_dev_is ws p d).
    { split; [exact E1|]. rewrite P1. apply enumerate_nth. exact Hin. }
    repeat split; try assumption; try apply V.
    apply init_tail_some. exact V.
  - inversion P8 as [[E1 E2]]. split; [reflexivity|]. split; [reflexivity|].
    apply init_tail_none. exact E1.
Qed.


(** Loading releases every reference it acquires. *)
Lemma init_guard_balanced (devs : list pci_dev) (m : hw) :
  exists r w',
    discrete_disabler_init (insmod devs m) = Some (r, w') /\
    guard_depth (trace (kern w')) = 0.
Proof.
  destruct (init_outcome devs m) as (igd & ws & Hp & H).
  destruct Hp as (_ & _ & _ & _ & _ & _ & P7 & _).
  assert (D : guard_depth (trace (kern ws)) = 0).
  { unfold guard_depth. rewrite !P7 by reflexivity. reflexivity. }
  destruct (last_discrete _) as [[p d]|].
  - destruct H as (V & _ & _ & E). rewrite E. eexists _, _.
    split; [reflexivity|].
    destruct (_ =? _).
    + unfold init_left_off. rewrite depth_guard_put.
      cbn -[guard_depth]. unfold init_awake. rewrite depth_guard_get.
      cbn -[guard_depth]. lia.
    + unfold init_switched. rewrite depth_guard_put.
      cbn -[guard_depth]. rewrite guard_depth_snoc.
      cbn -[guard_depth]. rewrite depth_off_result.
      cbn -[guard_depth]. unfold init_awake. rewrite depth_guard_get.
      cbn -[guard_depth]. lia.
  - destruct H as (_ & _ & E). rewrite E. eexists _, _. split; [reflexivity|].
    exact D.
Qed.


(** The notifier releases every reference it acquires. *)
Lemma pm_handler_guard_balanced
    (w : world) (p : pci_ptr) (d : pci_dev) (ev : Z) :
  dis_dev_is w p d ->
  exists w',
    discrete_pm_handler ev w = Some (0, w') /\
    guard_depth (trace (kern w')) = guard_depth (trace (kern w)).
Proof.
  intros H.
  assert (On : forall c : bool,
             exists w',
               (if c then (guarded discrete_on ;; ret 0) w else Some (0, w))
               = Some (0, w') /\
               guard_depth (trace (kern w')) = guard_depth (trace (kern w))).
  { intros [|]; [|eauto].
    destruct (guarded_on_balanced w p d H) as (w' & E & B).
    exists w'. rewrite (bind_some _ _ _ _ _ E). auto. }
  assert (Off : forall c : bool,
             exists w',
               (if c then (guarded discrete_off ;; ret 0) w else Some (0, w))
               = Some (0, w') /\
               guard_depth (trace (kern w')) = guard_depth (trace (kern w))).
  { intros [|]; [|eauto].
    destruct (guarded_off_balanced w p d H) as (w' & E & B).
    exists w'. rewrite (bind_some _ _ _ _ _ E). auto. }
  destruct (Z.eq_dec ev PM_HIBERNATION_PREPARE) as [E1 | N1];
    [|destruct (Z.eq_dec ev PM_SUSPEND_PREPARE) as [E2 | N2]].
  1, 2: rewrite handler_pre by tauto; apply On.
  destruct (Z.eq_dec ev PM_POST_HIBERNATION) as [E3 | N3];
    [|destruct (Z.eq_dec ev PM_POST_SUSPEND) as [E4 | N4];
      [|destruct (Z.eq_dec ev PM_POST_RESTORE) as [E5 | N5]]].
  1, 2, 3: rewrite handler_post by tauto; apply Off.
  rewrite handler_other by assumption. eauto.
Qed.


(** The scan logs nothing but its own three messages. *)
Lemma scan_dmesg (l : list (pci_ptr * pci_dev)) :
  forall pdev igd w igd' w',
    scan l pdev igd w = Some (igd', w') ->
    forall e,
      In e (dmesg w') ->
      In e (dmesg w) \/
      In e [(KERN_WARNING, "can not find ACPI handle for VGA device %s\n");
            (KERN_INFO, "Found intergrated VGA device %s: %s\n");
            (KERN_INFO, "Found discrete VGA device %s: %s\n")].
Proof.
  induction l as [|[i d] rest IH]; intros pdev igd w igd' w' E e I.
  - rewrite scan_nil in E. inversion E; subst. left. exact I.
  - rewrite scan_cons in E.
    assert (R2 : In e (dmesg (round_no_handle pdev w)) ->
                 In e (dmesg w) \/
                 In e [(KERN_WARNING,
                        "can not find ACPI handle for VGA device %s\n");
                       (KERN_INFO, "Found intergrated VGA device %s: %s\n");
                       (KERN_INFO, "Found discrete VGA device %s: %s\n")]).
    { cbn. intros J. apply in_app_or in J. destruct J as [J|[J|[]]]; auto. }
    assert (R3 : forall h,
               In e (dmesg (round_integrated pdev h w)) ->
               In e (dmesg w) \/
               In e [(KERN_WARNING,
                      "can not find ACPI handle for VGA device %s\n");
                     (KERN_INFO, "Found intergrated VGA device %s: %s\n");
                     (KERN_INFO, "Found discrete VGA device %s: %s\n")]).
    { cbn. intros h J. apply in_app_or in J.
      destruct J as [J|[J|[]]]; auto. }
    assert (R4 : forall h,
               In e (dmesg (round_discrete pdev i h w)) ->
               In e (dmesg w) \/
               In e [(KERN_WARNING,
                      "can not find ACPI handle for VGA device %s\n");
                     (KERN_INFO, "Found intergrated VGA device %s: %s\n");
                     (KERN_INFO, "Found discrete VGA device %s: %s\n")]).
    { cbn. intros h J. apply in_app_or in J.
      destruct J as [J|[J|[]]]; auto 6. }
    destruct (negb (is_display d)).
    { destruct (IH _ _ _ _ _ E e I) as [J|J]; auto. }
    destruct (acpi_companion d) as [h|].
    2: { destruct (IH _ _ _ _ _ E e I) as [J|J]; auto. }
    destruct (vendor d =? PCI_VENDOR_ID_INTEL).
    + destruct (dis_handle (vars w)).
      * inversion E; subst. apply (R3 h). exact I.
      * destruct (IH _ _ _ _ _ E e I) as [J|J]; [apply (R3 h) in J|]; auto.
    + destruct (snd igd).
      * inversion E; subst. apply (R4 h). exact I.
      * destruct (IH _ _ _ _ _ E e I) as [J|J]; [apply (R4 h) in J|]; auto.
Qed.

(** [init_outcome], with what the log holds when the scan is over: no
    line of [discrete_off]. *)
Lemma init_outcome_log (devs : list pci_dev) (m : hw) :
  let w := insmod devs m in
  let obs := observed false false (enumerate devs) in
  exists igd ws,
    ~ In (KERN_INFO, "turning discrete off\n") (dmesg ws) /\
    ~ In refusal (dmesg ws) /\
    scan_post (enumerate devs) (None, None) (init_banner w) igd ws /\
    match last_discrete obs with
    | None =>
        dis_dev (vars ws) = None /\
        discrete_disabler_init w =
          Some (- ENODEV,
                logged [(KERN_ERR, "No discrete VGA device found!\n")] ws)
    | Some (p, d) =>
        dis_dev_is ws p d /\
        discrete_disabler_init w =
          Some (0,
                if cfg_word_of (machine (kern (init_awake d ws))) p
                   =? 0xffffffff
                then init_left_off p d ws
                else init_switched p d ws)
    end.
Proof.
  intros w obs.
  destruct (scan_spec (enumerate devs) None (None, None) (init_banner w)
              eq_refl) as (igd & ws & Hs & Hp).
  exists igd, ws.
  assert (Quiet : forall e,
             In e (dmesg ws) ->
             In e [(KERN_INFO, "version %s\n");
                   (KERN_WARNING,
                    "can not find ACPI handle for VGA device %s\n");
                   (KERN_INFO, "Found intergrated VGA device %s: %s\n");
                   (KERN_INFO, "Found discrete VGA device %s: %s\n")]).
  { intros e I. destruct (scan_dmesg _ _ _ _ _ _ Hs e I) as [J|J].
    - left. destruct J as [J|[]]. exact J.
    - right. exact J. }
  split.
  { intros I. apply Quiet in I.
    repeat (destruct I as [I|I]; [discriminate I|]). destruct I. }
  split.
  { intros I. apply Quiet in I. unfold refusal in I.
    repeat (destruct I as [I|I]; [discriminate I|]). destruct I. }
  split; [exact Hp|].
  rewrite init_eq. change (pci_devices (kern w)) with devs.
  rewrite (bind_some _ _ _ _ _ Hs).
  destruct Hp as (P1 & _ & _ & _ & _ & _ & _ & P8 & _).
  assert (P8' : (dis_dev (vars ws), dis_handle (vars ws)) =
                match last_discrete obs with
                | Some (i, d) => (Some i, acpi_companion d)
                | None => (None, None)
                end) by exact P8.
  clear P8. rename P8' into P8.
  destruct (last_discrete obs) as [[p d]|] eqn:L.
  - inversion P8 as [[E1 E2]].
    apply last_discrete_split in L. destruct L as (pre & post & E & C & _).
    assert (Hin : In (p, d) (enumerate devs)).
    { apply (observed_incl _ false false). fold obs. rewrite E.
      apply in_or_app. right. left. reflexivity. }
    assert (V : dis_dev_is ws p d).
    { split; [exact E1|]. rewrite P1. apply enumerate_nth. exact Hin. }
    split; [exact V|]. apply init_tail_some. exact V.
  - inversion P8 as [[E1 E2]]. split; [reflexivity|].
    apply init_tail_none. exact E1.
Qed.

(** C2 (amended): loading has three outcomes.  No discrete device: it
    returns -ENODEV, [load_discrete_state] keeps its initial value,
    [discrete_off] is not called and [nb] stays off the PM notifier chain.
    Device found off (load-time state GPU_DISABLE): [discrete_off] is not
    called and [nb] stays off the chain.  Device found on (load-time state
    GPU_ENABLE): [discrete_off] is called, and [nb] is then put on the
    chain whatever [discrete_off] did, also when it refused; it refused,
    logging the warning and evaluating no firmware method, exactly when a
    driver is bound to the device, and evaluated one firmware method
    otherwise. *)
Theorem init_registers_iff_load_enabled (devs : list pci_dev) (m : hw) :
  exists r w',
    discrete_disabler_init (insmod devs m) = Some (r, w') /\
    ((r = - ENODEV /\
      dis_dev (vars w') = None /\
      load_discrete_state (vars w') = GPU_UNCHANGED /\
      ~ In (KERN_INFO, "turning discrete off\n") (dmesg w') /\
      count is_firmware_call (trace (kern w')) = 0%nat /\
      pm_chain_has_nb (kern w') = false /\
      nb_notifier_call (vars w') = false) \/
     (r = 0 /\
      load_discrete_state (vars w') = GPU_DISABLE /\
      ~ In (KERN_INFO, "turning discrete off\n") (dmesg w') /\
      count is_firmware_call (trace (kern w')) = 0%nat /\
      pm_chain_has_nb (kern w') = false /\
      nb_notifier_call (vars w') = false) \/
     (r = 0 /\
      load_discrete_state (vars w') = GPU_ENABLE /\
      In (KERN_INFO, "turning discrete off\n") (dmesg w') /\
      (exists p d,
         dis_dev_is w' p d /\
         (In refusal (dmesg w') <-> driver d <> None) /\
         count is_firmware_call (trace (kern w')) =
           match driver d with Some _ => 0%nat | None => 1%nat end) /\
      pm_chain_has_nb (kern w') = true /\
      nb_notifier_call (vars w') = true)).
Proof.
  destruct (init_outcome_log devs m) as (igd & ws & Q1 & Q2 & Hp & H).
  destruct Hp as (_ & P2 & _ & _ & P5 & P6 & P7 & _).
  assert (F : count is_firmware_call (trace (kern ws)) = 0%nat)
    by (rewrite P7 by reflexivity; reflexivity).
  cbn in P2, P5, P6.
  destruct (last_discrete _) as [[p d]|].
  - destruct H as (V & E). rewrite E. eexists _, _.
    split; [reflexivity|]. right.
    destruct (cfg_word_of (machine (kern (init_awake d ws))) p
              =? 0xffffffff) eqn:C; [left | right].
    + unfold init_left_off, init_awake, guard_step.
      destruct (bridge_of d); cbn -[count]; rewrite ?count_snoc;
        cbn -[count]; rewrite ?in_app_iff; cbn [In]; rewrite F.
      all: repeat split; auto.
      all: intros [[I|[I|[]]]|[I|[]]];
        [exact (Q1 I) | discriminate I | discriminate I].
    + unfold init_switched, off_result. cbn [with_vars kern machine].
      rewrite C. destruct V as [Vp Vd].
      assert (Loud : forall l1 l2 l3 : list (loglevel * string),
                 In refusal (((dmesg ws ++ l1) ++ l2) ++ l3) <->
                 In refusal l1 \/ In refusal l2 \/ In refusal l3).
      { intros l1 l2 l3. rewrite !in_app_iff. tauto. }
      destruct (driver d) as [drv|] eqn:Hd;
        unfold off_refused, off_done, init_awake, guard_step, dis_dev_is;
        destruct (bridge_of d); cbn -[count]; rewrite ?count_snoc;
        cbn -[count]; rewrite F.
      all: split; [reflexivity|]; split; [reflexivity|].
      all: split; [rewrite !in_app_iff; cbn [In]; tauto|].
      all: split; [|split; reflexivity].
      all: exists p, d; split; [split; [exact Vp | exact Vd]|].
      all: rewrite Hd, Loud; split; [|reflexivity].
      1, 2: split; [intros _; discriminate|].
      1, 2: intros _; right; left; right; left; reflexivity.
      all: split; [|intros N; contradiction N; reflexivity].
      all: unfold refusal; cbn [In].
      all: intros [[I|[]]|[[I|[I|[]]]|[I|[]]]]; discriminate I.
  - destruct H as (V & E). rewrite E. eexists _, _. split; [reflexivity|].
    left. cbn -[count]. repeat split; auto.
    rewrite in_app_iff. cbn [In].
    intros [I|[I|[]]]; [exact (Q1 I) | discriminate I].
Qed.


(** C6: when no device of the list is a display-class device with an ACPI
    handle and a vendor other than Intel, loading returns -ENODEV and the
    trace holds no [acpi_evaluate_object]. *)
Theorem init_no_discrete_device (devs : list pci_dev) (m : hw) :
  (forall d, In d devs -> discrete_candidate d = false) ->
  exists w',
    discrete_disabler_init (insmod devs m) = Some (- ENODEV, w') /\
    count is_firmware_call (trace (kern w')) = 0%nat.
Proof.
  intros N. destruct (init_outcome devs m) as (igd & ws & Hp & H).
  destruct Hp as (_ & _ & _ & _ & _ & _ & P7 & _).
  rewrite last_discrete_none in H.
  - destruct H as (_ & _ & E). rewrite E. eexists. split; [reflexivity|].
    cbn -[count]. rewrite P7 by reflexivity. reflexivity.
  - intros [i d] Hin. apply N. apply (enumerate_in devs i).
    eapply observed_incl, Hin.
Qed.


(** C9: the scan observes the shortest prefix of the enumeration that
    holds both an integrated and a discrete device (all of it when there
    is none), making one [pci_get_device] call per observed device and one
    more only when it reaches the end unresolved; [dis_dev] is then the
    last discrete candidate of that prefix. *)
Theorem init_last_observed_wins (devs : list pci_dev) (m : hw) :
  let obs := observed false false (enumerate devs) in
  shortest_resolving_prefix (enumerate devs) obs /\
  exists r w',
    discrete_disabler_init (insmod devs m) = Some (r, w') /\
    dis_dev (vars w') = option_map fst (last_discrete obs) /\
    dis_handle (vars w') =
      match last_discrete obs with
      | Some x => acpi_companion (snd x)
      | None => None
      end /\
    count is_enumeration (trace (kern w')) =
      (List.length obs + if resolved false false obs then 0 else 1)%nat.
Proof.
  intros obs. split; [apply observed_shortest|].
  destruct (init_outcome devs m) as (igd & ws & Hp & H).
  destruct Hp as (_ & _ & _ & _ & _ & _ & _ & _ & P9).
  assert (P9' : count is_enumeration (trace (kern ws)) =
                (0 + List.length obs
                 + if resolved false false obs then 0 else 1)%nat)
    by exact P9.
  clear P9. rename P9' into P9. cbn [Nat.add] in P9.
  cbv zeta in H. fold obs in H.
  destruct (last_discrete obs) as [[p d]|].
  - destruct H as ([V _] & Hh & _ & E). rewrite E. eexists _, _.
    split; [reflexivity|].
    cbn [option_map fst snd]. rewrite <- P9, <- V, <- Hh.
    destruct (_ =? _); world_cases d; cbn -[count];
      rewrite ?count_snoc; cbn -[count]; repeat split; lia.
  - destruct H as (V & Hh & E). rewrite E. eexists _, _.
    split; [reflexivity|].
    cbn -[count]. rewrite V, Hh. repeat split. exact P9.
Qed.


End Proofs.

(** * Further properties of the module *)

Section Further.

Context {KH : KernelHeaders} {PF : Platform}.

Create HintDb valid.
#[local] Hint Resolve dis_dev_is_logged dis_dev_is_called
  dis_dev_is_guard_step dis_dev_is_set_discrete_state dis_dev_is_set_load
  dis_dev_is_set_vendor dis_dev_is_set_nb dis_dev_is_off_result
  dis_dev_is_on_result dis_dev_is_init_awake : valid.

(** ** Transitions *)

Lemma dis_dev_is_off_done w p d :
  dis_dev_is w p d -> dis_dev_is (off_done w) p d.
Proof. intros H; exact H. Qed.

Lemma dis_dev_is_on_done w p d :
  dis_dev_is w p d -> dis_dev_is (on_done w) p d.
Proof. intros H; exact H. Qed.

#[local] Hint Resolve dis_dev_is_off_done dis_dev_is_on_done : valid.

(** What [discrete_off] does on a device that is on and free. *)
Lemma discrete_off_acts (w : world) (p : pci_ptr) (d : pci_dev) :
  dis_dev_is w p d ->
  driver d = None ->
  cfg_word_of (machine (kern w)) p <> 0xffffffff ->
  discrete_off w = Some (tt, off_done w).
Proof.
  intros H Hdrv E. rewrite (discrete_off_eq w p d H). unfold off_result.
  apply Z.eqb_neq in E. rewrite E, Hdrv. reflexivity.
Qed.

(** What [discrete_on] does on a device that is off. *)
Lemma discrete_on_acts (w : world) (p : pci_ptr) (d : pci_dev) :
  dis_dev_is w p d ->
  cfg_word_of (machine (kern w)) p = 0xffffffff ->
  discrete_on w = Some (tt, on_done w).
Proof.
  intros H E. rewrite (discrete_on_eq w p d H). unfold on_result.
  rewrite E. reflexivity.
Qed.

(** X1: switching off and back on.  On a device that reads Enabled, has no
    driver, and whose firmware methods take effect, [discrete_off] followed
    by [discrete_on] evaluates "_OFF" then "_ON" on [dis_handle] and nothing
    else, ends with [discrete_state] GPU_ENABLE and the oracle reading
    Enabled again, and changes no other variable of the module. *)
Theorem off_then_on_round_trip (w : world) (p : pci_ptr) (d : pci_dev) :
  dis_dev_is w p d ->
  driver d = None ->
  get_discrete_state w = Some (GPU_ENABLE, w) ->
  firmware_obeyed p (dis_handle (vars w)) ->
  exists w',
    (discrete_off ;; discrete_on) w = Some (tt, w') /\
    trace (kern w') =
      trace (kern w) ++
      [k_acpi_evaluate_object (dis_handle (vars w)) "_OFF";
       k_acpi_evaluate_object (dis_handle (vars w)) "_ON"] /\
    discrete_state (vars w') = GPU_ENABLE /\
    get_discrete_state w' = Some (GPU_ENABLE, w') /\
    vars w' = set_discrete_state GPU_ENABLE (vars w).
Proof.
  intros H Hdrv Hst [Hoff Hon].
  rewrite (get_discrete_state_eq w p d H) in Hst.
  destruct (Z.eqb_spec (cfg_word_of (machine (kern w)) p) 0xffffffff)
    as [E | E]; [discriminate|]. clear Hst.
  pose proof (discrete_off_acts w p d H Hdrv E) as H1.
  assert (H2 : discrete_on (off_done w) = Some (tt, on_done (off_done w))).
  { apply (discrete_on_acts _ p d); [auto with valid|]. apply Hoff. }
  exists (on_done (off_done w)).
  split; [exact (eq_trans (bind_some _ _ _ _ _ H1) H2)|].
  split; [cbn; rewrite <- app_assoc; reflexivity|].
  split; [reflexivity|]. split; [|reflexivity].
  rewrite (get_discrete_state_eq _ p d) by auto with valid.
  cbn. specialize (Hon (hw_step (k_acpi_evaluate_object (dis_handle (vars w)) "_OFF") (machine (kern w)))).
  apply Z.eqb_neq in Hon. rewrite Hon. reflexivity.
Qed.

(** X2: the module trusts the firmware.  When "_OFF" changes nothing (the
    register reads afterwards what it read before), [discrete_off] on a
    device that reads Enabled and has no driver still sets [discrete_state]
    to GPU_DISABLE, while the oracle keeps reading Enabled; a second
    [discrete_off] then evaluates "_OFF" once more. *)
Theorem discrete_off_trusts_firmware
    (w : world) (p : pci_ptr) (d : pci_dev) :
  dis_dev_is w p d ->
  driver d = None ->
  get_discrete_state w = Some (GPU_ENABLE, w) ->
  (forall m,
     cfg_word_of
       (hw_step (k_acpi_evaluate_object (dis_handle (vars w)) "_OFF") m) p
     = cfg_word_of m p) ->
  exists w1 w2,
    discrete_off w = Some (tt, w1) /\
    discrete_state (vars w1) = GPU_DISABLE /\
    get_discrete_state w1 = Some (GPU_ENABLE, w1) /\
    discrete_off w1 = Some (tt, w2) /\
    trace (kern w2) =
      trace (kern w) ++
      [k_acpi_evaluate_object (dis_handle (vars w)) "_OFF";
       k_acpi_evaluate_object (dis_handle (vars w)) "_OFF"].
Proof.
  intros H Hdrv Hst Hdead.
  rewrite (get_discrete_state_eq w p d H) in Hst.
  destruct (Z.eqb_spec (cfg_word_of (machine (kern w)) p) 0xffffffff)
    as [E | E]; [discriminate|]. clear Hst.
  pose proof (discrete_off_acts w p d H Hdrv E) as H1.
  assert (E1 : cfg_word_of (machine (kern (off_done w))) p <> 0xffffffff)
    by (cbn; rewrite Hdead; exact E).
  exists (off_done w), (off_done (off_done w)).
  split; [exact H1|]. split; [reflexivity|]. split; [|split].
  - rewrite (get_discrete_state_eq _ p d) by auto with valid.
    apply Z.eqb_neq in E1. rewrite E1. reflexivity.
  - apply (discrete_off_acts _ p d); auto with valid.
  - cbn. rewrite <- app_assoc. reflexivity.
Qed.

(** ** The notifier over runs of events *)

Lemma handler_cases (w : world) (ev : Z) :
  discrete_pm_handler ev w = Some (0, w) \/
  (load_discrete_state (vars w) = GPU_ENABLE /\
   discrete_state (vars w) = GPU_DISABLE /\
   discrete_pm_handler ev w = (guarded discrete_on ;; ret 0) w) \/
  (load_discrete_state (vars w) = GPU_ENABLE /\
   discrete_state (vars w) = GPU_ENABLE /\
   discrete_pm_handler ev w = (guarded discrete_off ;; ret 0) w).
Proof.
  destruct (Z.eq_dec ev PM_HIBERNATION_PREPARE) as [E1 | N1];
    [|destruct (Z.eq_dec ev PM_SUSPEND_PREPARE) as [E2 | N2]].
  1, 2: rewrite handler_pre by tauto;
    destruct (Z.eqb_spec (load_discrete_state (vars w)) GPU_ENABLE);
    destruct (Z.eqb_spec (discrete_state (vars w)) GPU_DISABLE);
    cbn [andb]; auto.
  destruct (Z.eq_dec ev PM_POST_HIBERNATION) as [E3 | N3];
    [|destruct (Z.eq_dec ev PM_POST_SUSPEND) as [E4 | N4];
      [|destruct (Z.eq_dec ev PM_POST_RESTORE) as [E5 | N5]]].
  1, 2, 3: rewrite handler_post by tauto;
    destruct (Z.eqb_spec (load_discrete_state (vars w)) GPU_ENABLE);
    destruct (Z.eqb_spec (discrete_state (vars w)) GPU_ENABLE);
    cbn [andb]; auto.
  left. apply handler_other; assumption.
Qed.

Lemma notifier_frame_refl (w : world) : notifier_frame w w.
Proof. repeat split. Qed.

Lemma notifier_frame_trans (w1 w2 w3 : world) :
  notifier_frame w1 w2 -> notifier_frame w2 w3 -> notifier_frame w1 w3.
Proof.
  unfold notifier_frame. intros F G.
  repeat split; (etransitivity; [apply G | apply F]).
Qed.

Lemma firmware_calls_snoc (t : list kcall) (c : kcall) :
  firmware_calls (t ++ [c]) =
  firmware_calls t ++ (if is_firmware_call c then [c] else []).
Proof.
  unfold firmware_calls. rewrite filter_app. cbn.
  destruct (is_firmware_call c); reflexivity.
Qed.

Lemma firmware_calls_guard_step k d w :
  (forall b, is_firmware_call (k b) = false) ->
  firmware_calls (trace (kern (guard_step k d w))) =
  firmware_calls (trace (kern w)).
Proof.
  intros K. unfold guard_step. destruct (bridge_of d); [|reflexivity].
  cbn -[firmware_calls]. rewrite firmware_calls_snoc, K.
  apply app_nil_r.
Qed.

Lemma guarded_on_frame (w : world) (p : pci_ptr) (d : pci_dev) :
  let w' := guard_step k_pm_runtime_put_sync d
              (on_result p (guard_step k_pm_runtime_get_sync d w)) in
  notifier_frame w w' /\
  (List.length (firmware_calls (trace (kern w')))
   <= S (List.length (firmware_calls (trace (kern w)))))%nat.
Proof.
  cbv zeta. split.
  - unfold notifier_frame.
    rewrite depth_guard_put, depth_on_result, depth_guard_get.
    unfold guard_step, on_result.
    destruct (bridge_of d), (_ =? _); cbn; repeat split; lia.
  - rewrite firmware_calls_guard_step by reflexivity.
    unfold on_result. destruct (_ =? _); cbn -[firmware_calls].
    + rewrite firmware_calls_snoc, firmware_calls_guard_step
        by reflexivity.
      rewrite length_app. cbn. lia.
    + rewrite firmware_calls_guard_step by reflexivity. lia.
Qed.

Lemma guarded_off_frame (w : world) (p : pci_ptr) (d : pci_dev) :
  let w' := guard_step k_pm_runtime_put_sync d
              (off_result p d (guard_step k_pm_runtime_get_sync d w)) in
  notifier_frame w w' /\
  (List.length (firmware_calls (trace (kern w')))
   <= S (List.length (firmware_calls (trace (kern w)))))%nat.
Proof.
  cbv zeta. split.
  - unfold notifier_frame.
    rewrite depth_guard_put, depth_off_result, depth_guard_get.
    unfold guard_step, off_result.
    destruct (bridge_of d), (_ =? _), (driver d); cbn; repeat split; lia.
  - rewrite firmware_calls_guard_step by reflexivity.
    unfold off_result. destruct (_ =? _); [|destruct (driver d)];
      cbn -[firmware_calls];
      rewrite ?firmware_calls_snoc, firmware_calls_guard_step
        by reflexivity;
      rewrite ?length_app; cbn; lia.
Qed.

Lemma handler_frame (w : world) (p : pci_ptr) (d : pci_dev) (ev : Z) :
  dis_dev_is w p d ->
  exists w',
    discrete_pm_handler ev w = Some (0, w') /\
    notifier_frame w w' /\
    (List.length (firmware_calls (trace (kern w')))
     <= S (List.length (firmware_calls (trace (kern w)))))%nat.
Proof.
  intros H.
  destruct (handler_cases w ev) as [E | [(_ & _ & E) | (_ & _ & E)]];
    rewrite E.
  - exists w. split; [reflexivity|]. split; [apply notifier_frame_refl|].
    lia.
  - rewrite (bind_some _ _ _ _ _ (guarded_on_eq w p d H)).
    eexists. split; [reflexivity|]. apply guarded_on_frame.
  - rewrite (bind_some _ _ _ _ _ (guarded_off_eq w p d H)).
    eexists. split; [reflexivity|]. apply guarded_off_frame.
Qed.

(** X3: whatever run of events the notifier is given while [dis_dev] is
    valid, every call returns, and at the end the device list, the
    notifier chain, the number of keep-awake references held and every
    variable of the module other than [discrete_state] are as at the
    start; at most one firmware method was evaluated per event. *)
Theorem pm_events_frame (w : world) (p : pci_ptr) (d : pci_dev)
    (evs : list Z) :
  dis_dev_is w p d ->
  exists w',
    pm_events evs w = Some (tt, w') /\
    notifier_frame w w' /\
    (List.length (firmware_calls (trace (kern w')))
     <= List.length (firmware_calls (trace (kern w))) + List.length evs)%nat.
Proof.
  revert w. induction evs as [|ev evs IH]; intros w H.
  - exists w. split; [reflexivity|]. split; [apply notifier_frame_refl|].
    cbn. lia.
  - destruct (handler_frame w p d ev H) as (w1 & E1 & F1 & L1).
    assert (H1 : dis_dev_is w1 p d).
    { destruct H as [Hp Hd], F1 as (D & _ & _ & _ & _ & P & _).
      split; congruence. }
    destruct (IH w1 H1) as (w2 & E2 & F2 & L2).
    exists w2. cbn [pm_events].
    split; [rewrite (bind_some _ _ _ _ _ E1); exact E2|].
    split; [eapply notifier_frame_trans; eauto|].
    cbn [List.length]. lia.
Qed.

Lemma handler_inert (w : world) (ev : Z) :
  load_discrete_state (vars w) <> GPU_ENABLE \/
  (discrete_state (vars w) <> GPU_DISABLE /\
   discrete_state (vars w) <> GPU_ENABLE) ->
  discrete_pm_handler ev w = Some (0, w).
Proof.
  intros C.
  destruct (handler_cases w ev) as [E | [(L & S & _) | (L & S & _)]];
    [exact E | |]; exfalso; tauto.
Qed.

(** X4: the notifier is inert unless the device was on at load time and
    [discrete_state] is GPU_DISABLE or GPU_ENABLE.  In particular after a
    load that found the device off, or whose [discrete_off] was refused
    ([discrete_state] still GPU_UNCHANGED), no run of events changes
    anything or makes any kernel call. *)
Theorem pm_events_inert (w : world) (evs : list Z) :
  load_discrete_state (vars w) <> GPU_ENABLE \/
  (discrete_state (vars w) <> GPU_DISABLE /\
   discrete_state (vars w) <> GPU_ENABLE) ->
  pm_events evs w = Some (tt, w).
Proof.
  intros C. induction evs as [|ev evs IH]; [reflexivity|].
  cbn [pm_events].
  rewrite (bind_some _ _ _ _ _ (handler_inert w ev C)). exact IH.
Qed.

Lemma cfg_guard_step k d (w : world) (p : pci_ptr) :
  register_stable p ->
  (forall b, is_firmware_call (k b) = false) ->
  cfg_word_of (machine (kern (guard_step k d w))) p =
  cfg_word_of (machine (kern w)) p.
Proof.
  intros S K. unfold guard_step. destruct (bridge_of d); [|reflexivity].
  cbn. apply S, K.
Qed.

(** A guarded [discrete_on] on a device that is off. *)
Lemma guarded_on_acts (w : world) (p : pci_ptr) (d : pci_dev) :
  dis_dev_is w p d ->
  register_stable p ->
  cfg_word_of (machine (kern w)) p = 0xffffffff ->
  guarded discrete_on w =
    Some (tt, guard_step k_pm_runtime_put_sync d
                (on_done (guard_step k_pm_runtime_get_sync d w))).
Proof.
  intros H S E. rewrite (guarded_on_eq w p d H). unfold on_result.
  rewrite cfg_guard_step, E by (auto || reflexivity). reflexivity.
Qed.

(** A guarded [discrete_off] on a device that is on and free. *)
Lemma guarded_off_acts (w : world) (p : pci_ptr) (d : pci_dev) :
  dis_dev_is w p d ->
  register_stable p ->
  driver d = None ->
  cfg_word_of (machine (kern w)) p <> 0xffffffff ->
  guarded discrete_off w =
    Some (tt, guard_step k_pm_runtime_put_sync d
                (off_done (guard_step k_pm_runtime_get_sync d w))).
Proof.
  intros H S Hdrv E. rewrite (guarded_off_eq w p d H). unfold off_result.
  apply Z.eqb_neq in E.
  rewrite cfg_guard_step, E, Hdrv by (auto || reflexivity). reflexivity.
Qed.

(** X5: one sleep cycle.  The module loaded with the device on and having
    switched it off ([load_discrete_state] GPU_ENABLE, [discrete_state]
    GPU_DISABLE, the register reading all-ones, no driver bound), on a
    platform whose firmware methods take effect and whose register no
    other call changes: a prepare event followed by a post event evaluates
    "_ON" then "_OFF" on [dis_handle] and no other firmware method, and
    ends with [discrete_state] GPU_DISABLE, the oracle reading Disabled,
    and everything else the notifier may not change as it was. *)
Theorem sleep_cycle_round_trip
    (w : world) (p : pci_ptr) (d : pci_dev) (pre post : Z) :
  NoDup pm_labels ->
  pre = PM_HIBERNATION_PREPARE \/ pre = PM_SUSPEND_PREPARE ->
  post = PM_POST_HIBERNATION \/ post = PM_POST_SUSPEND \/
  post = PM_POST_RESTORE ->
  dis_dev_is w p d ->
  driver d = None ->
  load_discrete_state (vars w) = GPU_ENABLE ->
  discrete_state (vars w) = GPU_DISABLE ->
  get_discrete_state w = Some (GPU_DISABLE, w) ->
  firmware_obeyed p (dis_handle (vars w)) ->
  register_stable p ->
  exists w',
    (discrete_pm_handler pre ;; discrete_pm_handler post) w
      = Some (0, w') /\
    firmware_calls (trace (kern w')) =
      firmware_calls (trace (kern w)) ++
      [k_acpi_evaluate_object (dis_handle (vars w)) "_ON";
       k_acpi_evaluate_object (dis_handle (vars w)) "_OFF"] /\
    discrete_state (vars w') = GPU_DISABLE /\
    get_discrete_state w' = Some (GPU_DISABLE, w') /\
    notifier_frame w w'.
Proof.
  intros ND Hpre Hpost H Hdrv Hl Hs Hst [Hoff Hon] S.
  pose proof (pm_labels_apart ND) as D.
  rewrite (get_discrete_state_eq w p d H) in Hst.
  destruct (Z.eqb_spec (cfg_word_of (machine (kern w)) p) 0xffffffff)
    as [E | E]; [|discriminate]. clear Hst.
  set (h := dis_handle (vars w)) in *.
  set (w1 := guard_step k_pm_runtime_put_sync d
               (on_done (guard_step k_pm_runtime_get_sync d w))).
  assert (E1 : discrete_pm_handler pre w = Some (0, w1)).
  { rewrite handler_pre by exact Hpre. rewrite Hl, Hs. cbn [Z.eqb andb].
    change (GPU_ENABLE =? GPU_ENABLE) with true.
    change (GPU_DISABLE =? GPU_DISABLE) with true. cbn [andb].
    rewrite (bind_some _ _ _ _ _ (guarded_on_acts w p d H S E)).
    reflexivity. }
  assert (V1 : dis_dev_is w1 p d) by (subst w1; auto 10 with valid).
  assert (Hh1 : dis_handle (vars w1) = h).
  { subst w1. unfold guard_step. destruct (bridge_of d); reflexivity. }
  assert (Hl1 : load_discrete_state (vars w1) = GPU_ENABLE).
  { subst w1. unfold guard_step. destruct (bridge_of d); exact Hl. }
  assert (Hs1 : discrete_state (vars w1) = GPU_ENABLE).
  { subst w1. unfold guard_step. destruct (bridge_of d); reflexivity. }
  assert (C1 : cfg_word_of (machine (kern w1)) p <> 0xffffffff).
  { subst w1. rewrite cfg_guard_step by (auto || reflexivity).
    cbn. unfold guard_step. destruct (bridge_of d); cbn; apply Hon. }
  set (w2 := guard_step k_pm_runtime_put_sync d
               (off_done (guard_step k_pm_runtime_get_sync d w1))).
  assert (E2 : discrete_pm_handler post w1 = Some (0, w2)).
  { rewrite handler_post;
      [| destruct Hpost as [-> | [-> | ->]]; tauto
       | destruct Hpost as [-> | [-> | ->]]; tauto
       | exact Hpost].
    rewrite Hl1, Hs1. change (GPU_ENABLE =? GPU_ENABLE) with true.
    cbn [andb].
    rewrite (bind_some _ _ _ _ _ (guarded_off_acts w1 p d V1 S Hdrv C1)).
    reflexivity. }
  exists w2. split; [rewrite (bind_some _ _ _ _ _ E1); exact E2|].
  assert (Hh2 : dis_handle (vars (guard_step k_pm_runtime_get_sync d w1))
                = h).
  { unfold guard_step. destruct (bridge_of d); exact Hh1. }
  split; [|split; [|split]].
  - subst w2. rewrite firmware_calls_guard_step by reflexivity.
    unfold off_done. cbn -[firmware_calls guard_step].
    rewrite firmware_calls_snoc, firmware_calls_guard_step, Hh2
      by reflexivity.
    subst w1. rewrite firmware_calls_guard_step by reflexivity.
    unfold on_done. cbn -[firmware_calls guard_step].
    rewrite firmware_calls_snoc, firmware_calls_guard_step
      by reflexivity.
    assert (Hh0 : dis_handle (vars (guard_step k_pm_runtime_get_sync d w))
                  = h)
      by (unfold guard_step; destruct (bridge_of d); reflexivity).
    rewrite Hh0. cbn [is_firmware_call]. rewrite <- app_assoc. reflexivity.
  - subst w2. unfold guard_step. destruct (bridge_of d); reflexivity.
  - assert (V2 : dis_dev_is w2 p d) by (subst w2; auto 10 with valid).
    rewrite (get_discrete_state_eq w2 p d V2).
    subst w2. rewrite cfg_guard_step by (auto || reflexivity).
    unfold off_done. cbn -[guard_step]. rewrite Hh2, Hoff. reflexivity.
  - eapply notifier_frame_trans.
    + assert (R : on_result p (guard_step k_pm_runtime_get_sync d w) =
                  on_done (guard_step k_pm_runtime_get_sync d w)).
      { unfold on_result.
        rewrite cfg_guard_step, E by (auto || reflexivity). reflexivity. }
      pose proof (proj1 (guarded_on_frame w p d)) as F.
      rewrite R in F. exact F.
    + assert (R : off_result p d (guard_step k_pm_runtime_get_sync d w1) =
                  off_done (guard_step k_pm_runtime_get_sync d w1)).
      { unfold off_result. apply Z.eqb_neq in C1.
        rewrite cfg_guard_step, C1, Hdrv by (auto || reflexivity).
        reflexivity. }
      pose proof (proj1 (guarded_off_frame w1 p d)) as F.
      rewrite R in F. exact F.
Qed.

(** ** Loading, in full *)

Lemma last_discrete_exists (l : list (pci_ptr * pci_dev)) :
  existsb (fun x => discrete_candidate (snd x)) l = true ->
  exists x, last_discrete l = Some x.
Proof.
  induction l as [|y l IH]; [discriminate|].
  cbn [existsb last_discrete]. intros E.
  destruct (last_discrete l) as [z|]; [eauto|].
  destruct (discrete_candidate (snd y)); [eauto|].
  cbn in E. destruct (IH E) as [x Hx]. discriminate Hx.
Qed.

Lemma observed_finds_candidate (l : list (pci_ptr * pci_dev)) x :
  In x l -> discrete_candidate (snd x) = true ->
  exists y, last_discrete (observed false false l) = Some y.
Proof.
  intros Hin C. apply last_discrete_exists.
  destruct (observed_stops l false false) as [R | E].
  - unfold resolved in R. cbn [orb] in R.
    apply andb_true_iff in R. apply R.
  - rewrite E. apply existsb_exists. exists x. auto.
Qed.

Lemma enumerate_has (devs : list pci_dev) (d : pci_dev) :
  In d devs -> exists i, In (i, d) (enumerate devs).
Proof.
  unfold enumerate. generalize 0%nat.
  induction devs as [|x devs IH]; intros s Hin; [contradiction|].
  cbn [List.length seq combine]. destruct Hin as [-> | Hin].
  - exists s. left. reflexivity.
  - destruct (IH (S s) Hin) as [i Hi]. exists i. right. exact Hi.
Qed.

Lemma firmware_calls_nil (t : list kcall) :
  count is_firmware_call t = 0%nat -> firmware_calls t = [].
Proof. unfold count, firmware_calls. apply length_zero_iff_nil. Qed.

(** The machine after a load that found the device [d] at [p], from the
    machine [ws] the scan left. *)
Lemma init_result_facts (ws : world) (p : pci_ptr) (d : pci_dev) :
  let w' := if cfg_word_of (machine (kern (init_awake d ws))) p
               =? 0xffffffff
            then init_left_off p d ws
            else init_switched p d ws in
  pci_devices (kern w') = pci_devices (kern ws) /\
  device_vendor (vars w') = vendor d /\
  dis_dev (vars w') = dis_dev (vars ws) /\
  dis_handle (vars w') = dis_handle (vars ws) /\
  count is_get (trace (kern w')) =
    (count is_get (trace (kern ws))
     + match bridge_of d with Some _ => 1 | None => 0 end)%nat /\
  count is_put (trace (kern w')) =
    (count is_put (trace (kern ws))
     + match bridge_of d with Some _ => 1 | None => 0 end)%nat /\
  ((load_discrete_state (vars w') = GPU_DISABLE /\
    discrete_state (vars w') = discrete_state (vars ws) /\
    nb_notifier_call (vars w') = nb_notifier_call (vars ws) /\
    pm_chain_has_nb (kern w') = pm_chain_has_nb (kern ws) /\
    firmware_calls (trace (kern w')) = firmware_calls (trace (kern ws)))
   \/
   (load_discrete_state (vars w') = GPU_ENABLE /\
    nb_notifier_call (vars w') = true /\
    pm_chain_has_nb (kern w') = true /\
    ((discrete_state (vars w') = discrete_state (vars ws) /\
      firmware_calls (trace (kern w')) = firmware_calls (trace (kern ws)))
     \/
     (discrete_state (vars w') = GPU_DISABLE /\
      driver d = None /\
      firmware_calls (trace (kern w')) =
        firmware_calls (trace (kern ws)) ++
        [k_acpi_evaluate_object (dis_handle (vars ws)) "_OFF"])))).
Proof.
  cbv zeta.
  destruct (cfg_word_of (machine (kern (init_awake d ws))) p =? 0xffffffff).
  - unfold init_left_off, init_awake, guard_step.
    destruct (bridge_of d); cbn -[count firmware_calls];
      rewrite ?count_snoc, ?firmware_calls_snoc; cbn -[count firmware_calls];
      rewrite ?count_snoc, ?firmware_calls_snoc; cbn -[count firmware_calls];
      rewrite ?app_nil_r;
      (repeat split; try lia); left; repeat split.
  - unfold init_switched, init_awake, guard_step, off_result.
    destruct (bridge_of d);
      match goal with
      | |- context [if ?c then _ else _] => destruct c
      end;
      try destruct (driver d) eqn:Hdrv;
      cbn -[count firmware_calls];
      rewrite ?count_snoc, ?firmware_calls_snoc; cbn -[count firmware_calls];
      rewrite ?count_snoc, ?firmware_calls_snoc; cbn -[count firmware_calls];
      rewrite ?count_snoc, ?firmware_calls_snoc; cbn -[count firmware_calls];
      rewrite ?count_snoc, ?firmware_calls_snoc; cbn -[count firmware_calls];
      rewrite ?app_nil_r;
      (repeat split; try lia); right; (repeat split);
      first [ left; repeat split; reflexivity
            | right; repeat split; reflexivity ].
Qed.

(** Everything a load leaves behind. *)
Lemma init_summary (devs : list pci_dev) (m : hw) :
  exists r w',
    discrete_disabler_init (insmod devs m) = Some (r, w') /\
    pci_devices (kern w') = devs /\
    count is_get (trace (kern w')) = count is_put (trace (kern w')) /\
    (count is_get (trace (kern w')) <= 1)%nat /\
    ((r = - ENODEV /\
      last_discrete (observed false false (enumerate devs)) = None /\
      vars w' = initial_vars /\
      pm_chain_has_nb (kern w') = false /\
      firmware_calls (trace (kern w')) = [])
     \/
     (r = 0 /\
      exists p d h ds ls,
        last_discrete (observed false false (enumerate devs)) = Some (p, d)
        /\ nth_error devs p = Some d
        /\ discrete_candidate d = true
        /\ acpi_companion d = Some h
        /\ vars w' =
             {| device_vendor := vendor d;
                discrete_state := ds;
                load_discrete_state := ls;
                dis_dev := Some p;
                dis_handle := Some h;
                nb_notifier_call := pm_chain_has_nb (kern w') |}
        /\ ((ls = GPU_DISABLE /\ ds = GPU_UNCHANGED /\
             pm_chain_has_nb (kern w') = false /\
             firmware_calls (trace (kern w')) = [])
            \/
            (ls = GPU_ENABLE /\ pm_chain_has_nb (kern w') = true /\
             ((ds = GPU_UNCHANGED /\
               firmware_calls (trace (kern w')) = [])
              \/
              (ds = GPU_DISABLE /\ driver d = None /\
               firmware_calls (trace (kern w')) =
                 [k_acpi_evaluate_object (Some h) "_OFF"])))))).
Proof.
  destruct (init_outcome devs m) as (igd & ws & Hp & H).
  destruct Hp as (P1 & P2 & P3 & P4 & P5 & P6 & P7 & P8 & _).
  cbn in P1, P2, P3, P4, P5, P6.
  assert (G : count is_get (trace (kern ws)) = 0%nat)
    by (rewrite P7 by reflexivity; reflexivity).
  assert (U : count is_put (trace (kern ws)) = 0%nat)
    by (rewrite P7 by reflexivity; reflexivity).
  assert (F : firmware_calls (trace (kern ws)) = []).
  { apply firmware_calls_nil. rewrite P7 by reflexivity. reflexivity. }
  clear P7 P8.
  destruct (last_discrete _) as [[p d]|] eqn:L.
  - destruct H as (V & Hh & C & E). rewrite E. eexists _, _.
    split; [reflexivity|].
    destruct (init_result_facts ws p d)
      as (R1 & R2 & R3 & R4 & R5 & R6 & R7).
    set (w' := if _ =? _ then _ else _) in *. clearbody w'.
    rewrite R5, R6, G, U. rewrite R1, P1.
    split; [reflexivity|]. split; [reflexivity|].
    split; [destruct (bridge_of d); lia|].
    right. split; [reflexivity|].
    assert (exists h, acpi_companion d = Some h) as [h Hc].
    { unfold discrete_candidate, controllable in C.
      destruct (acpi_companion d) as [h|]; [eauto|].
      rewrite andb_false_r in C. discriminate C. }
    destruct V as [Vp Vd]. rewrite P1 in Vd.
    exists p, d, h, (discrete_state (vars w')),
      (load_discrete_state (vars w')).
    split; [reflexivity|]. split; [exact Vd|]. split; [exact C|].
    split; [exact Hc|].
    rewrite Hh, Hc in R4. rewrite Vp in R3. rewrite F in R7.
    rewrite Hh, Hc, P4, P6, P2 in R7.
    destruct R7 as [(A1 & A2 & A3 & A4 & A5)
                   | (A1 & A2 & A3 & [(A4 & A5) | (A4 & A5 & A6)])].
    + split; [|left; auto].
      destruct (vars w'); cbn in *. congruence.
    + split; [|right; split; [auto|split; [auto|left; auto]]].
      destruct (vars w'); cbn in *. congruence.
    + split; [|right; split; [auto|split; [auto|right; auto]]].
      destruct (vars w'); cbn in *. congruence.
  - destruct H as (V & Hh & E). rewrite E. eexists _, _.
    split; [reflexivity|]. cbn -[count firmware_calls].
    rewrite G, U, P1. split; [reflexivity|]. split; [reflexivity|].
    split; [lia|]. left. split; [reflexivity|]. split; [reflexivity|].
    split; [|split; [exact P2 | exact F]].
    destruct (vars ws); cbn in *. unfold initial_vars. congruence.
Qed.

(** X6: the firmware calls of a load.  Whatever the devices and the
    platform, [discrete_disabler_init] returns, never evaluates "_ON", and
    evaluates at most one method: either none, and [discrete_state] is
    still GPU_UNCHANGED, or "_OFF" on [dis_handle] once, the load-time
    state being GPU_ENABLE, and [discrete_state] is GPU_DISABLE. *)
Theorem init_firmware_calls (devs : list pci_dev) (m : hw) :
  exists r w',
    discrete_disabler_init (insmod devs m) = Some (r, w') /\
    ((firmware_calls (trace (kern w')) = [] /\
      discrete_state (vars w') = GPU_UNCHANGED)
     \/
     (firmware_calls (trace (kern w')) =
        [k_acpi_evaluate_object (dis_handle (vars w')) "_OFF"] /\
      load_discrete_state (vars w') = GPU_ENABLE /\
      discrete_state (vars w') = GPU_DISABLE)).
Proof.
  destruct (init_summary devs m) as (r & w' & E & _ & _ & _ & C).
  exists r, w'. split; [exact E|].
  destruct C as [(_ & _ & V & _ & F) | (_ & p & d & h & ds & ls & _ & _ & _
                                         & _ & V & C)].
  - left. rewrite V. auto.
  - rewrite V. cbn.
    destruct C as [(_ & S & _ & F) | (L & _ & [(S & F) | (S & _ & F)])];
      auto.
Qed.

(** X7: a load acquires the keep-awake reference of the bridge at most
    once and releases it as often as it acquires it, whatever the devices
    and the platform, also when no device is found, when the device is
    found off and when [discrete_off] refuses. *)
Theorem init_guard_once (devs : list pci_dev) (m : hw) :
  exists r w',
    discrete_disabler_init (insmod devs m) = Some (r, w') /\
    count is_get (trace (kern w')) = count is_put (trace (kern w')) /\
    (count is_get (trace (kern w')) <= 1)%nat.
Proof.
  destruct (init_summary devs m) as (r & w' & E & _ & B & O & _).
  exists r, w'. auto.
Qed.

(** X8: unloading right after loading is clean.  Whatever the devices and
    the platform, [discrete_disabler_exit] on the machine that
    [discrete_disabler_init] leaves returns with [nb] off the PM notifier
    chain and as many releases as acquisitions of the keep-awake reference:
    [discrete_state] is then GPU_UNCHANGED or GPU_DISABLE, so the path of
    [discrete_disabler_exit] that returns early is not taken. *)
Theorem load_then_unload_clean (devs : list pci_dev) (m : hw) :
  exists r w1,
    discrete_disabler_init (insmod devs m) = Some (r, w1) /\
    exists w2,
      discrete_disabler_exit w1 = Some (tt, w2) /\
      pm_chain_has_nb (kern w2) = false /\
      count is_get (trace (kern w2)) = count is_put (trace (kern w2)).
Proof.
  destruct (init_summary devs m) as (r & w1 & E & D & B & _ & C).
  exists r, w1. split; [exact E|].
  destruct C as [(_ & _ & V & Hc & _) | (_ & p & d & h & ds & ls & _ & N & _
                                          & _ & V & C)].
  - exists w1. split; [|auto].
    apply exit_without_device. rewrite V. left. reflexivity.
  - assert (Hv : dis_dev_is w1 p d)
      by (split; [rewrite V; reflexivity | rewrite D; exact N]).
    assert (Hh : dis_handle (vars w1) = Some h) by (rewrite V; reflexivity).
    assert (Hs : discrete_state (vars w1) <> GPU_ENABLE).
    { rewrite V. cbn.
      destruct C as [(_ & S & _) | (_ & _ & [(S & _) | (S & _)])];
        rewrite S; discriminate. }
    destruct (exit_other_paths w1 p d h Hv Hh Hs)
      as (w2 & E2 & G & Hoff & Hon).
    exists w2. split; [exact E2|]. split.
    + rewrite V in Hoff, Hon. cbn in Hoff, Hon.
      destruct C as [(L & _ & Hc & _) | (L & Hc & _)].
      * destruct (Hoff L) as [_ K]. rewrite K. exact Hc.
      * apply Hon; [rewrite L; discriminate | exact Hc].
    + unfold guard_depth in G. lia.
Qed.

(** X9: a load finds a discrete device whenever there is one.  When some
    device of the list is a display-class device with an ACPI handle and a
    vendor other than Intel, [discrete_disabler_init] returns 0 with
    [dis_dev] pointing at such a device of the list, [dis_handle] its
    non-NULL ACPI handle and [device_vendor] its vendor. *)
Theorem init_finds_candidate (devs : list pci_dev) (m : hw) :
  (exists d, In d devs /\ discrete_candidate d = true) ->
  exists w' p d h,
    discrete_disabler_init (insmod devs m) = Some (0, w') /\
    dis_dev (vars w') = Some p /\
    nth_error (pci_devices (kern w')) p = Some d /\
    In d devs /\
    discrete_candidate d = true /\
    acpi_companion d = Some h /\
    dis_handle (vars w') = Some h /\
    device_vendor (vars w') = vendor d.
Proof.
  intros (d0 & Hin & C0).
  destruct (enumerate_has devs d0 Hin) as [i Hi].
  destruct (observed_finds_candidate (enumerate devs) (i, d0) Hi C0)
    as [y Hy].
  destruct (init_summary devs m) as (r & w' & E & D & _ & _ & C).
  destruct C as [(_ & L & _) | (R & p & d & h & ds & ls & _ & N & Cd & Hc
                                 & V & _)].
  - rewrite L in Hy. discriminate Hy.
  - subst r. exists w', p, d, h. rewrite V, D. cbn.
    repeat split; auto. eapply nth_error_In, N.
Qed.

(** ** Which device the scan picks *)

Lemma combine_seq_app (l1 l2 : list pci_dev) :
  forall s,
    combine (seq s (List.length (l1 ++ l2))) (l1 ++ l2) =
    combine (seq s (List.length l1)) l1 ++
    combine (seq (s + List.length l1) (List.length l2)) l2.
Proof.
  induction l1 as [|x l1 IH]; intros s.
  - cbn. rewrite Nat.add_0_r. reflexivity.
  - cbn [List.length app seq combine]. rewrite IH.
    rewrite Nat.add_succ_r. reflexivity.
Qed.

Lemma enumerate_split (pre post : list pci_dev) (d : pci_dev) :
  enumerate (pre ++ d :: post) =
  enumerate pre ++
  (List.length pre, d)
  :: combine (seq (S (List.length pre)) (List.length post)) post.
Proof. unfold enumerate. rewrite combine_seq_app. reflexivity. Qed.

Lemma observed_until_discrete (pre : list (pci_ptr * pci_dev)) :
  forall hi x rest,
    (forall y, In y pre -> discrete_candidate (snd y) = false) ->
    hi || existsb (fun y => integrated_candidate (snd y)) pre = true ->
    discrete_candidate (snd x) = true ->
    observed hi false (pre ++ x :: rest) = pre ++ [x].
Proof.
  induction pre as [|y pre IH]; intros hi x rest N I C.
  - cbn in I |- *. rewrite orb_false_r in I. rewrite I, C. reflexivity.
  - cbn [app observed]. rewrite (N y (or_introl eq_refl)).
    cbn [orb]. rewrite andb_false_r. f_equal.
    apply IH; [intros z Hz; apply N; right; exact Hz | | exact C].
    cbn [existsb] in I. rewrite orb_assoc in I. exact I.
Qed.

Lemma observed_no_integrated (l : list (pci_ptr * pci_dev)) :
  forall hd,
    (forall y, In y l -> integrated_candidate (snd y) = false) ->
    observed false hd l = l.
Proof.
  induction l as [|y l IH]; intros hd N; [reflexivity|].
  cbn [observed]. rewrite (N y (or_introl eq_refl)). cbn [orb andb].
  f_equal. apply IH. intros z Hz. apply N. right. exact Hz.
Qed.

Lemma last_discrete_app (pre post : list (pci_ptr * pci_dev)) x :
  discrete_candidate (snd x) = true ->
  (forall y, In y post -> discrete_candidate (snd y) = false) ->
  last_discrete (pre ++ x :: post) = Some x.
Proof.
  intros C N. induction pre as [|y pre IH].
  - cbn [app last_discrete]. rewrite (last_discrete_none post N), C.
    reflexivity.
  - cbn [app last_discrete]. rewrite IH. reflexivity.
Qed.

Lemma enumerate_snd (devs : list pci_dev) y :
  In y (enumerate devs) -> In (snd y) devs.
Proof. destruct y as [i d]. apply enumerate_in. Qed.

Lemma combine_snd (s : nat) (l : list pci_dev) y :
  In y (combine (seq s (List.length l)) l) -> In (snd y) l.
Proof. destruct y as [i d]. apply in_combine_r. Qed.

(** The [pci_get_device] calls of a load, and the device it picks. *)
Lemma init_scan_outcome (devs : list pci_dev) (m : hw) :
  let obs := observed false false (enumerate devs) in
  exists r w',
    discrete_disabler_init (insmod devs m) = Some (r, w') /\
    dis_dev (vars w') = option_map fst (last_discrete obs) /\
    (r = 0 \/ last_discrete obs = None) /\
    count is_enumeration (trace (kern w')) =
      (List.length obs + if resolved false false obs then 0 else 1)%nat.
Proof.
  intros obs.
  destruct (init_outcome devs m) as (igd & ws & Hp & H).
  destruct Hp as (_ & _ & _ & _ & _ & _ & _ & _ & P9).
  assert (P9' : count is_enumeration (trace (kern ws)) =
                (0 + List.length obs
                 + if resolved false false obs then 0 else 1)%nat)
    by exact P9.
  clear P9. cbn [Nat.add] in P9'. cbv zeta in H. fold obs in H.
  destruct (last_discrete obs) as [[p d]|].
  - destruct H as ([V _] & _ & _ & E). rewrite E. eexists _, _.
    split; [reflexivity|]. cbn [option_map fst].
    destruct (init_result_facts ws p d) as (_ & _ & R3 & _).
    split; [rewrite R3; exact V|]. split; [left; reflexivity|].
    rewrite <- P9'.
    destruct (_ =? _).
    + unfold init_left_off, init_awake, guard_step.
      destruct (bridge_of d); cbn -[count]; rewrite ?count_snoc;
        cbn -[count]; rewrite ?count_snoc; cbn; lia.
    + unfold init_switched, init_awake, guard_step, off_result.
      destruct (bridge_of d);
        match goal with
        | |- context [if ?c then _ else _] => destruct c
        end;
        try destruct (driver d);
        cbn -[count]; rewrite ?count_snoc;
        cbn -[count]; rewrite ?count_snoc;
        cbn -[count]; rewrite ?count_snoc;
        cbn -[count]; rewrite ?count_snoc; cbn; lia.
  - destruct H as (V & _ & E). rewrite E. eexists _, _.
    split; [reflexivity|]. cbn -[count]. auto.
Qed.

(** X10: an integrated device ahead of the discrete ones.  When the device
    list holds an integrated device before its first discrete candidate,
    that first candidate becomes [dis_dev] and the scan stops there: the
    devices after it are never asked for, later discrete candidates
    included. *)
Theorem first_discrete_after_integrated
    (pre post : list pci_dev) (d : pci_dev) (m : hw) :
  (exists g, In g pre /\ integrated_candidate g = true) ->
  (forall x, In x pre -> discrete_candidate x = false) ->
  discrete_candidate d = true ->
  exists w',
    discrete_disabler_init (insmod (pre ++ d :: post) m) = Some (0, w') /\
    dis_dev (vars w') = Some (List.length pre) /\
    count is_enumeration (trace (kern w')) = S (List.length pre).
Proof.
  intros (g & Hg & Ig) N C.
  destruct (init_scan_outcome (pre ++ d :: post) m) as (r & w' & E & D & R & K).
  assert (O : observed false false (enumerate (pre ++ d :: post)) =
              enumerate pre ++ [(List.length pre, d)]).
  { rewrite enumerate_split. apply observed_until_discrete.
    - intros y Hy. apply N, enumerate_snd, Hy.
    - destruct (enumerate_has pre g Hg) as [i Hi].
      apply existsb_exists. exists (i, g). auto.
    - exact C. }
  assert (L : last_discrete (enumerate pre ++ [(List.length pre, d)]) =
              Some (List.length pre, d))
    by (apply last_discrete_app; [exact C | intros y []]).
  rewrite O, L in *.
  destruct R as [-> | R]; [|discriminate R].
  exists w'. split; [exact E|]. split; [exact D|].
  rewrite K. rewrite length_app. cbn [List.length].
  assert (Res : resolved false false
                  (enumerate pre ++ [(List.length pre, d)]) = true).
  { unfold resolved. cbn [orb]. rewrite !existsb_app. cbn [existsb snd].
    rewrite C. destruct (enumerate_has pre g Hg) as [i Hi].
    assert (X : existsb (fun x => integrated_candidate (snd x))
                  (enumerate pre) = true)
      by (apply existsb_exists; exists (i, g); auto).
    rewrite X. rewrite !orb_true_r. reflexivity. }
  rewrite Res. unfold enumerate. rewrite length_combine, length_seq. lia.
Qed.

(** X11: no integrated device.  When no device of the list is an
    integrated candidate, the scan asks for every device, one
    [pci_get_device] call per device and a last one that returns NULL, and
    the last discrete candidate of the whole list becomes [dis_dev]. *)
Theorem last_discrete_without_integrated
    (pre post : list pci_dev) (d : pci_dev) (m : hw) :
  (forall x, In x (pre ++ d :: post) -> integrated_candidate x = false) ->
  discrete_candidate d = true ->
  (forall x, In x post -> discrete_candidate x = false) ->
  exists w',
    discrete_disabler_init (insmod (pre ++ d :: post) m) = Some (0, w') /\
    dis_dev (vars w') = Some (List.length pre) /\
    count is_enumeration (trace (kern w')) =
      S (List.length (pre ++ d :: post)).
Proof.
  intros I C N.
  destruct (init_scan_outcome (pre ++ d :: post) m) as (r & w' & E & D & R & K).
  assert (NI : forall y, In y (enumerate (pre ++ d :: post)) ->
                         integrated_candidate (snd y) = false)
    by (intros y Hy; apply I, enumerate_snd, Hy).
  assert (O : observed false false (enumerate (pre ++ d :: post)) =
              enumerate (pre ++ d :: post))
    by (apply observed_no_integrated, NI).
  assert (L : last_discrete (enumerate (pre ++ d :: post)) =
              Some (List.length pre, d)).
  { rewrite enumerate_split. apply last_discrete_app; [exact C|].
    intros y Hy. apply N. eapply combine_snd, Hy. }
  rewrite O, L in *.
  destruct R as [-> | R]; [|discriminate R].
  exists w'. split; [exact E|]. split; [exact D|].
  rewrite K.
  assert (Res : resolved false false (enumerate (pre ++ d :: post)) = false).
  { unfold resolved. cbn [orb].
    assert (X : existsb (fun x => integrated_candidate (snd x))
                  (enumerate (pre ++ d :: post)) = false).
    { apply not_true_is_false. intros T. apply existsb_exists in T.
      destruct T as (y & Hy & Ty). rewrite (NI y Hy) in Ty. discriminate. }
    rewrite X. reflexivity. }
  rewrite Res. unfold enumerate. rewrite length_combine, length_seq. lia.
Qed.

(** ** Switching off at load, restoring at unload *)

Lemma scan_stable (p : pci_ptr) :
  register_stable p ->
  forall l pdev igd w igd' w',
    scan l pdev igd w = Some (igd', w') ->
    cfg_word_of (machine (kern w')) p = cfg_word_of (machine (kern w)) p.
Proof.
  intros S. induction l as [|[i d] rest IH]; intros pdev igd w igd' w' E.
  - rewrite scan_nil in E. inversion E; subst. cbn. apply S. reflexivity.
  - rewrite scan_cons in E.
    assert (R1 : cfg_word_of (machine (kern (round_skip pdev w))) p =
                 cfg_word_of (machine (kern w)) p)
      by (cbn; apply S; reflexivity).
    assert (R2 : cfg_word_of (machine (kern (round_no_handle pdev w))) p =
                 cfg_word_of (machine (kern w)) p)
      by (cbn; apply S; reflexivity).
    assert (R3 : forall h,
               cfg_word_of (machine (kern (round_integrated pdev h w))) p =
               cfg_word_of (machine (kern w)) p)
      by (intros h; cbn; rewrite !S by reflexivity; reflexivity).
    assert (R4 : forall h,
               cfg_word_of (machine (kern (round_discrete pdev i h w))) p =
               cfg_word_of (machine (kern w)) p)
      by (intros h; cbn; rewrite !S by reflexivity; reflexivity).
    destruct (negb (is_display d)).
    { rewrite (IH _ _ _ _ _ E). exact R1. }
    destruct (acpi_companion d) as [h|].
    2: { rewrite (IH _ _ _ _ _ E). exact R2. }
    destruct (vendor d =? PCI_VENDOR_ID_INTEL).
    + destruct (dis_handle (vars w)).
      * inversion E; subst. apply R3.
      * rewrite (IH _ _ _ _ _ E). apply R3.
    + destruct (snd igd).
      * inversion E; subst. apply R4.
      * rewrite (IH _ _ _ _ _ E). apply R4.
Qed.

Lemma exit_fallthrough
    (w : world) (p : pci_ptr) (d : pci_dev) (h : acpi_handle) :
  dis_dev_is w p d ->
  dis_handle (vars w) = Some h ->
  load_discrete_state (vars w) <> GPU_DISABLE ->
  discrete_state (vars w) <> GPU_ENABLE ->
  discrete_disabler_exit w = Some (tt, exit_world p d w).
Proof.
  intros H Hh Hl Hs. rewrite (exit_eq w p d h H Hh).
  apply Z.eqb_neq in Hl, Hs. rewrite Hl, Hs. reflexivity.
Qed.

Lemma exit_world_facts
    (w : world) (p : pci_ptr) (d : pci_dev) (h : acpi_handle) :
  dis_dev_is w p d ->
  dis_handle (vars w) = Some h ->
  register_stable p ->
  dis_dev_is (exit_world p d w) p d /\
  guard_depth (trace (kern (exit_world p d w))) =
    guard_depth (trace (kern w)) /\
  pm_chain_has_nb (kern (exit_world p d w)) =
    (if nb_notifier_call (vars w) then false
     else pm_chain_has_nb (kern w)) /\
  (cfg_word_of (machine (kern w)) p = 0xffffffff ->
   firmware_calls (trace (kern (exit_world p d w))) =
     firmware_calls (trace (kern w)) ++
     [k_acpi_evaluate_object (Some h) "_ON"] /\
   vars (exit_world p d w) = set_discrete_state GPU_ENABLE (vars w) /\
   (firmware_obeyed p (Some h) ->
    cfg_word_of (machine (kern (exit_world p d w))) p <> 0xffffffff)) /\
  (cfg_word_of (machine (kern w)) p <> 0xffffffff ->
   firmware_calls (trace (kern (exit_world p d w))) =
     firmware_calls (trace (kern w)) /\
   vars (exit_world p d w) = vars w).
Proof.
  intros H Hh S. unfold exit_world. cbv zeta.
  set (w0 := guard_step k_pm_runtime_get_sync d w).
  assert (C0 : cfg_word_of (machine (kern w0)) p =
               cfg_word_of (machine (kern w)) p)
    by (apply cfg_guard_step; [exact S | reflexivity]).
  assert (Hh0 : dis_handle (vars w0) = Some h)
    by (subst w0; unfold guard_step; destruct (bridge_of d); exact Hh).
  set (w1 := guard_step k_pm_runtime_put_sync d
               (logged [exit_msg_done] (on_result p w0))).
  assert (V1 : dis_dev_is w1 p d) by (subst w1 w0; auto 10 with valid).
  assert (D1 : guard_depth (trace (kern w1)) = guard_depth (trace (kern w))).
  { subst w1. rewrite depth_guard_put. cbn -[guard_depth].
    rewrite depth_on_result. subst w0. rewrite depth_guard_get. lia. }
  assert (N1 : pm_chain_has_nb (kern w1) = pm_chain_has_nb (kern w)).
  { subst w1 w0. unfold guard_step, on_result.
    destruct (bridge_of d);
      match goal with
      | |- context [if ?c then _ else _] => destruct c
      end; reflexivity. }
  assert (F1 : firmware_calls (trace (kern w1)) =
               firmware_calls (trace (kern (on_result p w0)))).
  { subst w1. rewrite firmware_calls_guard_step by reflexivity.
    reflexivity. }
  assert (F0 : firmware_calls (trace (kern w0)) =
               firmware_calls (trace (kern w)))
    by (subst w0; apply firmware_calls_guard_step; reflexivity).
  assert (M1 : cfg_word_of (machine (kern w1)) p =
               cfg_word_of (machine (kern (on_result p w0))) p).
  { subst w1. rewrite cfg_guard_step by (auto || reflexivity).
    reflexivity. }
  assert (X1 : vars w1 = vars (on_result p w0)).
  { subst w1. unfold guard_step. destruct (bridge_of d); reflexivity. }
  assert (X0 : vars w0 = vars w).
  { subst w0. unfold guard_step. destruct (bridge_of d); reflexivity. }
  clearbody w1 w0.
  set (w' := if nb_notifier_call (vars w)
             then called k_unregister_pm_notifier w1 else w1).
  assert (K : guard_depth (trace (kern w')) = guard_depth (trace (kern w1))
              /\ firmware_calls (trace (kern w')) =
                 firmware_calls (trace (kern w1))
              /\ vars w' = vars w1
              /\ cfg_word_of (machine (kern w')) p =
                 cfg_word_of (machine (kern w1)) p
              /\ dis_dev_is w' p d
              /\ pm_chain_has_nb (kern w') =
                 (if nb_notifier_call (vars w) then false
                  else pm_chain_has_nb (kern w1))).
  { subst w'. destruct (nb_notifier_call (vars w)).
    - cbn -[guard_depth firmware_calls].
      rewrite guard_depth_snoc, firmware_calls_snoc.
      cbn -[guard_depth firmware_calls].
      rewrite app_nil_r, S by reflexivity.
      repeat split; try lia; apply V1.
    - repeat split; apply V1. }
  destruct K as (K1 & K2 & K3 & K4 & K5 & K6). clearbody w'.
  split; [exact K5|]. split; [lia|].
  split; [rewrite K6, N1; reflexivity|].
  unfold on_result in F1, M1, X1. rewrite C0 in F1, M1, X1.
  split; intros E.
  - rewrite E in F1, M1, X1. cbn [Z.eqb Pos.eqb] in F1, M1, X1.
    split; [|split].
    + rewrite K2, F1. unfold on_done. cbn -[firmware_calls].
      rewrite firmware_calls_snoc, F0, Hh0. reflexivity.
    + rewrite K3, X1. unfold on_done. cbn. rewrite X0. reflexivity.
    + intros [_ Hon]. rewrite K4, M1. unfold on_done. cbn.
      rewrite Hh0. apply Hon.
  - apply Z.eqb_neq in E. rewrite E in F1, M1, X1. split.
    + rewrite K2, F1. exact F0.
    + rewrite K3, X1. exact X0.
Qed.

(** X12: unloading restores the device.  With the device found, the
    load-time state not GPU_DISABLE and [discrete_state] not GPU_ENABLE, on
    a platform whose register only firmware methods change,
    [discrete_disabler_exit] releases the reference it acquires and takes
    [nb] off the PM notifier chain if [nb.notifier_call] is set.  If the
    oracle reads Disabled it evaluates "_ON" on [dis_handle] once and sets
    [discrete_state] to GPU_ENABLE, and the oracle then reads Enabled when
    the firmware obeys; if the oracle reads Enabled it evaluates nothing
    and leaves every variable of the module as it was. *)
Theorem exit_restores
    (w : world) (p : pci_ptr) (d : pci_dev) (h : acpi_handle) :
  dis_dev_is w p d ->
  dis_handle (vars w) = Some h ->
  load_discrete_state (vars w) <> GPU_DISABLE ->
  discrete_state (vars w) <> GPU_ENABLE ->
  register_stable p ->
  exists w',
    discrete_disabler_exit w = Some (tt, w') /\
    guard_depth (trace (kern w')) = guard_depth (trace (kern w)) /\
    pm_chain_has_nb (kern w') =
      (if nb_notifier_call (vars w) then false
       else pm_chain_has_nb (kern w)) /\
    (get_discrete_state w = Some (GPU_DISABLE, w) ->
     firmware_calls (trace (kern w')) =
       firmware_calls (trace (kern w)) ++
       [k_acpi_evaluate_object (Some h) "_ON"] /\
     discrete_state (vars w') = GPU_ENABLE /\
     (firmware_obeyed p (Some h) ->
      get_discrete_state w' = Some (GPU_ENABLE, w'))) /\
    (get_discrete_state w = Some (GPU_ENABLE, w) ->
     firmware_calls (trace (kern w')) = firmware_calls (trace (kern w)) /\
     vars w' = vars w).
Proof.
  intros H Hh Hl Hs S.
  exists (exit_world p d w).
  split; [exact (exit_fallthrough w p d h H Hh Hl Hs)|].
  destruct (exit_world_facts w p d h H Hh S) as (V & G & N & Off & On).
  split; [exact G|]. split; [exact N|].
  rewrite (get_discrete_state_eq w p d H).
  destruct (Z.eqb_spec (cfg_word_of (machine (kern w)) p) 0xffffffff)
    as [E | E]; split; try (intros A; discriminate A); intros _.
  - destruct (Off E) as (F & X & R). split; [exact F|].
    split; [rewrite X; reflexivity|]. intros Ob.
    rewrite (get_discrete_state_eq _ p d V).
    specialize (R Ob). apply Z.eqb_neq in R. rewrite R. reflexivity.
  - exact (On E).
Qed.

(** A load that finds the device [d] at [p], on a platform whose register
    only firmware methods change. *)
Lemma init_found_stable (devs : list pci_dev) (m : hw)
    (p : pci_ptr) (d : pci_dev) :
  last_discrete (observed false false (enumerate devs)) = Some (p, d) ->
  register_stable p ->
  exists ws,
    dis_dev_is ws p d /\
    dis_handle (vars ws) = acpi_companion d /\
    discrete_state (vars ws) = GPU_UNCHANGED /\
    nb_notifier_call (vars ws) = false /\
    pm_chain_has_nb (kern ws) = false /\
    firmware_calls (trace (kern ws)) = [] /\
    guard_depth (trace (kern ws)) = 0 /\
    cfg_word_of (machine (kern ws)) p = cfg_word_of m p /\
    discrete_disabler_init (insmod devs m) =
      Some (0,
            if cfg_word_of m p =? 0xffffffff
            then init_left_off p d ws
            else init_switched p d ws).
Proof.
  intros L S.
  destruct (scan_spec (enumerate devs) None (None, None)
              (init_banner (insmod devs m)) eq_refl)
    as (igd & ws & Hs & Hp).
  pose proof (scan_stable p S _ _ _ _ _ _ Hs) as C.
  destruct Hp as (P1 & P2 & _ & P4 & _ & P6 & P7 & P8 & _).
  assert (P8' : (dis_dev (vars ws), dis_handle (vars ws)) =
                (Some p, acpi_companion d)).
  { assert (Q : (dis_dev (vars ws), dis_handle (vars ws)) =
                match last_discrete
                        (observed false false (enumerate devs)) with
                | Some (i, d) => (Some i, acpi_companion d)
                | None => (None, None)
                end) by exact P8.
    rewrite L in Q. exact Q. }
  inversion P8' as [[E1 E2]].
  apply last_discrete_split in L. destruct L as (pre & post & E & _ & _).
  assert (Hin : In (p, d) (enumerate devs)).
  { apply (observed_incl _ false false). rewrite E.
    apply in_or_app. right. left. reflexivity. }
  assert (V : dis_dev_is ws p d).
  { split; [exact E1|]. rewrite P1. apply enumerate_nth. exact Hin. }
  exists ws. split; [exact V|]. split; [reflexivity|].
  split; [exact P4|]. split; [exact P6|]. split; [exact P2|].
  split; [apply firmware_calls_nil; rewrite P7 by reflexivity; reflexivity|].
  split; [unfold guard_depth; rewrite !P7 by reflexivity; reflexivity|].
  split; [exact C|].
  rewrite init_eq. change (pci_devices (kern (insmod devs m))) with devs.
  rewrite (bind_some _ _ _ _ _ Hs). rewrite (init_tail_some ws p d V).
  unfold init_awake at 1. rewrite cfg_guard_step by (auto || reflexivity).
  cbn [machine kern logged with_vars]. rewrite C. reflexivity.
Qed.

(** A load that switches the device off. *)
Lemma load_switches_off (devs : list pci_dev) (m : hw)
    (p : pci_ptr) (d : pci_dev) :
  last_discrete (observed false false (enumerate devs)) = Some (p, d) ->
  driver d = None ->
  cfg_word_of m p <> 0xffffffff ->
  firmware_obeyed p (acpi_companion d) ->
  register_stable p ->
  exists w1,
    discrete_disabler_init (insmod devs m) = Some (0, w1) /\
    dis_dev_is w1 p d /\
    dis_handle (vars w1) = acpi_companion d /\
    load_discrete_state (vars w1) = GPU_ENABLE /\
    discrete_state (vars w1) = GPU_DISABLE /\
    nb_notifier_call (vars w1) = true /\
    pm_chain_has_nb (kern w1) = true /\
    firmware_calls (trace (kern w1)) =
      [k_acpi_evaluate_object (acpi_companion d) "_OFF"] /\
    guard_depth (trace (kern w1)) = 0 /\
    get_discrete_state w1 = Some (GPU_DISABLE, w1).
Proof.
  intros L Hdrv Hon [Hoff _] S.
  destruct (init_found_stable devs m p d L S)
    as (ws & V & Hh & Hs & Hn & Hc & F & G & C & E).
  apply Z.eqb_neq in Hon. rewrite Hon in E.
  set (w0 := with_vars (set_load_discrete_state GPU_ENABLE)
               (init_awake d ws)).
  assert (C0 : cfg_word_of (machine (kern w0)) p = cfg_word_of m p).
  { subst w0. unfold init_awake. cbn [machine kern with_vars].
    rewrite cfg_guard_step by (auto || reflexivity). exact C. }
  assert (R : off_result p d w0 = off_done w0).
  { unfold off_result. rewrite C0, Hon, Hdrv. reflexivity. }
  assert (Hh0 : dis_handle (vars w0) = acpi_companion d).
  { subst w0. unfold init_awake, guard_step.
    destruct (bridge_of d); exact Hh. }
  assert (F0 : firmware_calls (trace (kern w0)) = []).
  { subst w0. unfold init_awake. cbn [trace kern with_vars].
    rewrite firmware_calls_guard_step by reflexivity. exact F. }
  assert (G0 : guard_depth (trace (kern w0)) =
               match bridge_of d with Some _ => 1 | None => 0 end).
  { subst w0. unfold init_awake. cbn [trace kern with_vars].
    rewrite depth_guard_get. cbn -[guard_depth]. lia. }
  assert (V0 : dis_dev_is w0 p d) by (subst w0; auto 10 with valid).
  assert (L0 : load_discrete_state (vars w0) = GPU_ENABLE)
    by reflexivity.
  unfold init_switched in E. fold w0 in E. rewrite R in E.
  clearbody w0.
  set (w1 := guard_step k_pm_runtime_put_sync d _) in E.
  exists w1. split; [exact E|].
  assert (V1 : dis_dev_is w1 p d) by (subst w1; auto 10 with valid).
  split; [exact V1|].
  assert (X : vars w1 =
              set_nb_notifier_call
                (set_discrete_state GPU_DISABLE (vars w0))).
  { subst w1. unfold guard_step. destruct (bridge_of d); reflexivity. }
  rewrite X. cbn [dis_handle load_discrete_state discrete_state
                  nb_notifier_call set_nb_notifier_call set_discrete_state].
  split; [exact Hh0|]. split; [exact L0|]. split; [reflexivity|].
  split; [reflexivity|].
  split; [subst w1; unfold guard_step; destruct (bridge_of d); reflexivity|].
  split; [|split].
  - subst w1. rewrite firmware_calls_guard_step by reflexivity.
    unfold off_done. cbn -[firmware_calls].
    rewrite !firmware_calls_snoc, F0, Hh0. reflexivity.
  - subst w1. rewrite depth_guard_put. unfold off_done.
    cbn -[guard_depth]. rewrite !guard_depth_snoc, G0. cbn.
    destruct (bridge_of d); lia.
  - rewrite (get_discrete_state_eq w1 p d V1). subst w1.
    rewrite cfg_guard_step by (auto || reflexivity).
    unfold off_done. cbn. rewrite S by reflexivity.
    rewrite Hh0, Hoff. reflexivity.
Qed.

(** X13: load, then unload.  When the scan picks the device [d] at [p],
    [d] has no driver and reads Enabled, the firmware obeys and only
    firmware methods change the register: [discrete_disabler_init] returns
    0 having evaluated "_OFF" on the handle of [d] and nothing else, with
    the load-time state GPU_ENABLE, [discrete_state] GPU_DISABLE, the
    oracle reading Disabled and [nb] registered; [discrete_disabler_exit]
    then evaluates "_ON" on the same handle and nothing else, and leaves
    [discrete_state] GPU_ENABLE, the oracle reading Enabled, [nb] off the
    PM notifier chain and no reference held. *)
Theorem load_unload_restores (devs : list pci_dev) (m : hw)
    (p : pci_ptr) (d : pci_dev) :
  last_discrete (observed false false (enumerate devs)) = Some (p, d) ->
  driver d = None ->
  cfg_word_of m p <> 0xffffffff ->
  firmware_obeyed p (acpi_companion d) ->
  register_stable p ->
  exists w1 w2,
    discrete_disabler_init (insmod devs m) = Some (0, w1) /\
    load_discrete_state (vars w1) = GPU_ENABLE /\
    discrete_state (vars w1) = GPU_DISABLE /\
    pm_chain_has_nb (kern w1) = true /\
    firmware_calls (trace (kern w1)) =
      [k_acpi_evaluate_object (acpi_companion d) "_OFF"] /\
    get_discrete_state w1 = Some (GPU_DISABLE, w1) /\
    discrete_disabler_exit w1 = Some (tt, w2) /\
    firmware_calls (trace (kern w2)) =
      [k_acpi_evaluate_object (acpi_companion d) "_OFF";
       k_acpi_evaluate_object (acpi_companion d) "_ON"] /\
    discrete_state (vars w2) = GPU_ENABLE /\
    get_discrete_state w2 = Some (GPU_ENABLE, w2) /\
    pm_chain_has_nb (kern w2) = false /\
    guard_depth (trace (kern w2)) = 0.
Proof.
  intros L Hdrv Hon Ob S.
  destruct (load_switches_off devs m p d L Hdrv Hon Ob S)
    as (w1 & E & V & Hh & Hl & Hs & Hn & Hc & F & G & R).
  assert (exists h, acpi_companion d = Some h) as [h Hc'].
  { apply last_discrete_split in L.
    destruct L as (_ & _ & _ & C & _). cbn in C.
    unfold discrete_candidate, controllable in C.
    destruct (acpi_companion d) as [h|]; [eauto|].
    rewrite andb_false_r in C. discriminate C. }
  rewrite Hc' in *.
  assert (E2 : discrete_disabler_exit w1 = Some (tt, exit_world p d w1)).
  { apply (exit_fallthrough w1 p d h V Hh).
    - rewrite Hl. discriminate.
    - rewrite Hs. discriminate. }
  destruct (exit_world_facts w1 p d h V Hh S) as (V2 & G2 & N2 & Off & _).
  rewrite (get_discrete_state_eq w1 p d V) in R.
  destruct (Z.eqb_spec (cfg_word_of (machine (kern w1)) p) 0xffffffff)
    as [C1 | C1]; [|discriminate R].
  destruct (Off C1) as (F2 & X2 & R2).
  exists w1, (exit_world p d w1).
  split; [exact E|]. split; [exact Hl|]. split; [exact Hs|].
  split; [exact Hc|]. split; [exact F|].
  split; [rewrite (get_discrete_state_eq w1 p d V);
          apply Z.eqb_eq in C1; rewrite C1; reflexivity|].
  split; [exact E2|]. split; [rewrite F2, F; reflexivity|].
  split; [rewrite X2; reflexivity|].
  split.
  - rewrite (get_discrete_state_eq _ p d V2).
    specialize (R2 Ob). apply Z.eqb_neq in R2. rewrite R2. reflexivity.
  - split; [rewrite N2, Hn; reflexivity|]. rewrite G2. exact G.
Qed.

(** ** Loads that leave the device alone *)

(** X14: a load that does not record GPU_ENABLE leaves the hardware alone
    for good.  Whatever the devices and the platform, when
    [discrete_disabler_init] leaves [load_discrete_state] other than
    GPU_ENABLE (no discrete device found, or found off), it has evaluated
    no firmware method and not registered [nb], and any run of events
    followed by [discrete_disabler_exit] makes no kernel call and changes
    no variable of the module. *)
Theorem load_without_switch_is_final (devs : list pci_dev) (m : hw) :
  exists r w1,
    discrete_disabler_init (insmod devs m) = Some (r, w1) /\
    (load_discrete_state (vars w1) <> GPU_ENABLE ->
     firmware_calls (trace (kern w1)) = [] /\
     pm_chain_has_nb (kern w1) = false /\
     forall evs,
       exists w2,
         (pm_events evs ;; discrete_disabler_exit) w1 = Some (tt, w2) /\
         vars w2 = vars w1 /\ kern w2 = kern w1).
Proof.
  destruct (init_summary devs m) as (r & w1 & E & D & _ & _ & C).
  exists r, w1. split; [exact E|]. intros Hl.
  assert (Inert : forall evs, pm_events evs w1 = Some (tt, w1)).
  { induction evs as [|ev evs IH]; [reflexivity|]. cbn [pm_events].
    rewrite (bind_some _ _ _ _ _ (handler_inert w1 ev (or_introl Hl))).
    exact IH. }
  destruct C as [(_ & _ & V & Hc & F) | (_ & p & d & h & ds & ls & _ & N & _
                                          & _ & V & C)].
  - split; [exact F|]. split; [exact Hc|]. intros evs. exists w1.
    rewrite (bind_some _ _ _ _ _ (Inert evs)).
    split; [|auto]. apply exit_without_device. rewrite V. left. reflexivity.
  - destruct C as [(L & _ & Hc & F) | (L & _)];
      [|exfalso; apply Hl; rewrite V; exact L].
    split; [exact F|]. split; [exact Hc|]. intros evs.
    rewrite (bind_some _ _ _ _ _ (Inert evs)).
    assert (Hv : dis_dev_is w1 p d)
      by (split; [rewrite V; reflexivity | rewrite D; exact N]).
    assert (Ll : load_discrete_state (vars w1) = GPU_DISABLE)
      by (rewrite V; exact L).
    rewrite (exit_eq w1 p d h Hv) by (rewrite V; reflexivity).
    rewrite Ll. eexists. split; [reflexivity|]. split; reflexivity.
Qed.

(** X15: a refused load is harmless.  When the scan picks the device [d]
    at [p], a driver is bound to [d], [d] reads Enabled and only firmware
    methods change the register: [discrete_disabler_init] returns 0 with
    no firmware method evaluated, [discrete_state] still GPU_UNCHANGED and
    [nb] registered; any run of events then does nothing, and
    [discrete_disabler_exit] after it evaluates no firmware method, leaves
    the variables of the module as they were, takes [nb] off the chain and
    holds no reference. *)
Theorem refused_load_is_harmless (devs : list pci_dev) (m : hw)
    (p : pci_ptr) (d : pci_dev) (drv : string) :
  last_discrete (observed false false (enumerate devs)) = Some (p, d) ->
  driver d = Some drv ->
  cfg_word_of m p <> 0xffffffff ->
  register_stable p ->
  exists w1,
    discrete_disabler_init (insmod devs m) = Some (0, w1) /\
    firmware_calls (trace (kern w1)) = [] /\
    discrete_state (vars w1) = GPU_UNCHANGED /\
    pm_chain_has_nb (kern w1) = true /\
    forall evs,
      exists w2,
        (pm_events evs ;; discrete_disabler_exit) w1 = Some (tt, w2) /\
        firmware_calls (trace (kern w2)) = [] /\
        vars w2 = vars w1 /\
        pm_chain_has_nb (kern w2) = false /\
        guard_depth (trace (kern w2)) = 0.
Proof.
  intros L Hdrv Hon S.
  destruct (init_found_stable devs m p d L S)
    as (ws & V & Hh & Hs & Hn & Hc & F & G & C & E).
  assert (exists h, acpi_companion d = Some h) as [h Hc'].
  { apply last_discrete_split in L.
    destruct L as (_ & _ & _ & Cd & _). cbn in Cd.
    unfold discrete_candidate, controllable in Cd.
    destruct (acpi_companion d) as [h|]; [eauto|].
    rewrite andb_false_r in Cd. discriminate Cd. }
  apply Z.eqb_neq in Hon. rewrite Hon in E.
  set (w0 := with_vars (set_load_discrete_state GPU_ENABLE)
               (init_awake d ws)).
  assert (C0 : cfg_word_of (machine (kern w0)) p = cfg_word_of m p).
  { subst w0. unfold init_awake. cbn [machine kern with_vars].
    rewrite cfg_guard_step by (auto || reflexivity). exact C. }
  assert (R : off_result p d w0 = off_refused w0).
  { unfold off_result. rewrite C0, Hon, Hdrv. reflexivity. }
  assert (X0 : vars w0 =
               set_load_discrete_state GPU_ENABLE
                 (set_device_vendor (vendor d) (vars ws))).
  { subst w0. unfold init_awake, guard_step.
    destruct (bridge_of d); reflexivity. }
  assert (F0 : firmware_calls (trace (kern w0)) = []).
  { subst w0. unfold init_awake. cbn [trace kern with_vars].
    rewrite firmware_calls_guard_step by reflexivity. exact F. }
  assert (G0 : guard_depth (trace (kern w0)) =
               match bridge_of d with Some _ => 1 | None => 0 end).
  { subst w0. unfold init_awake. cbn [trace kern with_vars].
    rewrite depth_guard_get. cbn -[guard_depth]. lia. }
  assert (V0 : dis_dev_is w0 p d) by (subst w0; auto 10 with valid).
  unfold init_switched in E. fold w0 in E. rewrite R in E.
  clearbody w0.
  set (w1 := guard_step k_pm_runtime_put_sync d _) in E.
  assert (V1 : dis_dev_is w1 p d) by (subst w1; auto 10 with valid).
  assert (X1 : vars w1 = set_nb_notifier_call (vars w0)).
  { subst w1. unfold guard_step. destruct (bridge_of d); reflexivity. }
  assert (F1 : firmware_calls (trace (kern w1)) = []).
  { subst w1. rewrite firmware_calls_guard_step by reflexivity.
    cbn -[firmware_calls]. rewrite firmware_calls_snoc, F0. reflexivity. }
  assert (G1 : guard_depth (trace (kern w1)) = 0).
  { subst w1. rewrite depth_guard_put. cbn -[guard_depth].
    rewrite guard_depth_snoc, G0. cbn. destruct (bridge_of d); lia. }
  assert (N1 : pm_chain_has_nb (kern w1) = true).
  { subst w1. unfold guard_step. destruct (bridge_of d); reflexivity. }
  assert (C1 : cfg_word_of (machine (kern w1)) p <> 0xffffffff).
  { subst w1. rewrite cfg_guard_step by (auto || reflexivity).
    cbn. rewrite S by reflexivity. rewrite C0. apply Z.eqb_neq, Hon. }
  clearbody w1.
  assert (Hs1 : discrete_state (vars w1) = GPU_UNCHANGED)
    by (rewrite X1, X0; exact Hs).
  assert (Hl1 : load_discrete_state (vars w1) = GPU_ENABLE)
    by (rewrite X1, X0; reflexivity).
  assert (Hh1 : dis_handle (vars w1) = Some h)
    by (rewrite X1, X0; cbn; rewrite Hh; exact Hc').
  assert (Hn1 : nb_notifier_call (vars w1) = true)
    by (rewrite X1; reflexivity).
  exists w1. split; [exact E|]. split; [exact F1|]. split; [exact Hs1|].
  split; [exact N1|]. intros evs.
  assert (Cond : load_discrete_state (vars w1) <> GPU_ENABLE \/
                 (discrete_state (vars w1) <> GPU_DISABLE /\
                  discrete_state (vars w1) <> GPU_ENABLE))
    by (right; rewrite Hs1; split; discriminate).
  assert (Inert : pm_events evs w1 = Some (tt, w1)).
  { induction evs as [|ev evs IH]; [reflexivity|]. cbn [pm_events].
    rewrite (bind_some _ _ _ _ _ (handler_inert w1 ev Cond)). exact IH. }
  rewrite (bind_some _ _ _ _ _ Inert).
  exists (exit_world p d w1). split.
  - apply (exit_fallthrough w1 p d h V1 Hh1).
    + rewrite Hl1. discriminate.
    + rewrite Hs1. discriminate.
  - destruct (exit_world_facts w1 p d h V1 Hh1 S) as (_ & G2 & N2 & _ & On).
    destruct (On C1) as (F2 & X2).
    split; [rewrite F2; exact F1|]. split; [exact X2|].
    split; [rewrite N2, Hn1; reflexivity|]. rewrite G2. exact G1.
Qed.

End Further.

(** * On the laptop: instances of the theorems, and where the code
      departs from the design *)

Section OnTheLaptop.

#[local] Existing Instance linux_headers.
#[local] Existing Instance laptop.

Lemma linux_pm_labels_distinct : NoDup (@pm_labels linux_headers).
Proof.
  unfold pm_labels. cbn.
  repeat (constructor; [cbn; intuition discriminate|]). constructor.
Qed.

(** [laptop_probed] is where loading calls [discrete_off]. *)
Example laptop_probed_reached (drv : option string) :
  discrete_disabler_init (laptop_at_boot drv) =
    (discrete_off ;;
     pr_info "Successfully disable discrete card %s\n" ;;
     assign set_nb_notifier_call ;;
     call k_register_pm_notifier ;;
     dis_dev_put ;;
     ret 0) (laptop_probed drv).
Proof. reflexivity. Qed.

Example laptop_loaded_reached :
  discrete_disabler_init (laptop_at_boot None) = Some (0, laptop_loaded).
Proof. vm_compute. reflexivity. Qed.

Example laptop_resumed_reached :
  (discrete_disabler_init ;;
   discrete_pm_handler PM_SUSPEND_PREPARE ;;
   bind_driver 2%nat "nouveau" ;;
   discrete_pm_handler PM_POST_SUSPEND) (laptop_at_boot None) =
  Some (0, laptop_resumed).
Proof. vm_compute. reflexivity. Qed.

(** [laptop_resumed]: found, load-time state GPU_ENABLE, [discrete_state]
    GPU_ENABLE, [nb] registered, no reference held. *)
Example laptop_resumed_state :
  dis_dev_is laptop_resumed 2%nat (nvidia (Some "nouveau")) /\
  dis_handle (vars laptop_resumed) = Some 2%nat /\
  load_discrete_state (vars laptop_resumed) = GPU_ENABLE /\
  discrete_state (vars laptop_resumed) = GPU_ENABLE /\
  pm_chain_has_nb (kern laptop_resumed) = true /\
  guard_depth (trace (kern laptop_resumed)) = 0.
Proof. repeat split; reflexivity. Qed.

Lemma get_discrete_state_all_ones_witness :
  exists st,
    get_discrete_state (laptop_probed None) = Some (st, laptop_probed None) /\
    (st = GPU_DISABLE <->
     forall i, 0 <= i < 32 ->
               Z.testbit (cfg_word_of (machine (kern (laptop_probed None)))
                            2%nat) i = true) /\
    (st <> GPU_DISABLE -> st = GPU_ENABLE).
Proof.
  apply (get_discrete_state_all_ones (laptop_probed None) 2%nat
           (nvidia None)).
  split; reflexivity.
Defined.

Lemma discrete_off_claimed_witness :
  exists w',
    discrete_off (laptop_probed (Some "nouveau")) = Some (tt, w') /\
    vars w' = vars (laptop_probed (Some "nouveau")) /\
    kern w' = kern (laptop_probed (Some "nouveau")) /\
    dmesg w' =
      dmesg (laptop_probed (Some "nouveau")) ++
      [(KERN_INFO, "turning discrete off\n"); refusal].
Proof.
  apply (discrete_off_claimed (laptop_probed (Some "nouveau")) 2%nat
           (nvidia (Some "nouveau")) "nouveau").
  - split; reflexivity.
  - reflexivity.
Defined.

(** C3 as stated fails: on the laptop with nouveau bound, at the point
    where loading calls it, [discrete_off] refuses and [discrete_state] is
    GPU_UNCHANGED afterwards, not GPU_ENABLE. *)
Lemma refused_off_not_enabled :
  ~ refused_off_leaves_enabled (laptop_probed (Some "nouveau")).
Proof.
  intros H.
  destruct (H 2%nat (nvidia (Some "nouveau")) "nouveau"
              (conj eq_refl eq_refl) eq_refl) as (w' & E & _ & S).
  vm_compute in E. inversion E; subst w'. discriminate S.
Qed.

(** C2 as stated fails: on the laptop with nouveau bound, loading logs the
    refusal and still registers the notifier. *)
Lemma registered_after_refusal :
  ~ registers_only_on_success (laptop_at_boot (Some "nouveau")).
Proof.
  intros H.
  assert (E : exists w',
             discrete_disabler_init (laptop_at_boot (Some "nouveau")) =
               Some (0, w') /\
             In refusal (dmesg w') /\
             pm_chain_has_nb (kern w') = true).
  { eexists. split; [vm_compute; reflexivity|]. split; [|reflexivity].
    cbn. repeat (try (left; reflexivity); right). }
  destruct E as (w' & E & I & R).
  rewrite (H 0 w' E I) in R. discriminate R.
Qed.

Lemma transitions_idempotent_witness :
  (exists w2,
     (discrete_off ;; discrete_off) (laptop_probed None) = Some (tt, w2) /\
     count (is_method_call "_OFF") (trace (kern w2)) = 1%nat) /\
  (exists w',
     discrete_on (laptop_probed None) = Some (tt, w') /\
     kern w' = kern (laptop_probed None)).
Proof.
  destruct (transitions_idempotent (laptop_probed None) 2%nat (nvidia None)
              (conj eq_refl eq_refl)) as [Off On].
  split.
  - destruct (Off eq_refl) as (w1 & w2 & _ & _ & E & _ & Once).
    destruct (Once eq_refl eq_refl) as (_ & _ & C).
    exists w2. split; [exact E | exact C].
  - destruct (On eq_refl) as (w' & E & K & _).
    exists w'. split; [exact E | exact K].
Defined.

(** C8 as stated fails without its conditions: on the laptop with nouveau
    bound two calls of [discrete_off] evaluate "_OFF" not once but never,
    and on the machine whose firmware does nothing they evaluate it
    twice. *)
Lemma off_twice_not_once :
  ~ off_twice_calls_once (laptop_probed (Some "nouveau")) /\
  ~ off_twice_calls_once stuck_probed.
Proof.
  split; intros H.
  - destruct (H 2%nat (nvidia (Some "nouveau")) (conj eq_refl eq_refl))
      as (w2 & E & C).
    vm_compute in E. inversion E; subst w2.
    vm_compute in C. discriminate C.
  - destruct (H 2%nat (nvidia None) (conj eq_refl eq_refl))
      as (w2 & E & C).
    vm_compute in E. inversion E; subst w2.
    vm_compute in C. discriminate C.
Qed.

Lemma pm_handler_matrix_witness :
  discrete_pm_handler PM_SUSPEND_PREPARE laptop_loaded =
    (guarded discrete_on ;; ret 0) laptop_loaded /\
  discrete_pm_handler PM_POST_SUSPEND laptop_loaded = Some (0, laptop_loaded) /\
  discrete_pm_handler PM_RESTORE_PREPARE laptop_loaded =
    Some (0, laptop_loaded).
Proof.
  split; [|split].
  - exact (proj1 (pm_handler_matrix laptop_loaded PM_SUSPEND_PREPARE
                    linux_pm_labels_distinct) (or_intror eq_refl)).
  - exact (proj1 (proj2 (pm_handler_matrix laptop_loaded PM_POST_SUSPEND
                           linux_pm_labels_distinct))
             (or_intror (or_introl eq_refl))).
  - exact (proj1 (proj2 (proj2 (pm_handler_matrix laptop_loaded
                                  PM_RESTORE_PREPARE
                                  linux_pm_labels_distinct))) eq_refl).
Defined.

Lemma pm_handler_returns_zero_witness :
  (exists w', discrete_pm_handler 42 laptop_loaded = Some (0, w')) /\
  discrete_pm_handler 42 laptop_loaded = Some (0, laptop_loaded).
Proof.
  destruct (pm_handler_returns_zero laptop_loaded 2%nat (nvidia None) 42
              (conj eq_refl eq_refl)) as [Z Same].
  split; [exact Z|]. apply Same.
  cbn. intuition discriminate.
Defined.

Lemma exit_enabled_leaks_guard_witness :
  exists w',
    discrete_disabler_exit laptop_resumed = Some (tt, w') /\
    trace (kern w') =
      trace (kern laptop_resumed) ++ [k_pm_runtime_get_sync 1%nat] /\
    guard_depth (trace (kern w')) = 1.
Proof.
  destruct (exit_enabled_leaks_guard laptop_resumed 2%nat
              (nvidia (Some "nouveau")) 2%nat 1%nat
              (conj eq_refl eq_refl) eq_refl eq_refl)
    as (w' & E & T & D).
  - discriminate.
  - reflexivity.
  - exists w'. split; [exact E|]. split; [exact T|]. rewrite D. reflexivity.
Defined.

Lemma exit_enabled_skips_cleanup_witness :
  exists w',
    discrete_disabler_exit laptop_resumed = Some (tt, w') /\
    pm_chain_has_nb (kern w') = true /\
    count is_put (trace (kern w')) = count is_put (trace (kern laptop_resumed)).
Proof.
  destruct (exit_enabled_skips_cleanup laptop_resumed 2%nat
              (nvidia (Some "nouveau")) 2%nat
              (conj eq_refl eq_refl) eq_refl)
    as (w' & E & R & P & _).
  - discriminate.
  - reflexivity.
  - reflexivity.
  - exists w'. split; [exact E|]. split; [exact R | exact P].
Defined.

Lemma init_no_discrete_device_witness :
  exists w',
    discrete_disabler_init (insmod (PF := laptop) [igd; root_port] true) =
      Some (- ENODEV, w') /\
    count is_firmware_call (trace (kern w')) = 0%nat.
Proof.
  apply (init_no_discrete_device (PF := laptop) [igd; root_port] true).
  intros d [<- | [<- | []]]; reflexivity.
Defined.

(** Two NVIDIA devices: before an Intel one the second wins, around it the
    first, the scan having stopped at the Intel device. *)
Example two_discrete_then_integrated :
  option_map (fun rw => dis_dev (vars (snd rw)))
    (discrete_disabler_init
       (insmod (PF := laptop) [nvidia None; nvidia None; igd] true)) =
  Some (Some 1%nat).
Proof. reflexivity. Qed.

Example integrated_between_discrete :
  option_map (fun rw => dis_dev (vars (snd rw)))
    (discrete_disabler_init
       (insmod (PF := laptop) [nvidia None; igd; nvidia None] true)) =
  Some (Some 0%nat).
Proof. reflexivity. Qed.

End OnTheLaptop.

(** * On the laptop: instances of the further properties *)

Section FurtherOnTheLaptop.

#[local] Existing Instance linux_headers.
#[local] Existing Instance laptop.

Lemma laptop_obeys : firmware_obeyed (PF := laptop) 2%nat (Some 2%nat).
Proof. split; intros m; [reflexivity | discriminate]. Qed.

Lemma laptop_stable : register_stable (PF := laptop) 2%nat.
Proof. intros m c Hc. destruct c; try discriminate Hc; reflexivity. Qed.

Example stuck_probed_reached :
  @discrete_disabler_init linux_headers stuck_laptop
    (@insmod stuck_laptop [igd; root_port; nvidia None] tt) =
  (discrete_off ;;
   pr_info "Successfully disable discrete card %s\n" ;;
   assign set_nb_notifier_call ;;
   call k_register_pm_notifier ;;
   dis_dev_put ;;
   ret 0) stuck_probed.
Proof. reflexivity. Qed.

Example laptop_refused_reached :
  discrete_disabler_init (laptop_at_boot (Some "nouveau")) =
  Some (0, laptop_refused).
Proof. vm_compute. reflexivity. Qed.

Lemma off_then_on_round_trip_witness :
  exists w',
    (discrete_off ;; discrete_on) (laptop_probed None) = Some (tt, w') /\
    trace (kern w') =
      trace (kern (laptop_probed None)) ++
      [k_acpi_evaluate_object (Some 2%nat) "_OFF";
       k_acpi_evaluate_object (Some 2%nat) "_ON"] /\
    discrete_state (vars w') = GPU_ENABLE /\
    get_discrete_state w' = Some (GPU_ENABLE, w').
Proof.
  destruct (off_then_on_round_trip (laptop_probed None) 2%nat (nvidia None)
              (conj eq_refl eq_refl) eq_refl eq_refl laptop_obeys)
    as (w' & E & T & S & R & _).
  exists w'. auto.
Defined.

Lemma discrete_off_trusts_firmware_witness :
  exists w1 w2,
    discrete_off stuck_probed = Some (tt, w1) /\
    discrete_state (vars w1) = GPU_DISABLE /\
    get_discrete_state w1 = Some (GPU_ENABLE, w1) /\
    discrete_off w1 = Some (tt, w2) /\
    count (is_method_call "_OFF") (trace (kern w2)) = 2%nat.
Proof.
  destruct (@discrete_off_trusts_firmware stuck_laptop stuck_probed 2%nat
              (nvidia None) (conj eq_refl eq_refl) eq_refl eq_refl
              (fun m => eq_refl))
    as (w1 & w2 & E1 & S & R & E2 & T).
  exists w1, w2. repeat split; try assumption. rewrite T. reflexivity.
Defined.

Lemma pm_events_frame_witness :
  exists w',
    pm_events [PM_SUSPEND_PREPARE; PM_POST_SUSPEND; PM_RESTORE_PREPARE; 42]
      laptop_loaded = Some (tt, w') /\
    notifier_frame laptop_loaded w'.
Proof.
  destruct (pm_events_frame laptop_loaded 2%nat (nvidia None)
              [PM_SUSPEND_PREPARE; PM_POST_SUSPEND; PM_RESTORE_PREPARE; 42]
              (conj eq_refl eq_refl))
    as (w' & E & F & _).
  exists w'. auto.
Defined.

Lemma pm_events_inert_witness :
  pm_events [PM_SUSPEND_PREPARE; PM_POST_SUSPEND] laptop_refused =
  Some (tt, laptop_refused).
Proof.
  apply (pm_events_inert laptop_refused).
  right. split; discriminate.
Defined.

Lemma sleep_cycle_round_trip_witness :
  exists w',
    (discrete_pm_handler PM_SUSPEND_PREPARE ;;
     discrete_pm_handler PM_POST_SUSPEND) laptop_loaded = Some (0, w') /\
    firmware_calls (trace (kern w')) =
      firmware_calls (trace (kern laptop_loaded)) ++
      [k_acpi_evaluate_object (Some 2%nat) "_ON";
       k_acpi_evaluate_object (Some 2%nat) "_OFF"] /\
    discrete_state (vars w') = GPU_DISABLE.
Proof.
  destruct (sleep_cycle_round_trip laptop_loaded 2%nat (nvidia None)
              PM_SUSPEND_PREPARE PM_POST_SUSPEND
              linux_pm_labels_distinct (or_intror eq_refl)
              (or_intror (or_introl eq_refl))
              (conj eq_refl eq_refl) eq_refl eq_refl eq_refl eq_refl
              laptop_obeys laptop_stable)
    as (w' & E & F & S & _).
  exists w'. auto.
Defined.

Lemma init_finds_candidate_witness :
  exists w' p d h,
    discrete_disabler_init (laptop_at_boot None) = Some (0, w') /\
    dis_dev (vars w') = Some p /\
    nth_error (pci_devices (kern w')) p = Some d /\
    discrete_candidate d = true /\
    dis_handle (vars w') = Some h.
Proof.
  destruct (init_finds_candidate (PF := laptop)
              [igd; root_port; nvidia None] true)
    as (w' & p & d & h & E & P & N & _ & C & _ & H & _).
  - exists (nvidia None). split; [cbn; tauto | reflexivity].
  - exists w', p, d, h. auto.
Defined.

Lemma first_discrete_after_integrated_witness :
  exists w',
    discrete_disabler_init
      (insmod (PF := laptop)
         ([igd; root_port] ++ nvidia None :: [nvidia None]) true)
      = Some (0, w') /\
    dis_dev (vars w') = Some 2%nat /\
    count is_enumeration (trace (kern w')) = 3%nat.
Proof.
  apply (first_discrete_after_integrated (PF := laptop)
           [igd; root_port] [nvidia None] (nvidia None) true).
  - exists igd. split; [left; reflexivity | reflexivity].
  - intros x [<- | [<- | []]]; reflexivity.
  - reflexivity.
Defined.

Lemma last_discrete_without_integrated_witness :
  exists w',
    discrete_disabler_init
      (insmod (PF := laptop)
         ([nvidia None] ++ nvidia None :: [root_port]) true)
      = Some (0, w') /\
    dis_dev (vars w') = Some 1%nat /\
    count is_enumeration (trace (kern w')) = 4%nat.
Proof.
  apply (last_discrete_without_integrated (PF := laptop)
           [nvidia None] [root_port] (nvidia None) true).
  - intros x [<- | [<- | [<- | []]]]; reflexivity.
  - reflexivity.
  - intros x [<- | []]; reflexivity.
Defined.

Lemma exit_restores_witness :
  exists w',
    discrete_disabler_exit laptop_loaded = Some (tt, w') /\
    pm_chain_has_nb (kern w') = false /\
    firmware_calls (trace (kern w')) =
      firmware_calls (trace (kern laptop_loaded)) ++
      [k_acpi_evaluate_object (Some 2%nat) "_ON"] /\
    discrete_state (vars w') = GPU_ENABLE /\
    get_discrete_state w' = Some (GPU_ENABLE, w').
Proof.
  destruct (exit_restores laptop_loaded 2%nat (nvidia None) 2%nat
              (conj eq_refl eq_refl) eq_refl)
    as (w' & E & _ & N & Off & _).
  - discriminate.
  - discriminate.
  - exact laptop_stable.
  - destruct (Off eq_refl) as (F & S & R).
    exists w'. repeat split; auto. apply R, laptop_obeys.
Defined.

Lemma load_unload_restores_witness :
  exists w1 w2,
    discrete_disabler_init (laptop_at_boot None) = Some (0, w1) /\
    discrete_disabler_exit w1 = Some (tt, w2) /\
    firmware_calls (trace (kern w2)) =
      [k_acpi_evaluate_object (Some 2%nat) "_OFF";
       k_acpi_evaluate_object (Some 2%nat) "_ON"] /\
    get_discrete_state w2 = Some (GPU_ENABLE, w2) /\
    pm_chain_has_nb (kern w2) = false.
Proof.
  destruct (load_unload_restores (PF := laptop)
              [igd; root_port; nvidia None] true 2%nat (nvidia None))
    as (w1 & w2 & E1 & _ & _ & _ & _ & _ & E2 & F & _ & R & N & _).
  - vm_compute. reflexivity.
  - reflexivity.
  - discriminate.
  - exact laptop_obeys.
  - exact laptop_stable.
  - exists w1, w2. auto.
Defined.

Lemma refused_load_is_harmless_witness :
  exists w1,
    discrete_disabler_init (laptop_at_boot (Some "nouveau")) = Some (0, w1) /\
    pm_chain_has_nb (kern w1) = true /\
    exists w2,
      (pm_events [PM_SUSPEND_PREPARE; PM_POST_SUSPEND] ;;
       discrete_disabler_exit) w1 = Some (tt, w2) /\
      firmware_calls (trace (kern w2)) = [] /\
      pm_chain_has_nb (kern w2) = false.
Proof.
  destruct (refused_load_is_harmless (PF := laptop)
              [igd; root_port; nvidia (Some "nouveau")] true 2%nat
              (nvidia (Some "nouveau")) "nouveau")
    as (w1 & E1 & _ & _ & N & Later).
  - vm_compute. reflexivity.
  - reflexivity.
  - discriminate.
  - exact laptop_stable.
  - destruct (Later [PM_SUSPEND_PREPARE; PM_POST_SUSPEND])
      as (w2 & E2 & F & _ & N2 & _).
    exists w1. split; [exact E1|]. split; [exact N|].
    exists w2. auto.
Defined.

Lemma load_without_switch_is_final_witness :
  exists r w1,
    discrete_disabler_init (insmod (PF := laptop) [igd; root_port] true)
      = Some (r, w1) /\
    load_discrete_state (vars w1) <> GPU_ENABLE /\
    exists w2,
      (pm_events [PM_SUSPEND_PREPARE; PM_POST_SUSPEND] ;;
       discrete_disabler_exit) w1 = Some (tt, w2) /\
      kern w2 = kern w1.
Proof.
  destruct (load_without_switch_is_final (PF := laptop)
              [igd; root_port] true) as (r & w1 & E & Later).
  assert (L : load_discrete_state (vars w1) <> GPU_ENABLE).
  { vm_compute in E. inversion E; subst. discriminate. }
  destruct (Later L) as (_ & _ & Run).
  destruct (Run [PM_SUSPEND_PREPARE; PM_POST_SUSPEND]) as (w2 & E2 & _ & K).
  exists r, w1. split; [exact E|]. split; [exact L|].
  exists w2. auto.
Defined.

End FurtherOnTheLaptop.
